(** * td-blog-engine: scoring engine and optimization loop

    A shallow embedding of [src/scoring.py], [src/optimizer.py] and the
    constants of [src/config.py], with the properties of the engine
    stated and proved over it.

    Conventions of the embedding.
    - Python [str] is [string]; a character stands for the code point
      of the same number, so the texts covered are those whose code
      points are below 256.  The three symbols of the message literals
      outside that range are kept as their UTF-8 bytes.
    - Python [int] is [Z] (or [nat] for lengths and counts), Python
      [float] is an exact rational [Q].
    - An exception is a value of [exn]; code that can raise returns a
      [result].
    - The regular-expression search over pattern lists, the YAML loader,
      the float formatter and the square root are collaborators of the
      engine and are section variables. *)

From Stdlib Require Import Bool Arith ZArith QArith Qminmax Lia Lqa List Ascii String.
Import ListNotations.

Set Implicit Arguments.

Close Scope Q_scope.
Open Scope string_scope.
Open Scope list_scope.
Open Scope nat_scope.

(** ** Python built-in string operations *)

Module PyStr.

(** [str.isspace] on code points below 256. *)
Definition is_space (c : ascii) : bool :=
  let n := nat_of_ascii c in
  ((9 <=? n) && (n <=? 13)) || ((28 <=? n) && (n <=? 32))
  || (n =? 133) || (n =? 160).

Fixpoint lstrip (s : string) : string :=
  match s with
  | EmptyString => EmptyString
  | String c s' => if is_space c then lstrip s' else s
  end.

Fixpoint rstrip (s : string) : string :=
  match s with
  | EmptyString => EmptyString
  | String c s' =>
      match rstrip s' with
      | EmptyString => if is_space c then EmptyString else String c EmptyString
      | r => String c r
      end
  end.

(** [s.strip()] *)
Definition strip (s : string) : string := rstrip (lstrip s).

(** [s.startswith(p)] *)
Definition startswith (s p : string) : bool := String.prefix p s.

(** [s[n:]] *)
Fixpoint drop (n : nat) (s : string) : string :=
  match n, s with
  | O, _ => s
  | S _, EmptyString => EmptyString
  | S n', String _ s' => drop n' s'
  end.

(** [s.split(sep)] for a one-character separator: never empty. *)
Fixpoint split_on (sep : ascii) (s : string) : list string :=
  match s with
  | EmptyString => [EmptyString]
  | String c s' =>
      if Ascii.eqb c sep then EmptyString :: split_on sep s'
      else match split_on sep s' with
           | [] => [String c EmptyString]
           | w :: ws => String c w :: ws
           end
  end.

(** [s.split()]: maximal runs of non-space characters. *)
Fixpoint split_ws_aux (cur : string) (s : string) : list string :=
  match s with
  | EmptyString => match cur with EmptyString => [] | _ => [cur] end
  | String c s' =>
      if is_space c
      then match cur with
           | EmptyString => split_ws_aux EmptyString s'
           | _ => cur :: split_ws_aux EmptyString s'
           end
      else split_ws_aux (cur ++ String c EmptyString)%string s'
  end.

Definition split_ws (s : string) : list string := split_ws_aux EmptyString s.

(** [s.lower()] on code points below 256. *)
Definition lower_char (c : ascii) : ascii :=
  let n := nat_of_ascii c in
  if ((65 <=? n) && (n <=? 90))
     || ((192 <=? n) && (n <=? 222) && negb (n =? 215))
  then ascii_of_nat (n + 32) else c.

Fixpoint lower (s : string) : string :=
  match s with
  | EmptyString => EmptyString
  | String c s' => String (lower_char c) (lower s')
  end.

(** [needle in hay] *)
Fixpoint contains (needle hay : string) : bool :=
  String.prefix needle hay
  || match hay with
     | EmptyString => false
     | String _ hay' => contains needle hay'
     end.

(** Number of non-overlapping occurrences, scanning left to right;
    an empty needle occurs once at every position, the end included
    ([s.count(x)] and [len(re.findall(re.escape(x), s))]). *)
Fixpoint count_from (fuel : nat) (needle s : string) : nat :=
  match fuel with
  | O => 0
  | S fuel' =>
      if String.prefix needle s
      then S (match needle, s with
              | EmptyString, EmptyString => 0
              | EmptyString, String _ s' => count_from fuel' needle s'
              | _, _ => count_from fuel' needle (drop (String.length needle) s)
              end)
      else match s with
           | EmptyString => 0
           | String _ s' => count_from fuel' needle s'
           end
  end.

Definition count (s needle : string) : nat :=
  count_from (S (String.length s)) needle s.

(** [sep.join(l)] *)
Definition join (sep : string) (l : list string) : string :=
  String.concat sep l.

(** [l[:n]] *)
Definition take {A} (n : nat) (l : list A) : list A := firstn n l.

(** [str(n)] for a non-negative integer. *)
Fixpoint digits (fuel n : nat) (acc : string) : string :=
  match fuel with
  | O => acc
  | S fuel' =>
      let acc' := String (ascii_of_nat (48 + n mod 10)) acc in
      if n <? 10 then acc' else digits fuel' (n / 10) acc'
  end.

Definition of_nat (n : nat) : string := digits (S n) n EmptyString.

Definition of_Z (z : Z) : string :=
  if (z <? 0)%Z then ("-" ++ of_nat (Z.to_nat (- z)))%string
  else of_nat (Z.to_nat z).

Definition newline : ascii := ascii_of_nat 10.

End PyStr.

(** ** The fixed patterns of [re.sub], [re.split], [re.findall] and
    [re.match] used by the engine, transcribed as scanners *)

Module Re.
Import PyStr.

Definition first_some {A B} (f : A -> option B) (l : list A) : option B :=
  fold_right (fun a r => match f a with Some b => Some b | None => r end) None l.

(** Length of the longest prefix whose characters satisfy [p]. *)
Fixpoint run_length (p : ascii -> bool) (s : string) : nat :=
  match s with
  | EmptyString => 0
  | String c s' => if p c then S (run_length p s') else 0
  end.

(** [re.sub('[...]', repl, s)] for a character class. *)
Fixpoint sub_class (cls : ascii -> bool) (repl : string) (s : string) : string :=
  match s with
  | EmptyString => EmptyString
  | String c s' =>
      if cls c then (repl ++ sub_class cls repl s')%string
      else String c (sub_class cls repl s')
  end.

Definition one_of (chars : string) (c : ascii) : bool :=
  existsb (Ascii.eqb c) (list_ascii_of_string chars).

(** Length of the scheme of a match of [https?://\S+] at the start. *)
Definition url_scheme_length (s : string) : option nat :=
  let followed n :=
    match drop n s with
    | String c _ => negb (is_space c)
    | EmptyString => false
    end in
  if startswith s "https://" && followed 8 then Some 8
  else if startswith s "http://" && followed 7 then Some 7
  else None.

(** [re.sub(r'https?://\S+', '', s)]: [skip] characters of a scheme
    remain to be dropped; [in_url] is set while the run of non-space
    characters of a match is being dropped. *)
Fixpoint remove_urls_aux (skip : nat) (in_url : bool) (s : string) : string :=
  match s with
  | EmptyString => EmptyString
  | String c s' =>
      match skip with
      | S k => remove_urls_aux k true s'
      | O =>
          if in_url && negb (is_space c) then remove_urls_aux 0 true s'
          else match url_scheme_length s with
               | Some n => remove_urls_aux (n - 1) true s'
               | None => String c (remove_urls_aux 0 false s')
               end
      end
  end.

Definition remove_urls (s : string) : string := remove_urls_aux 0 false s.

(** Length of a match of [[.!?]+\s+] at the start of [s]. *)
Definition sentence_break_length (s : string) : option nat :=
  let p := run_length (one_of ".!?") s in
  let w := run_length is_space (drop p s) in
  if (p =? 0) || (w =? 0) then None else Some (p + w).

(** [re.split(r'[.!?]+\s+', s)] *)
Fixpoint split_sentences_aux (skip : nat) (cur : string) (s : string)
  : list string :=
  match s with
  | EmptyString => [cur]
  | String c s' =>
      match skip with
      | S k => split_sentences_aux k cur s'
      | O =>
          match sentence_break_length s with
          | Some n => cur :: split_sentences_aux (n - 1) EmptyString s'
          | None => split_sentences_aux 0 (cur ++ String c EmptyString)%string s'
          end
      end
  end.

Definition split_sentences (s : string) : list string :=
  split_sentences_aux 0 EmptyString s.

(** A match of [\[([^\]]+)\]\(([^\)]+)\)] at the start of [s]:
    anchor text, target and length of the match. *)
Definition link_at (s : string) : option (string * string * nat) :=
  match s with
  | String "[" s1 =>
      let a := run_length (fun c => negb (Ascii.eqb c "]")) s1 in
      if (a =? 0) || negb (startswith (drop a s1) "](") then None
      else
        let s2 := drop (a + 2) s1 in
        let u := run_length (fun c => negb (Ascii.eqb c ")")) s2 in
        if (u =? 0) || negb (startswith (drop u s2) ")") then None
        else Some (substring 0 a s1, substring 0 u s2, a + u + 4)
  | _ => None
  end.

(** [re.findall(r'\[([^\]]+)\]\(([^\)]+)\)', s)] *)
Fixpoint findall_links_aux (skip : nat) (s : string) : list (string * string) :=
  match s with
  | EmptyString => []
  | String _ s' =>
      match skip with
      | S k => findall_links_aux k s'
      | O =>
          match link_at s with
          | Some (a, u, n) => (a, u) :: findall_links_aux (n - 1) s'
          | None => findall_links_aux 0 s'
          end
      end
  end.

Definition findall_links (s : string) : list (string * string) :=
  findall_links_aux 0 s.

(** What can follow a match of [\s*\n] at the start of [s], the
    greedy choice (the last line feed of the blank run) first. *)
Fixpoint blank_then_newline_asc (s : string) : list string :=
  match s with
  | EmptyString => []
  | String c s' =>
      if is_space c
      then (if Ascii.eqb c newline then [s'] else []) ++ blank_then_newline_asc s'
      else []
  end.

Definition blank_then_newline (s : string) : list string :=
  rev (blank_then_newline_asc s).

(** A match of the closing part of the preamble pattern (a line feed,
    three dashes, a blank run ending in a line feed, then the rest
    of the text) at the start of [s]: group 2, the rest. *)
Definition closing_at (s : string) : option string :=
  if startswith s (String newline "---")
  then hd_error (blank_then_newline (drop 4 s))
  else None.

(** The lazy group 1 of the preamble pattern: the shortest prefix
    after which the closing marker matches. *)
Fixpoint find_closing (acc : string) (s : string) : option (string * string) :=
  match closing_at s with
  | Some body => Some (acc, body)
  | None =>
      match s with
      | EmptyString => None
      | String c s' => find_closing (acc ++ String c EmptyString)%string s'
      end
  end.

(** The [re.match] of [parse_frontmatter], under [re.DOTALL]: three
    dashes at the very start, a blank run ending in a line feed, the
    lazy group 1, the closing part with group 2. *)
Definition match_frontmatter (content : string) : option (string * string) :=
  if startswith content "---"
  then first_some (find_closing EmptyString) (blank_then_newline (drop 3 content))
  else None.

End Re.

Definition nl : string := String PyStr.newline EmptyString.

(** An f-string: the concatenation of its literal and formatted parts. *)
Definition fstr (parts : list string) : string := String.concat "" parts.

(** ** Constants of [config.py] *)

Module BUSINESS.
Definition communities : list string :=
  ["Westerville"; "Dublin"; "Powell"; "Delaware"; "Lewis Center";
   "Sunbury"; "Galena"; "Centerburg"; "Johnstown"; "New Albany";
   "Gahanna"; "Reynoldsburg"; "Pickerington"; "Canal Winchester";
   "Grove City"; "Hilliard"; "Plain City"].
End BUSINESS.

Module SCORING.
Module word_count.
Definition weight : Z := 10.
Definition target_min : Z := 1500.
Definition target_max : Z := 2500.
Definition hard_min : Z := 800.
Definition hard_max : Z := 3500.
End word_count.
Module keyword_optimization.
Definition weight : Z := 15.
Definition target_density_min : Q := 8 # 1000.
Definition target_density_max : Q := 2 # 100.
End keyword_optimization.
Module heading_structure.
Definition weight : Z := 10.
Definition target_h2_count_min : Z := 3.
Definition target_h2_count_max : Z := 8.
Definition target_h3_count_min : Z := 2.
End heading_structure.
Module readability.
Definition weight : Z := 10.
Definition target_avg_sentence_length_min : Z := 12.
Definition target_avg_sentence_length_max : Z := 22.
Definition target_avg_paragraph_sentences_min : Z := 2.
Definition target_avg_paragraph_sentences_max : Z := 5.
End readability.
Module local_seo.
Definition weight : Z := 15.
Definition community_mention_min : Z := 3.
Definition region_terms : list string :=
  ["Central Ohio"; "Franklin County"; "Delaware County";
   "Columbus"; "Columbus metro"; "I-270"; "I-71";
   "Polaris"; "Easton"; "Short North"].
End local_seo.
Module meta_description.
Definition weight : Z := 10.
Definition target_length_min : Z := 140.
Definition target_length_max : Z := 160.
End meta_description.
Module internal_linking.
Definition weight : Z := 10.
Definition target_min_links : Z := 3.
Definition target_max_links : Z := 8.
End internal_linking.
Module content_depth.
Definition weight : Z := 10.
Definition target_unique_sections : Z := 4.
End content_depth.
Module call_to_action.
Definition weight : Z := 5.
Definition target_cta_count_min : Z := 2.
Definition target_cta_count_max : Z := 4.
End call_to_action.
Module frontmatter.
Definition weight : Z := 5.
Definition required_fields : list string :=
  ["title"; "description"; "date"; "keywords"; "author"; "community"; "category"].
End frontmatter.
End SCORING.

Module ITERATIONS.
Definition default_count : Z := 5.
Definition max_count : Z := 15.
Definition plateau_patience : Z := 2.
End ITERATIONS.

(** ** Python values, exceptions and the operations that can raise *)

Inductive exn : Type :=
| AttributeError
| TypeError
| KeyError
| YAMLError
| OtherError (name : string).

Inductive result (A : Type) : Type :=
| Ok (a : A)
| Raise (e : exn).

Arguments Ok {A} a.
Arguments Raise {A} e.

Definition bind {A B} (r : result A) (k : A -> result B) : result B :=
  match r with
  | Ok a => k a
  | Raise e => Raise e
  end.

Notation "x <- r ;; k" := (bind r (fun x => k))
  (at level 61, r at next level, right associativity).
Notation "' p <- r ;; k" := (bind r (fun p => k))
  (at level 61, p pattern, r at next level, right associativity).

(** The values a YAML preamble can hold. *)
#[warnings="-register-all"]
Inductive pyval : Type :=
| PNone
| PBool (b : bool)
| PInt (z : Z)
| PFloat (q : Q)
| PStr (s : string)
| PDate (iso : string)
| PList (l : list pyval)
| PDict (d : list (string * pyval)).

(** Truth value of a Python object. *)
Definition truthy (v : pyval) : bool :=
  match v with
  | PNone => false
  | PBool b => b
  | PInt z => negb (z =? 0)%Z
  | PFloat q => negb (Qeq_bool q 0)
  | PStr s => negb (s =? "")%string
  | PDate _ => true
  | PList l => match l with [] => false | _ => true end
  | PDict d => match d with [] => false | _ => true end
  end.

Fixpoint lookup (key : string) (d : list (string * pyval)) : option pyval :=
  match d with
  | [] => None
  | (k, v) :: d' => if (k =? key)%string then Some v else lookup key d'
  end.

(** [obj.get(key, default)]: only a mapping has the method. *)
Definition py_get (obj : pyval) (key : string) (default : pyval) : result pyval :=
  match obj with
  | PDict d => Ok (match lookup key d with Some v => v | None => default end)
  | _ => Raise AttributeError
  end.

(** [obj.lower()]: only a string has the method. *)
Definition py_lower (obj : pyval) : result string :=
  match obj with
  | PStr s => Ok (PyStr.lower s)
  | _ => Raise AttributeError
  end.

(** [len(obj)] *)
Definition py_len (obj : pyval) : result Z :=
  match obj with
  | PStr s => Ok (Z.of_nat (String.length s))
  | PList l => Ok (Z.of_nat (List.length l))
  | PDict d => Ok (Z.of_nat (List.length d))
  | _ => Raise TypeError
  end.

(** [key in obj] *)
Definition py_in (key : string) (obj : pyval) : result bool :=
  match obj with
  | PDict d => Ok (match lookup key d with Some _ => true | None => false end)
  | PStr s => Ok (PyStr.contains key s)
  | PList l =>
      Ok (existsb (fun v => match v with PStr s => (s =? key)%string | _ => false end) l)
  | _ => Raise TypeError
  end.

(** [obj[key]] for a string key. *)
Definition py_getitem (obj : pyval) (key : string) : result pyval :=
  match obj with
  | PDict d => match lookup key d with Some v => Ok v | None => Raise KeyError end
  | _ => Raise TypeError
  end.

(** [len(l)] of a list, as a Python integer. *)
Definition len {A} (l : list A) : Z := Z.of_nat (List.length l).

(** ** Feature extractors *)

(** The heading inventory: the dictionary with keys h1 to h4. *)
Record Headings : Type := mkHeadings {
  h1 : list string;
  h2 : list string;
  h3 : list string;
  h4 : list string
}.

Definition count_words (text : string) : Z :=
  let clean := Re.sub_class (Re.one_of "#*[]()>`_~") " " text in
  let clean := Re.remove_urls clean in
  len (PyStr.split_ws clean).

Definition extract_headings_step (headings : Headings) (line : string) : Headings :=
  let line := PyStr.strip line in
  if PyStr.startswith line "#### " then
    mkHeadings (h1 headings) (h2 headings) (h3 headings)
               (h4 headings ++ [PyStr.strip (PyStr.drop 5 line)])
  else if PyStr.startswith line "### " then
    mkHeadings (h1 headings) (h2 headings)
               (h3 headings ++ [PyStr.strip (PyStr.drop 4 line)]) (h4 headings)
  else if PyStr.startswith line "## " then
    mkHeadings (h1 headings) (h2 headings ++ [PyStr.strip (PyStr.drop 3 line)])
               (h3 headings) (h4 headings)
  else if PyStr.startswith line "# " then
    mkHeadings (h1 headings ++ [PyStr.strip (PyStr.drop 2 line)]) (h2 headings)
               (h3 headings) (h4 headings)
  else headings.

Definition extract_headings (body : string) : Headings :=
  fold_left extract_headings_step (PyStr.split_on PyStr.newline body)
            (mkHeadings [] [] [] []).

Definition extract_sentences (text : string) : list string :=
  let clean := Re.sub_class (Re.one_of "#*>[]()") "" text in
  let clean := Re.remove_urls clean in
  let sentences := Re.split_sentences clean in
  map PyStr.strip
      (filter (fun s => (2 <? len (PyStr.split_ws (PyStr.strip s)))%Z) sentences).

Definition keep_paragraph (current : list string) (paragraphs : list string)
  : list string :=
  let text := PyStr.join " " current in
  if negb (PyStr.startswith text "#") && (5 <? len (PyStr.split_ws text))%Z
  then paragraphs ++ [text] else paragraphs.

Definition extract_paragraphs_step (st : list string * list string) (line : string)
  : list string * list string :=
  let '(paragraphs, current) := st in
  let stripped := PyStr.strip line in
  if (stripped =? "")%string then
    match current with
    | [] => (paragraphs, current)
    | _ => (keep_paragraph current paragraphs, [])
    end
  else if negb (PyStr.startswith stripped "#") && negb (PyStr.startswith stripped "---")
  then (paragraphs, current ++ [stripped])
  else (paragraphs, current).

Definition extract_paragraphs (body : string) : list string :=
  let '(paragraphs, current) :=
    fold_left extract_paragraphs_step (PyStr.split_on PyStr.newline body) ([], []) in
  match current with
  | [] => paragraphs
  | _ => keep_paragraph current paragraphs
  end.

(** ** Scoring engine *)

Record ScoreDetail : Type := mkScoreDetail {
  category : string;
  score : Q;
  max_score : Q;
  percentage : Q;
  findings : list string;
  suggestions : list string
}.

Record ScoreReport : Type := mkScoreReport {
  total_score : Q;
  max_possible : Q;
  report_percentage : Q;
  details : list ScoreDetail;
  iteration : Z
}.

(** Comparisons of floats. *)
Definition Qleb (x y : Q) : bool := Qle_bool x y.
Definition Qltb (x y : Q) : bool := negb (Qle_bool y x).

(** [sum(...)] over floats and over integers. *)
Definition Qsum (l : list Q) : Q := fold_left Qplus l 0%Q.
Definition Zsum (l : list Z) : Z := fold_left Z.add l 0%Z.

(** [[x for x in l if f(x)]] where the test can raise. *)
Fixpoint filter_r {A} (f : A -> result bool) (l : list A) : result (list A) :=
  match l with
  | [] => Ok []
  | a :: l' =>
      b <- f a ;;
      rest <- filter_r f l' ;;
      Ok (if b then a :: rest else rest)
  end.

Section Scoring.

Local Open Scope Z_scope.

(** [re.search(pattern, text) is not None] *)
Variable re_search : string -> string -> bool.
(** [yaml.safe_load(text)] *)
Variable yaml_safe_load : string -> result pyval.
(** [format(x, '.Nf')] for a float [x] and [N] decimals *)
Variable format_f : nat -> Q -> string.
(** [x ** 0.5] *)
Variable pow_half : Q -> Q.
(** [list(set(l))]: the distinct elements in the order the set yields them *)
Variable set_order : list string -> list string.

Definition str (z : Z) : string := PyStr.of_Z z.

Definition parse_frontmatter (content : string) : result (pyval * string) :=
  let frontmatter := PDict [] in
  let body := content in
  match Re.match_frontmatter content with
  | Some (group1, group2) =>
      match yaml_safe_load group1 with
      | Ok v => Ok (if truthy v then v else PDict [], group2)
      | Raise YAMLError => Ok (PDict [], group2)
      | Raise e => Raise e
      end
  | None => Ok (frontmatter, body)
  end.

Definition score_word_count (body : string) : ScoreDetail :=
  let wc := count_words body in
  let weight := SCORING.word_count.weight in
  let target_min := SCORING.word_count.target_min in
  let target_max := SCORING.word_count.target_max in
  let hard_min := SCORING.word_count.hard_min in
  let hard_max := SCORING.word_count.hard_max in
  let findings := [fstr ["Word count: "; str wc]] in
  let suggestions : list string := [] in
  let '(score, findings, suggestions) :=
    if (target_min <=? wc) && (wc <=? target_max) then
      (inject_Z weight,
       findings ++ [fstr ["✓ Within target range ("; str target_min; "-";
                          str target_max; ")"]],
       suggestions)
    else if (hard_min <=? wc) && (wc <? target_min) then
      let ratio := (inject_Z (wc - hard_min) / inject_Z (target_min - hard_min))%Q in
      ((inject_Z weight * (0.5 + 0.5 * ratio))%Q,
       findings,
       suggestions ++ [fstr ["Add "; str (target_min - wc);
                             " more words to reach minimum target of ";
                             str target_min]])
    else if (target_max <? wc) && (wc <=? hard_max) then
      let ratio := (inject_Z (hard_max - wc) / inject_Z (hard_max - target_max))%Q in
      ((inject_Z weight * (0.5 + 0.5 * ratio))%Q,
       findings,
       suggestions ++ [fstr ["Trim "; str (wc - target_max); " words — content over ";
                             str target_max; " words can hurt engagement"]])
    else
      ((inject_Z weight * 0.2)%Q,
       findings,
       if wc <? hard_min then
         suggestions ++ [fstr ["Significantly below minimum. Target at least ";
                               str target_min; " words"]]
       else
         suggestions ++ [fstr ["Significantly over maximum. Target under ";
                               str target_max; " words"]])
  in
  mkScoreDetail "Word Count" score (inject_Z weight)
                ((score / inject_Z weight) * 100)%Q findings suggestions.

Definition score_keyword_optimization
           (body : string) (frontmatter : pyval) (primary_keyword : string)
  : result ScoreDetail :=
  let weight := SCORING.keyword_optimization.weight in
  let density_min := SCORING.keyword_optimization.target_density_min in
  let density_max := SCORING.keyword_optimization.target_density_max in
  let points := 0%Q in
  let per_check := (inject_Z weight / 5)%Q in
  let findings : list string := [] in
  let suggestions : list string := [] in
  let kw_lower := PyStr.lower primary_keyword in

  title <- py_get frontmatter "title" (PStr "") ;;
  title_lower <- py_lower title ;;
  let '(points, findings, suggestions) :=
    if PyStr.contains kw_lower title_lower then
      ((points + per_check)%Q, findings ++ ["✓ Primary keyword in title"], suggestions)
    else
      (points, findings ++ ["✗ Primary keyword missing from title"],
       suggestions ++ [fstr ["Include '"; primary_keyword; "' in the post title"]])
  in

  let words := PyStr.split_ws body in
  let first_100 := PyStr.lower (PyStr.join " " (PyStr.take 100 words)) in
  let '(points, findings, suggestions) :=
    if PyStr.contains kw_lower first_100 then
      ((points + per_check)%Q, findings ++ ["✓ Keyword in first 100 words"], suggestions)
    else
      (points, findings ++ ["✗ Keyword missing from first 100 words"],
       suggestions ++ [fstr ["Mention '"; primary_keyword;
                             "' within the first 100 words/opening paragraph"]])
  in

  let headings := extract_headings body in
  let all_headings :=
    PyStr.lower (PyStr.join " " (h1 headings ++ h2 headings ++ h3 headings ++ h4 headings)) in
  let '(points, findings, suggestions) :=
    if PyStr.contains kw_lower all_headings then
      ((points + per_check)%Q, findings ++ ["✓ Keyword appears in headings"], suggestions)
    else
      (points, findings ++ ["✗ Keyword missing from all headings"],
       suggestions ++ [fstr ["Use '"; primary_keyword;
                             "' (or close variant) in at least one H2 subheading"]])
  in

  let total_words := count_words body in
  let '(points, findings, suggestions) :=
    if 0 <? total_words then
      let kw_count := Z.of_nat (PyStr.count (PyStr.lower body) kw_lower) in
      let kw_word_count := len (PyStr.split_ws kw_lower) in
      let density := (inject_Z (kw_count * kw_word_count) / inject_Z total_words)%Q in
      let findings :=
        findings ++ [fstr ["Keyword density: "; format_f 3 density; " (";
                           format_f 1 (density * 100)%Q; "%)"]] in
      if Qleb density_min density && Qleb density density_max then
        ((points + per_check)%Q, findings ++ ["✓ Keyword density in optimal range"],
         suggestions)
      else if Qltb density density_min then
        ((points + per_check * 0.4)%Q, findings,
         suggestions ++ [fstr ["Increase keyword usage — density ";
                               format_f 1 (density * 100)%Q; "% is below ";
                               format_f 1 (density_min * 100)%Q; "% target"]])
      else
        ((points + per_check * 0.3)%Q, findings,
         suggestions ++ [fstr ["Reduce keyword stuffing — density ";
                               format_f 1 (density * 100)%Q; "% exceeds ";
                               format_f 1 (density_max * 100)%Q; "% ceiling"]])
    else (points, findings, suggestions)
  in

  meta_desc <- py_get frontmatter "description" (PStr "") ;;
  meta_desc_lower <- py_lower meta_desc ;;
  let '(points, findings, suggestions) :=
    if PyStr.contains kw_lower meta_desc_lower then
      ((points + per_check)%Q, findings ++ ["✓ Keyword in meta description"], suggestions)
    else
      (points, findings ++ ["✗ Keyword missing from meta description"],
       suggestions ++ [fstr ["Include '"; primary_keyword; "' in the meta description"]])
  in

  Ok (mkScoreDetail "Keyword Optimization" points (inject_Z weight)
                    ((points / inject_Z weight) * 100)%Q findings suggestions).

(** The level of a heading line, as the hierarchy walk of
    [score_heading_structure] reads it. *)
Definition heading_level (line : string) : option Z :=
  let stripped := PyStr.strip line in
  if PyStr.startswith stripped "#### " then Some 4
  else if PyStr.startswith stripped "### " then Some 3
  else if PyStr.startswith stripped "## " then Some 2
  else if PyStr.startswith stripped "# " then Some 1
  else None.

Definition hierarchy_step (st : bool * Z) (line : string) : bool * Z :=
  let '(hierarchy_ok, last_level) := st in
  match heading_level line with
  | None => st
  | Some level =>
      (if (last_level + 1 <? level) && (0 <? last_level) then false else hierarchy_ok,
       level)
  end.

Definition score_heading_structure (body : string) : ScoreDetail :=
  let weight := SCORING.heading_structure.weight in
  let h2_min := SCORING.heading_structure.target_h2_count_min in
  let h2_max := SCORING.heading_structure.target_h2_count_max in
  let h3_min := SCORING.heading_structure.target_h3_count_min in
  let points := 0%Q in
  let per_check := (inject_Z weight / 4)%Q in
  let findings : list string := [] in
  let suggestions : list string := [] in
  let headings := extract_headings body in

  let h1_count := len (h1 headings) in
  let '(points, findings, suggestions) :=
    if h1_count <=? 1 then
      ((points + per_check)%Q,
       findings ++ [fstr ["✓ H1 count: "; str h1_count; " (appropriate)"]],
       suggestions)
    else
      (points,
       findings ++ [fstr ["✗ Multiple H1 tags: "; str h1_count]],
       suggestions ++ [fstr ["Reduce to 1 H1 tag — found "; str h1_count]])
  in

  let h2_count := len (h2 headings) in
  let findings := findings ++ [fstr ["H2 count: "; str h2_count]] in
  let '(points, findings, suggestions) :=
    if (h2_min <=? h2_count) && (h2_count <=? h2_max) then
      ((points + per_check)%Q,
       findings ++ [fstr ["✓ H2 count in target range ("; str h2_min; "-";
                          str h2_max; ")"]],
       suggestions)
    else if 0 <? h2_count then
      ((points + per_check * 0.5)%Q, findings,
       if h2_count <? h2_min then
         suggestions ++ [fstr ["Add more H2 sections — have "; str h2_count;
                               ", target "; str h2_min; "+"]]
       else
         suggestions ++ [fstr ["Consolidate sections — "; str h2_count;
                               " H2s may fragment the content"]])
    else
      (points, findings,
       suggestions ++ ["Add H2 subheadings to break up content into scannable sections"])
  in

  let h3_count := len (h3 headings) in
  let findings := findings ++ [fstr ["H3 count: "; str h3_count]] in
  let '(points, findings, suggestions) :=
    if h3_min <=? h3_count then
      ((points + per_check)%Q,
       findings ++ ["✓ Content has sub-section depth with H3s"], suggestions)
    else if 0 <? h3_count then
      ((points + per_check * 0.6)%Q, findings,
       suggestions ++ [fstr ["Add more H3 sub-sections for depth — have ";
                             str h3_count; ", target "; str h3_min; "+"]])
    else
      (points, findings,
       suggestions ++ ["Add H3 sub-sections under H2s for better content hierarchy"])
  in

  let '(hierarchy_ok, _) :=
    fold_left hierarchy_step (PyStr.split_on PyStr.newline body) (true, 0) in
  let '(points, findings, suggestions) :=
    if hierarchy_ok then
      ((points + per_check)%Q, findings ++ ["✓ Heading hierarchy is logical"],
       suggestions)
    else
      ((points + per_check * 0.3)%Q, findings,
       suggestions ++ ["Fix heading hierarchy — don't skip levels (e.g., H2 → H4)"])
  in

  mkScoreDetail "Heading Structure" points (inject_Z weight)
                ((points / inject_Z weight) * 100)%Q findings suggestions.

Definition score_readability (body : string) : ScoreDetail :=
  let weight := SCORING.readability.weight in
  let sentence_min := SCORING.readability.target_avg_sentence_length_min in
  let sentence_max := SCORING.readability.target_avg_sentence_length_max in
  let paragraph_min := SCORING.readability.target_avg_paragraph_sentences_min in
  let paragraph_max := SCORING.readability.target_avg_paragraph_sentences_max in
  let points := 0%Q in
  let per_check := (inject_Z weight / 3)%Q in
  let findings : list string := [] in
  let suggestions : list string := [] in
  let sentences := extract_sentences body in
  let paragraphs := extract_paragraphs body in

  let '(points, findings, suggestions) :=
    match sentences with
    | _ :: _ =>
        let avg_sentence_len :=
          (inject_Z (Zsum (map (fun s => len (PyStr.split_ws s)) sentences))
           / inject_Z (len sentences))%Q in
        let findings :=
          findings ++ [fstr ["Average sentence length: "; format_f 1 avg_sentence_len;
                             " words"]] in
        if Qleb (inject_Z sentence_min) avg_sentence_len
           && Qleb avg_sentence_len (inject_Z sentence_max) then
          ((points + per_check)%Q, findings ++ ["✓ Sentence length in optimal range"],
           suggestions)
        else if Qltb avg_sentence_len (inject_Z sentence_min) then
          ((points + per_check * 0.6)%Q, findings,
           suggestions
             ++ ["Sentences are too short — combine some for better flow and depth"])
        else
          ((points + per_check * 0.5)%Q, findings,
           suggestions ++ [fstr ["Average sentence too long (";
                                 format_f 0 avg_sentence_len;
                                 " words). Break up complex sentences"]])
    | [] =>
        (points, findings,
         suggestions ++ ["Could not parse sentences — check content formatting"])
    end
  in

  let '(points, findings, suggestions) :=
    match paragraphs with
    | _ :: _ =>
        let para_sentence_counts :=
          map (fun p =>
                 let p_sentences := Re.split_sentences p in
                 len (filter (fun s => 2 <? len (PyStr.split_ws s)) p_sentences))
              paragraphs in
        let avg_para :=
          (inject_Z (Zsum para_sentence_counts) / inject_Z (len para_sentence_counts))%Q in
        let findings :=
          findings ++ [fstr ["Average paragraph length: "; format_f 1 avg_para;
                             " sentences"]] in
        if Qleb (inject_Z paragraph_min) avg_para
           && Qleb avg_para (inject_Z paragraph_max) then
          ((points + per_check)%Q, findings ++ ["✓ Paragraph length in optimal range"],
           suggestions)
        else
          ((points + per_check * 0.5)%Q, findings,
           if Qltb avg_para (inject_Z paragraph_min) then
             suggestions ++ ["Paragraphs are too short — combine related sentences"]
           else
             suggestions
               ++ ["Paragraphs are too long — break into smaller chunks for web readability"])
    | [] => (points, findings, suggestions)
    end
  in

  let '(points, findings, suggestions) :=
    if 3 <? len sentences then
      let lens := map (fun s => len (PyStr.split_ws s)) sentences in
      let mean_len := (inject_Z (Zsum lens) / inject_Z (len lens))%Q in
      let variance :=
        (Qsum (map (fun x => (inject_Z x - mean_len) * (inject_Z x - mean_len)) lens)
         / inject_Z (len lens))%Q in
      let std_dev := pow_half variance in
      let findings :=
        findings ++ [fstr ["Sentence length variety (std dev): "; format_f 1 std_dev]] in
      if Qltb 5 std_dev then
        ((points + per_check)%Q, findings ++ ["✓ Good sentence length variety"],
         suggestions)
      else if Qltb 3 std_dev then
        ((points + per_check * 0.6)%Q, findings,
         suggestions
           ++ ["Vary sentence lengths more — mix short punchy sentences with longer ones"])
      else
        ((points + per_check * 0.3)%Q, findings,
         suggestions
           ++ ["Sentences are too uniform in length — monotonous reading rhythm"])
    else (points, findings, suggestions)
  in

  mkScoreDetail "Readability" points (inject_Z weight)
                ((points / inject_Z weight) * 100)%Q findings suggestions.

Definition local_signals : list string :=
  ["\b\d{5}\b"; "school district"; "elementary|middle school|high school";
   "park\b|trail\b|recreation"; "downtown\s+\w+"; "library|community center";
   "interstate|highway|route\s+\d+"].

Definition other_communities_of (community : string) : list string :=
  filter (fun c => negb (PyStr.lower c =? PyStr.lower community)%string)
         BUSINESS.communities.

Definition score_local_seo (body : string) (community : string) : ScoreDetail :=
  let weight := SCORING.local_seo.weight in
  let mention_min := SCORING.local_seo.community_mention_min in
  let region_terms := SCORING.local_seo.region_terms in
  let points := 0%Q in
  let per_check := (inject_Z weight / 4)%Q in
  let findings : list string := [] in
  let suggestions : list string := [] in
  let body_lower := PyStr.lower body in

  let community_count := Z.of_nat (PyStr.count body_lower (PyStr.lower community)) in
  let findings :=
    findings ++ [fstr ["Community name '"; community; "' mentions: ";
                       str community_count]] in
  let '(points, findings, suggestions) :=
    if mention_min <=? community_count then
      ((points + per_check)%Q, findings ++ ["✓ Sufficient community mentions"],
       suggestions)
    else if 0 <? community_count then
      ((points + per_check * 0.5)%Q, findings,
       suggestions ++ [fstr ["Mention '"; community; "' more — found ";
                             str community_count; ", target "; str mention_min; "+"]])
    else
      (points, findings,
       suggestions ++ [fstr ["'"; community;
                             "' doesn't appear in body text — critical for local SEO"]])
  in

  let region_hits :=
    filter (fun term => PyStr.contains (PyStr.lower term) body_lower) region_terms in
  let findings :=
    findings ++ [fstr ["Regional terms found: "; str (len region_hits); "/";
                       str (len region_terms)]] in
  let '(points, findings, suggestions) :=
    if 3 <=? len region_hits then
      ((points + per_check)%Q,
       findings ++ [fstr ["✓ Good regional context: ";
                          PyStr.join ", " (PyStr.take 5 region_hits)]],
       suggestions)
    else if 1 <=? len region_hits then
      let missing :=
        PyStr.take 3
          (filter (fun t => negb (existsb (String.eqb t) region_hits)) region_terms) in
      ((points + per_check * 0.5)%Q, findings,
       suggestions ++ [fstr ["Add more regional context. Consider: ";
                             PyStr.join ", " missing]])
    else
      (points, findings,
       suggestions
         ++ ["No regional terms found — add Central Ohio, county, landmark references"])
  in

  let other_communities := other_communities_of community in
  let nearby_mentions :=
    filter (fun c => PyStr.contains (PyStr.lower c) body_lower) other_communities in
  let findings :=
    findings ++ [fstr ["Nearby community mentions: "; str (len nearby_mentions)]] in
  let '(points, findings, suggestions) :=
    if 2 <=? len nearby_mentions then
      ((points + per_check)%Q,
       findings ++ [fstr ["✓ References other communities: ";
                          PyStr.join ", " (PyStr.take 4 nearby_mentions)]],
       suggestions)
    else if len nearby_mentions =? 1 then
      ((points + per_check * 0.5)%Q, findings,
       suggestions
         ++ ["Reference more nearby communities for internal linking opportunities"])
    else
      (points, findings,
       suggestions ++ [fstr ["Mention nearby communities (e.g., ";
                             PyStr.join ", " (PyStr.take 3 other_communities);
                             ") for cross-linking"]])
  in

  let signal_count := len (filter (fun p => re_search p body_lower) local_signals) in
  let findings :=
    findings ++ [fstr ["Local detail signals found: "; str signal_count; "/";
                       str (len local_signals)]] in
  let '(points, findings, suggestions) :=
    if 3 <=? signal_count then
      ((points + per_check)%Q, findings ++ ["✓ Strong local detail signals"],
       suggestions)
    else if 1 <=? signal_count then
      ((points + per_check * 0.5)%Q, findings,
       suggestions
         ++ ["Add more hyperlocal details — school districts, parks, ZIP codes, landmarks"])
    else
      (points, findings,
       suggestions
         ++ ["Content lacks local specificity — add school districts, parks, ZIP codes"])
  in

  mkScoreDetail "Local SEO" points (inject_Z weight)
                ((points / inject_Z weight) * 100)%Q findings suggestions.

Definition meta_cta_patterns : list string :=
  ["learn"; "discover"; "find out"; "explore"; "contact"; "call";
   "get started"; "see"; "browse"; "search"; "view"; "check out"].

Definition generic_patterns : list string :=
  ["^this (article|post|blog|page)"; "^read (about|more)"; "^in this (article|post)"].

Definition score_meta_description (frontmatter : pyval) (primary_keyword : string)
  : result ScoreDetail :=
  let weight := SCORING.meta_description.weight in
  let length_min := SCORING.meta_description.target_length_min in
  let length_max := SCORING.meta_description.target_length_max in
  let points := 0%Q in
  let per_check := (inject_Z weight / 4)%Q in
  let findings : list string := [] in
  let suggestions : list string := [] in
  desc <- py_get frontmatter "description" (PStr "") ;;

  if negb (truthy desc) then
    let suggestions :=
      suggestions
        ++ ["Add a meta description in frontmatter — critical for search results CTR"] in
    Ok (mkScoreDetail "Meta Description" 0 (inject_Z weight) 0
                      ["✗ No meta description found"] suggestions)
  else

  desc_len <- py_len desc ;;
  let findings :=
    findings ++ [fstr ["Meta description length: "; str desc_len; " chars"]] in
  let '(points, findings, suggestions) :=
    if (length_min <=? desc_len) && (desc_len <=? length_max) then
      ((points + per_check)%Q,
       findings ++ [fstr ["✓ Length in optimal range ("; str length_min; "-";
                          str length_max; ")"]],
       suggestions)
    else if (100 <=? desc_len) && (desc_len <? length_min) then
      ((points + per_check * 0.6)%Q, findings,
       suggestions ++ [fstr ["Meta description slightly short ("; str desc_len;
                             " chars). Target "; str length_min; "-"; str length_max]])
    else if (length_max <? desc_len) && (desc_len <=? 200) then
      ((points + per_check * 0.5)%Q, findings,
       suggestions ++ [fstr ["Meta description too long ("; str desc_len;
                             " chars) — will be truncated"]])
    else
      (points, findings,
       suggestions ++ [fstr ["Meta description length ("; str desc_len;
                             ") far from optimal. Target "; str length_min; "-";
                             str length_max]])
  in

  desc_lower <- py_lower desc ;;
  let '(points, findings, suggestions) :=
    if PyStr.contains (PyStr.lower primary_keyword) desc_lower then
      ((points + per_check)%Q, findings ++ ["✓ Contains primary keyword"], suggestions)
    else
      (points, findings,
       suggestions ++ [fstr ["Include '"; primary_keyword; "' in meta description"]])
  in

  let '(points, findings, suggestions) :=
    if existsb (fun p => re_search p desc_lower) meta_cta_patterns then
      ((points + per_check)%Q, findings ++ ["✓ Contains action-oriented language"],
       suggestions)
    else
      (points, findings, suggestions ++ ["Add a call-to-action in meta description"])
  in

  let is_generic := existsb (fun p => re_search p desc_lower) generic_patterns in
  let '(points, findings, suggestions) :=
    if negb is_generic && (50 <? desc_len) then
      ((points + per_check)%Q,
       findings ++ ["✓ Description appears unique and compelling"], suggestions)
    else
      ((points + per_check * 0.3)%Q, findings,
       suggestions
         ++ ["Make meta description more compelling — avoid generic openings"])
  in

  Ok (mkScoreDetail "Meta Description" points (inject_Z weight)
                    ((points / inject_Z weight) * 100)%Q findings suggestions).

Definition service_keywords : list string :=
  ["commission"; "listing"; "buyer"; "seller"; "cashback"; "inspection"].

Definition link_eqb (l1 l2 : string * string) : bool :=
  (fst l1 =? fst l2)%string && (snd l1 =? snd l2)%string.

Definition score_internal_linking (body : string) (community : string) : ScoreDetail :=
  let weight := SCORING.internal_linking.weight in
  let min_links := SCORING.internal_linking.target_min_links in
  let max_links := SCORING.internal_linking.target_max_links in
  let points := 0%Q in
  let per_check := (inject_Z weight / 3)%Q in
  let findings : list string := [] in
  let suggestions : list string := [] in

  let links := Re.findall_links body in
  let internal_links :=
    filter (fun l => PyStr.contains "tdrealtyohio.com" (snd l)
                     || PyStr.startswith (snd l) "/") links in
  let external_links :=
    filter (fun l => negb (existsb (link_eqb l) internal_links)) links in
  let findings :=
    findings ++ [fstr ["Internal links: "; str (len internal_links)]] in
  let findings :=
    findings ++ [fstr ["External links: "; str (len external_links)]] in

  let '(points, findings, suggestions) :=
    if (min_links <=? len internal_links) && (len internal_links <=? max_links) then
      ((points + per_check)%Q, findings ++ ["✓ Internal link count in optimal range"],
       suggestions)
    else if 0 <? len internal_links then
      ((points + per_check * 0.5)%Q, findings,
       if len internal_links <? min_links then
         suggestions ++ [fstr ["Add more internal links — have ";
                               str (len internal_links); ", target ";
                               str min_links; "+"]]
       else
         suggestions ++ [fstr ["Too many internal links (";
                               str (len internal_links); ") — may appear spammy"]])
    else
      (points, findings,
       suggestions
         ++ ["Add internal links to community and service pages on tdrealtyohio.com"])
  in

  let has_service_link :=
    existsb (fun l =>
               existsb (fun kw => PyStr.contains kw (PyStr.lower (fst l))
                                  || PyStr.contains kw (PyStr.lower (snd l)))
                       service_keywords)
            internal_links in
  let '(points, findings, suggestions) :=
    if has_service_link then
      ((points + per_check)%Q,
       findings ++ ["✓ Links to service/value proposition pages"], suggestions)
    else
      (points, findings,
       suggestions
         ++ ["Add link to TD Realty's service pages (commission savings, free inspections, etc.)"])
  in

  let other_communities := other_communities_of community in
  let community_links :=
    flat_map (fun l =>
                filter (fun c => PyStr.contains (PyStr.lower c) (PyStr.lower (fst l))
                                 || PyStr.contains (PyStr.lower c) (PyStr.lower (snd l)))
                       other_communities)
             internal_links in
  let '(points, findings, suggestions) :=
    match community_links with
    | _ :: _ =>
        ((points + per_check)%Q,
         findings ++ [fstr ["✓ Cross-community links: ";
                            PyStr.join ", " (set_order community_links)]],
         suggestions)
    | [] =>
        (points, findings,
         suggestions ++ [fstr ["Add links to nearby community pages (e.g., ";
                               PyStr.join ", " (PyStr.take 3 other_communities); ")"]])
    end
  in

  mkScoreDetail "Internal Linking" points (inject_Z weight)
                ((points / inject_Z weight) * 100)%Q findings suggestions.

Definition stat_patterns : list string :=
  ["\d+%"; "\$[\d,]+"; "median"; "average"; "increased|decreased|grew|declined";
   "year-over-year|month-over-month|yoy|mom";
   "according to|data shows|reports? (show|indicate)"].

Definition comparison_patterns : list string :=
  ["pros? and cons?"; "compared? to"; "versus|vs\.?"; "top \d+"; "best \d+";
   "advantages|disadvantages"].

Definition score_content_depth (body : string) : ScoreDetail :=
  let weight := SCORING.content_depth.weight in
  let target_sections := SCORING.content_depth.target_unique_sections in
  let points := 0%Q in
  let per_check := (inject_Z weight / 4)%Q in
  let findings : list string := [] in
  let suggestions : list string := [] in
  let headings := extract_headings body in
  let body_lower := PyStr.lower body in

  let section_count := len (h2 headings) + len (h3 headings) in
  let findings :=
    findings ++ [fstr ["Total sections (H2+H3): "; str section_count]] in
  let '(points, findings, suggestions) :=
    if target_sections <=? section_count then
      ((points + per_check)%Q, findings ++ ["✓ Sufficient content sections"],
       suggestions)
    else if 2 <=? section_count then
      ((points + per_check * 0.5)%Q, findings,
       suggestions ++ [fstr ["Add more content sections — have "; str section_count;
                             ", target "; str target_sections; "+"]])
    else
      (points, findings,
       suggestions ++ ["Content needs more structured sections for depth"])
  in

  let stat_count := len (filter (fun p => re_search p body_lower) stat_patterns) in
  let findings :=
    findings ++ [fstr ["Statistical/data signals: "; str stat_count]] in
  let '(points, findings, suggestions) :=
    if 3 <=? stat_count then
      ((points + per_check)%Q, findings ++ ["✓ Content includes data and statistics"],
       suggestions)
    else if 1 <=? stat_count then
      ((points + per_check * 0.5)%Q, findings,
       suggestions ++ ["Add more market data, statistics, or percentage comparisons"])
    else
      (points, findings,
       suggestions
         ++ ["Include concrete statistics — median home prices, market trends, percentages"])
  in

  let question_count := Z.of_nat (PyStr.count body "?") in
  let has_faq := re_search "faq|frequently asked|common questions" body_lower in
  let findings :=
    findings ++ [fstr ["Questions in content: "; str question_count]] in
  let '(points, findings, suggestions) :=
    if has_faq || (3 <=? question_count) then
      ((points + per_check)%Q, findings ++ ["✓ FAQ/question-based content present"],
       suggestions)
    else if 1 <=? question_count then
      ((points + per_check * 0.5)%Q, findings,
       suggestions ++ ["Add an FAQ section — great for featured snippets"])
    else
      (points, findings,
       suggestions ++ ["Add FAQ section with common homebuyer/seller questions"])
  in

  let '(points, findings, suggestions) :=
    if existsb (fun p => re_search p body_lower) comparison_patterns then
      ((points + per_check)%Q, findings ++ ["✓ Comparative/evaluative content present"],
       suggestions)
    else
      ((points + per_check * 0.3)%Q, findings,
       suggestions
         ++ ["Add comparative elements — how this community compares to alternatives"])
  in

  mkScoreDetail "Content Depth" points (inject_Z weight)
                ((points / inject_Z weight) * 100)%Q findings suggestions.

Definition cta_patterns : list string :=
  ["contact\s+(us|td realty)"; "call\s+(us|today|now)"; "schedule\s+(a|your)";
   "get\s+(started|in touch|your free)"; "reach\s+out"; "book\s+(a|your)";
   "ready\s+to\s+(buy|sell|move|start|explore)";
   "(visit|check out)\s+(our|tdrealtyohio)";
   "\(614\)"; "free\s+(consultation|estimate|home\s+valuation)";
   "save\s+thousands"; "1%\s+(listing|commission)"].

Definition score_cta (body : string) : ScoreDetail :=
  let weight := SCORING.call_to_action.weight in
  let count_min := SCORING.call_to_action.target_cta_count_min in
  let count_max := SCORING.call_to_action.target_cta_count_max in
  let findings : list string := [] in
  let suggestions : list string := [] in

  let cta_count :=
    len (filter (fun p => re_search p (PyStr.lower body)) cta_patterns) in
  let findings := findings ++ [fstr ["CTAs detected: "; str cta_count]] in

  let '(points, findings, suggestions) :=
    if (count_min <=? cta_count) && (cta_count <=? count_max) then
      (inject_Z weight, findings ++ ["✓ CTA count in optimal range"], suggestions)
    else if count_max <? cta_count then
      ((inject_Z weight * 0.7)%Q, findings,
       suggestions ++ ["Slightly too many CTAs — reduce to 2-3 natural touchpoints"])
    else if cta_count =? 1 then
      ((inject_Z weight * 0.5)%Q, findings,
       suggestions ++ ["Add another CTA — one mid-content and one at the end"])
    else
      (0%Q, findings,
       suggestions ++ ["Add calls to action — invite readers to contact TD Realty"])
  in

  mkScoreDetail "Call to Action" points (inject_Z weight)
                ((points / inject_Z weight) * 100)%Q findings suggestions.

(** [f in frontmatter and frontmatter[f]], as a truth value. *)
Definition field_present (frontmatter : pyval) (f : string) : result bool :=
  b <- py_in f frontmatter ;;
  if b then v <- py_getitem frontmatter f ;; Ok (truthy v) else Ok false.

(** [f not in frontmatter or not frontmatter[f]], as a truth value. *)
Definition field_missing (frontmatter : pyval) (f : string) : result bool :=
  b <- py_in f frontmatter ;;
  if negb b then Ok true else v <- py_getitem frontmatter f ;; Ok (negb (truthy v)).

Definition score_frontmatter (frontmatter : pyval) : result ScoreDetail :=
  let weight := SCORING.frontmatter.weight in
  let required_fields := SCORING.frontmatter.required_fields in
  let findings : list string := [] in
  let suggestions : list string := [] in

  present <- filter_r (field_present frontmatter) required_fields ;;
  missing <- filter_r (field_missing frontmatter) required_fields ;;

  let findings :=
    findings ++ [fstr ["Frontmatter fields present: "; str (len present); "/";
                       str (len required_fields)]] in
  let findings :=
    match present with
    | _ :: _ => findings ++ [fstr ["✓ Has: "; PyStr.join ", " present]]
    | [] => findings
    end in
  let '(findings, suggestions) :=
    match missing with
    | _ :: _ =>
        (findings ++ [fstr ["✗ Missing: "; PyStr.join ", " missing]],
         suggestions ++ [fstr ["Add missing frontmatter fields: ";
                               PyStr.join ", " missing]])
    | [] => (findings, suggestions)
    end in

  let ratio :=
    match required_fields with
    | _ :: _ => (inject_Z (len present) / inject_Z (len required_fields))%Q
    | [] => 0%Q
    end in
  let score := (inject_Z weight * ratio)%Q in

  Ok (mkScoreDetail "Frontmatter" score (inject_Z weight) (ratio * 100)%Q
                    findings suggestions).

Definition score_post (content : string) (primary_keyword : string)
           (community : string) (iteration : Z) : result ScoreReport :=
  '(frontmatter, body) <- parse_frontmatter content ;;
  let d1 := score_word_count body in
  d2 <- score_keyword_optimization body frontmatter primary_keyword ;;
  let d3 := score_heading_structure body in
  let d4 := score_readability body in
  let d5 := score_local_seo body community in
  d6 <- score_meta_description frontmatter primary_keyword ;;
  let d7 := score_internal_linking body community in
  let d8 := score_content_depth body in
  let d9 := score_cta body in
  d10 <- score_frontmatter frontmatter ;;
  let details := [d1; d2; d3; d4; d5; d6; d7; d8; d9; d10] in
  let total := Qsum (map score details) in
  let max_possible := Qsum (map max_score details) in
  Ok (mkScoreReport total max_possible
                    (if Qltb 0 max_possible then (total / max_possible) * 100 else 0)%Q
                    details iteration).

End Scoring.

(** ** Optimization loop ([optimizer.py]) *)

Module CONTENT_TYPES.
(** Content-type key, description and [target_keywords_pattern] as a
    function of the community and the year. *)
Definition table : list (string * (string * (string -> Z -> string))) :=
  [("market_update",
    ("Monthly/quarterly real estate market update for a specific community",
     fun community year => fstr [community; " real estate market "; PyStr.of_Z year]));
   ("community_guide",
    ("Comprehensive guide to living in a specific community",
     fun community _ => fstr ["living in "; community; " Ohio"]));
   ("home_buying",
    ("Home buying guide focused on a specific community",
     fun community year =>
       fstr ["homes for sale in "; community; " Ohio "; PyStr.of_Z year]));
   ("home_selling",
    ("Home selling guide with discount brokerage angle",
     fun community _ => fstr ["sell house "; community; " Ohio low commission"]));
   ("mortgage_rates",
    ("Mortgage rate update with local context",
     fun community year =>
       fstr ["mortgage rates "; community; " Ohio "; PyStr.of_Z year]));
   ("neighborhood",
    ("Neighborhood spotlight or comparison",
     fun community _ => fstr ["best neighborhoods "; community; " Ohio"]));
   ("homebuyer_programs",
    ("Guide to Ohio first-time homebuyer programs, down payment assistance, and grants available in a specific community",
     fun community year =>
       fstr ["first time home buyer programs "; community; " Ohio "; PyStr.of_Z year]));
   ("local_events",
    ("Guide to local events, festivals, farmers markets, and community activities in a specific area",
     fun community year =>
       fstr ["events and things to do in "; community; " Ohio "; PyStr.of_Z year]));
   ("local_history",
    ("Historical facts, landmarks, and interesting locations in a specific community",
     fun community _ => fstr ["history of "; community; " Ohio interesting facts"]))].

Fixpoint find {A} (key : string) (t : list (string * A)) : option A :=
  match t with
  | [] => None
  | (k, v) :: t' => if (k =? key)%string then Some v else find key t'
  end.
End CONTENT_TYPES.

(** [s.index(sub)] and [s.rindex(sub)], [None] where Python raises
    [ValueError]. *)
Fixpoint index_of (sub s : string) : option nat :=
  if String.prefix sub s then Some 0
  else match s with
       | EmptyString => None
       | String _ s' => option_map S (index_of sub s')
       end.

Fixpoint rindex_of (sub s : string) : option nat :=
  match s with
  | EmptyString => if String.prefix sub s then Some 0 else None
  | String _ s' =>
      match rindex_of sub s' with
      | Some i => Some (S i)
      | None => if String.prefix sub s then Some 0 else None
      end
  end.

(** [s[start:stop]] for non-negative bounds. *)
Definition slice (s : string) (start stop : nat) : string :=
  String.substring 0 (stop - start) (PyStr.drop start s).

Definition fence : string := "```".

Definition extract_markdown (response : string) : result string :=
  let index_r sub :=
    match index_of sub response with Some i => Ok i | None => Raise (OtherError "ValueError") end in
  let rindex_r sub :=
    match rindex_of sub response with Some i => Ok i | None => Raise (OtherError "ValueError") end in
  if PyStr.contains "```markdown" response then
    i <- index_r "```markdown" ;;
    let start := i + String.length "```markdown" in
    stop <- rindex_r fence ;;
    Ok (PyStr.strip (slice response start stop))
  else if PyStr.contains fence response
          && PyStr.startswith (PyStr.strip response) fence then
    i <- index_r nl ;;
    let start := i + 1 in
    stop <- rindex_r fence ;;
    Ok (PyStr.strip (slice response start stop))
  else if PyStr.startswith (PyStr.strip response) "---" then
    Ok (PyStr.strip response)
  else Ok (PyStr.strip response).

(** One entry of the run history. *)
Record IterationRecord : Type := mkIterationRecord {
  rec_iteration : Z;
  rec_score : Q;
  rec_percentage : Q;
  rec_improvement : option Q;
  rec_category_scores : list (string * Q)
}.

(** The files of the run directory that hold documents. *)
Inductive path : Type :=
| version_md (i : Z)
| FINAL_md.

(** The variables of the loop of [run_optimization]. *)
Record RunState : Type := mkRunState {
  content : string;
  report : ScoreReport;
  history : list IterationRecord;
  best_content : string;
  best_score : Q;
  best_iteration : Z;
  plateau_count : Z;
  written : list (path * string)
}.

(** The dictionary [run_optimization] returns, with the documents it
    wrote. *)
Record RunResult : Type := mkRunResult {
  res_best_content : string;
  res_best_score : Q;
  res_best_iteration : Z;
  all_scores : list Q;
  iterations_run : Z;
  improvement_history : list IterationRecord;
  res_written : list (path * string)
}.

(** Computations that call the text collaborator: the state is the
    number of requests sent so far; an exception ends the run. *)
Definition M (A : Type) : Type := nat -> result A * nat.

Definition ret {A} (a : A) : M A := fun n => (Ok a, n).

Definition raise {A} (e : exn) : M A := fun n => (Raise e, n).

Definition lift {A} (r : result A) : M A := fun n => (r, n).

Definition bindM {A B} (m : M A) (k : A -> M B) : M B :=
  fun n =>
    match m n with
    | (Ok a, n') => k a n'
    | (Raise e, n') => (Raise e, n')
    end.

Notation "x <~ m ;; k" := (bindM m (fun x => k))
  (at level 61, m at next level, right associativity).

(** [range(start, stop)] *)
Definition range (start stop : Z) : list Z :=
  map (fun k => (start + Z.of_nat k)%Z) (seq 0 (Z.to_nat (stop - start))).

Section Optimizer.

Local Open Scope Z_scope.

(** The reply of the collaborator to the [n]-th request of the run. *)
Variable call_claude : nat -> string -> result string.
(** [scoring.score_post] *)
Variable score_post : string -> string -> string -> Z -> result ScoreReport.
(** [prompts.get_generation_prompt] and [prompts.get_improvement_prompt] *)
Variable get_generation_prompt : string -> string -> string -> string -> Z -> string.
Variable get_improvement_prompt : string -> ScoreReport -> string -> string -> Z -> string.
(** [datetime.now().year] *)
Variable year : Z.

Definition ask (prompt : string) : M string :=
  fun n => (call_claude n prompt, S n).

Definition category_scores (r : ScoreReport) : list (string * Q) :=
  map (fun d => (category d, score d)) (details r).

(** The body of the loop for iteration [i], up to the plateau test. *)
Definition iterate (primary_keyword community : string) (st : RunState) (i : Z)
  : M RunState :=
  let improvement_prompt :=
    get_improvement_prompt (content st) (report st) primary_keyword community i in
  response <~ ask improvement_prompt ;;
  new_content <~ lift (extract_markdown response) ;;
  new_report <~ lift (score_post new_content primary_keyword community i) ;;
  let improvement := (total_score new_report - total_score (report st))%Q in
  let written := written st ++ [(version_md i, new_content)] in
  let history :=
    history st ++ [mkIterationRecord i (total_score new_report)
                                     (report_percentage new_report)
                                     (Some improvement)
                                     (category_scores new_report)] in
  let '(best_content, best_score, best_iteration, plateau_count) :=
    if Qltb (best_score st) (total_score new_report) then
      (new_content, total_score new_report, i, 0)
    else
      (best_content st, best_score st, best_iteration st, plateau_count st + 1)
  in
  ret (mkRunState new_content new_report history
                  best_content best_score best_iteration plateau_count written).

(** [for i in indices: ...; if plateau_count >= patience: break] *)
Fixpoint improvement_loop (primary_keyword community : string)
         (indices : list Z) (st : RunState) : M RunState :=
  match indices with
  | [] => ret st
  | i :: rest =>
      st' <~ iterate primary_keyword community st i ;;
      if ITERATIONS.plateau_patience <=? plateau_count st' then ret st'
      else improvement_loop primary_keyword community rest st'
  end.

Definition run_optimization (community : string) (content_type : string)
           (primary_keyword : option string) (iterations : option Z)
  : M RunResult :=
  match CONTENT_TYPES.find content_type CONTENT_TYPES.table with
  | None => raise (OtherError "SystemExit")
  | Some (description, target_keywords_pattern) =>
      let primary_keyword :=
        match primary_keyword with
        | None | Some EmptyString => target_keywords_pattern community year
        | Some k => k
        end in
      let iterations :=
        match iterations with
        | None => ITERATIONS.default_count
        | Some n => n
        end in
      let iterations := Z.min iterations ITERATIONS.max_count in

      let gen_prompt :=
        get_generation_prompt primary_keyword community content_type description year in
      response <~ ask gen_prompt ;;
      content <~ lift (extract_markdown response) ;;
      report <~ lift (score_post content primary_keyword community 0) ;;
      let written0 := [(version_md 0, content)] in
      let history0 :=
        [mkIterationRecord 0 (total_score report) (report_percentage report) None
                           (category_scores report)] in
      let st0 :=
        mkRunState content report history0 content (total_score report) 0 0 written0 in

      st <~ improvement_loop primary_keyword community (range 1 (iterations + 1)) st0 ;;

      let final_written := written st ++ [(FINAL_md, best_content st)] in
      ret (mkRunResult (best_content st) (best_score st) (best_iteration st)
                       (map rec_score (history st))
                       (len (history st) - 1)
                       (history st) final_written)
  end.

End Optimizer.

(** ** Checks of the embedding on sample inputs *)

Example split_on_empty : PyStr.split_on PyStr.newline "" = [""].
Proof. reflexivity. Qed.

Example split_ws_example : PyStr.split_ws "  ab   c d " = ["ab"; "c"; "d"].
Proof. reflexivity. Qed.

Example strip_example : PyStr.strip "  ## a b  " = "## a b".
Proof. reflexivity. Qed.

Example count_example :
  PyStr.count "a?b??c" "?" = 3 /\ PyStr.count "aaa" "aa" = 1 /\ PyStr.count "ab" "" = 3.
Proof. repeat split; reflexivity. Qed.

Example of_nat_example : PyStr.of_nat 0 = "0" /\ PyStr.of_nat 1500 = "1500".
Proof. split; reflexivity. Qed.

Example remove_urls_example :
  Re.remove_urls "see https://a.b/c now http:// x httpss://y" = "see  now http:// x httpss://y".
Proof. reflexivity. Qed.

Example split_sentences_example :
  Re.split_sentences "One two. Three four!?  Five.six. " = ["One two"; "Three four"; "Five.six"; ""].
Proof. reflexivity. Qed.

Example findall_links_example :
  Re.findall_links "a [[x](/y) b [z](http://w) [](q) [n]" = [("[x", "/y"); ("z", "http://w")].
Proof. reflexivity. Qed.

Example match_frontmatter_example :
  Re.match_frontmatter (fstr ["--- "; nl; "title: T"; nl; "---"; nl; nl; "Body"; nl])
  = Some ("title: T", fstr ["Body"; nl]).
Proof. reflexivity. Qed.

Example match_frontmatter_none :
  Re.match_frontmatter (fstr ["Body only"; nl]) = None
  /\ Re.match_frontmatter (fstr [" ---"; nl; "a: b"; nl; "---"; nl]) = None.
Proof. split; reflexivity. Qed.

Example count_words_example :
  count_words "# Title here: see https://x.y/z [link](http://a) _ok_" = 5%Z.
Proof. reflexivity. Qed.

Example extract_headings_example :
  extract_headings (fstr ["# A"; nl; "text"; nl; "## B "; nl; "#### C"; nl; "##### D"; nl; "#E"])
  = mkHeadings ["A"] ["B"] [] ["C"].
Proof. reflexivity. Qed.

Example extract_sentences_example :
  extract_sentences "This is one sentence. Too short. And here is another one! ok"
  = ["This is one sentence"; "And here is another one"].
Proof. reflexivity. Qed.

Example extract_paragraphs_example :
  extract_paragraphs
    (fstr ["# Head"; nl; "one two three"; nl; "four five six"; nl; nl; "short one"; nl; nl;
           "a b c d e f g"])
  = ["one two three four five six"; "a b c d e f g"].
Proof. reflexivity. Qed.

Example extract_markdown_fenced :
  extract_markdown (fstr ["Here:"; nl; "```markdown"; nl; "---"; nl; "x"; nl; "```"; nl])
  = Ok (fstr ["---"; nl; "x"]).
Proof. reflexivity. Qed.

Example extract_markdown_plain : extract_markdown "  text  " = Ok "text".
Proof. reflexivity. Qed.

(** * Properties *)

(** ** Heading inventory *)

(** Number of heading markers at the start of [s]. *)
Definition marker_count (s : string) : nat :=
  Re.run_length (fun c => Ascii.eqb c "#") s.

(** [s] opens with exactly [k] markers and a space after them. *)
Definition marked (k : nat) (s : string) : bool :=
  (marker_count s =? k) && PyStr.startswith (PyStr.drop k s) " ".

(** Text of a heading of level [k], from its stripped line. *)
Definition heading_text (k : nat) (stripped : string) : string :=
  PyStr.strip (PyStr.drop (S k) stripped).

(** The headings of level [k] among [lines], in order. *)
Definition headings_at (k : nat) (lines : list string) : list string :=
  map (heading_text k) (filter (marked k) (map PyStr.strip lines)).

Ltac heading_cases :=
  repeat (first
    [ progress cbn [String.prefix Re.run_length PyStr.drop PyStr.startswith Nat.eqb andb]
    | match goal with
          | |- _ /\ _ => split
          | |- ?x = ?x => reflexivity
          | H : String _ _ = EmptyString |- _ => discriminate H
          | H : @eq ascii ?a ?b |- _ =>
              first [ discriminate H | subst b | subst a ]
          | |- context [ascii_dec ?a ?c] => destruct (ascii_dec a c)
          | |- context [Ascii.eqb ?c ?a] => destruct (Ascii.eqb_spec c a)
          | H : ?a <> ?a |- _ => exfalso; apply H; reflexivity
          | |- context [match ?s with EmptyString => _ | String _ _ => _ end] =>
              is_var s; destruct s
      end ]).

Lemma startswith_marked (s : string) :
  PyStr.startswith s "# " = marked 1 s
  /\ PyStr.startswith s "## " = marked 2 s
  /\ PyStr.startswith s "### " = marked 3 s
  /\ PyStr.startswith s "#### " = marked 4 s.
Proof.
  unfold PyStr.startswith, marked, marker_count.
  destruct s as [|c1 [|c2 [|c3 [|c4 [|c5 s]]]]]; heading_cases.
Qed.

Lemma marked_exclusive (j k : nat) (s : string) :
  marked k s = true -> j <> k -> marked j s = false.
Proof.
  unfold marked. intros H Hjk.
  apply andb_true_iff in H. destruct H as [H _].
  apply Nat.eqb_eq in H. rewrite H.
  apply Nat.eqb_neq in Hjk. rewrite Nat.eqb_sym, Hjk. reflexivity.
Qed.

Definition heading_if (k : nat) (stripped : string) : list string :=
  if marked k stripped then [heading_text k stripped] else [].

Lemma extract_headings_step_spec (hs : Headings) (line : string) :
  let s := PyStr.strip line in
  h1 (extract_headings_step hs line) = h1 hs ++ heading_if 1 s
  /\ h2 (extract_headings_step hs line) = h2 hs ++ heading_if 2 s
  /\ h3 (extract_headings_step hs line) = h3 hs ++ heading_if 3 s
  /\ h4 (extract_headings_step hs line) = h4 hs ++ heading_if 4 s.
Proof.
  intros s. unfold extract_headings_step, heading_if. fold s.
  destruct (startswith_marked s) as (E1 & E2 & E3 & E4).
  rewrite E1, E2, E3, E4. unfold heading_text.
  destruct (marked 4 s) eqn:M4.
  { rewrite (marked_exclusive (j:=1) _ M4), (marked_exclusive (j:=2) _ M4),
      (marked_exclusive (j:=3) _ M4) by lia.
    cbn [h1 h2 h3 h4]. rewrite !app_nil_r. repeat split; reflexivity. }
  destruct (marked 3 s) eqn:M3.
  { rewrite (marked_exclusive (j:=1) _ M3), (marked_exclusive (j:=2) _ M3) by lia.
    cbn [h1 h2 h3 h4]. rewrite !app_nil_r. repeat split; reflexivity. }
  destruct (marked 2 s) eqn:M2.
  { rewrite (marked_exclusive (j:=1) _ M2) by lia.
    cbn [h1 h2 h3 h4]. rewrite !app_nil_r. repeat split; reflexivity. }
  destruct (marked 1 s) eqn:M1;
    cbn [h1 h2 h3 h4]; rewrite !app_nil_r; repeat split; reflexivity.
Qed.

Lemma headings_at_cons (k : nat) (line : string) (lines : list string) :
  headings_at k (line :: lines) = heading_if k (PyStr.strip line) ++ headings_at k lines.
Proof.
  unfold headings_at, heading_if. cbn [map filter].
  destruct (marked k (PyStr.strip line)); reflexivity.
Qed.

Lemma extract_headings_fold (lines : list string) (hs : Headings) :
  let r := fold_left extract_headings_step lines hs in
  h1 r = h1 hs ++ headings_at 1 lines
  /\ h2 r = h2 hs ++ headings_at 2 lines
  /\ h3 r = h3 hs ++ headings_at 3 lines
  /\ h4 r = h4 hs ++ headings_at 4 lines.
Proof.
  revert hs. induction lines as [|line lines IH]; intros hs; cbn [fold_left].
  - unfold headings_at. cbn. rewrite !app_nil_r. repeat split; reflexivity.
  - destruct (IH (extract_headings_step hs line)) as (I1 & I2 & I3 & I4).
    destruct (extract_headings_step_spec hs line) as (S1 & S2 & S3 & S4).
    cbv zeta in *. rewrite I1, I2, I3, I4, S1, S2, S3, S4.
    rewrite !headings_at_cons, <- !app_assoc. repeat split; reflexivity.
Qed.

(** C9, as amended: a line of the body is counted as a heading exactly
    when, once the white space around it is stripped, it opens with one
    to four markers followed by a space; its level is the number of
    markers, and the inventory lists the headings of each level in the
    order of the lines.  Lines that open with five or more markers, or
    whose markers are not followed by a space, are not headings. *)
Theorem extract_headings_marker_rule (body : string) :
  let lines := PyStr.split_on PyStr.newline body in
  h1 (extract_headings body) = headings_at 1 lines
  /\ h2 (extract_headings body) = headings_at 2 lines
  /\ h3 (extract_headings body) = headings_at 3 lines
  /\ h4 (extract_headings body) = headings_at 4 lines.
Proof.
  intros lines. unfold extract_headings. fold lines.
  destruct (extract_headings_fold lines (mkHeadings [] [] [] [])) as (E1 & E2 & E3 & E4).
  cbv zeta in *. rewrite E1, E2, E3, E4. repeat split; reflexivity.
Qed.

(** C9, as stated, fails: the markers of an indented line are not at the
    start of the line, yet the line is counted as a heading. *)
Lemma indented_line_is_a_heading :
  PyStr.startswith "  # Title" "#" = false
  /\ extract_headings "  # Title" = mkHeadings ["Title"] [] [] [].
Proof. split; reflexivity. Qed.

(** ** Meta description *)

(** The preamble [d] has no description: the key is absent, or its
    value is empty (false as a truth value). *)
Definition lacks_description (d : list (string * pyval)) : Prop :=
  match lookup "description" d with
  | None => True
  | Some v => truthy v = false
  end.

(** C6: for every preamble without a description, whatever else it
    holds and whatever the keyword, the Meta Description category scores
    exactly 0 with exactly one finding and exactly one suggestion. *)
Theorem score_meta_description_absent
        (re_search : string -> string -> bool)
        (d : list (string * pyval)) (primary_keyword : string) :
  lacks_description d ->
  exists detail,
    score_meta_description re_search (PDict d) primary_keyword = Ok detail
    /\ category detail = "Meta Description"
    /\ score detail = 0%Q
    /\ percentage detail = 0%Q
    /\ List.length (findings detail) = 1
    /\ List.length (suggestions detail) = 1.
Proof.
  unfold lacks_description, score_meta_description, py_get. cbn [bind].
  destruct (lookup "description" d) as [v|]; intros H.
  - rewrite H. cbn [negb]. eexists. repeat split; reflexivity.
  - cbn [truthy String.eqb negb]. eexists. repeat split; reflexivity.
Qed.

Lemma score_meta_description_absent_witness :
  lacks_description [("title", PStr "Living in Powell Ohio")]
  /\ exists detail,
      score_meta_description (fun _ _ => false)
                             (PDict [("title", PStr "Living in Powell Ohio")])
                             "living in Powell Ohio" = Ok detail
      /\ category detail = "Meta Description"
      /\ score detail = 0%Q
      /\ percentage detail = 0%Q
      /\ List.length (findings detail) = 1
      /\ List.length (suggestions detail) = 1.
Proof.
  split.
  - exact I.
  - apply (score_meta_description_absent (fun _ _ => false)
             [("title", PStr "Living in Powell Ohio")] "living in Powell Ohio").
    exact I.
Defined.

(** ** Word count: banded range scoring *)

Module WordCount.
Import SCORING.word_count.

Local Open Scope Z_scope.

(** The credit [score_word_count] computes, as a function of the
    measured word count. *)
Definition credit (wc : Z) : Q :=
  if (target_min <=? wc) && (wc <=? target_max) then inject_Z weight
  else if (hard_min <=? wc) && (wc <? target_min) then
    (inject_Z weight
     * (0.5 + 0.5 * (inject_Z (wc - hard_min) / inject_Z (target_min - hard_min))))%Q
  else if (target_max <? wc) && (wc <=? hard_max) then
    (inject_Z weight
     * (0.5 + 0.5 * (inject_Z (hard_max - wc) / inject_Z (hard_max - target_max))))%Q
  else (inject_Z weight * 0.2)%Q.

Lemma score_is_credit (body : string) :
  score (score_word_count body) = credit (count_words body).
Proof.
  unfold score_word_count, credit.
  destruct ((target_min <=? count_words body) && (count_words body <=? target_max));
    [reflexivity|].
  destruct ((hard_min <=? count_words body) && (count_words body <? target_min));
    [reflexivity|].
  destruct ((target_max <? count_words body) && (count_words body <=? hard_max));
    reflexivity.
Qed.

Lemma max_score_is_weight (body : string) :
  max_score (score_word_count body) = inject_Z weight.
Proof.
  unfold score_word_count.
  destruct ((target_min <=? count_words body) && (count_words body <=? target_max));
    [reflexivity|].
  destruct ((hard_min <=? count_words body) && (count_words body <? target_min));
    [reflexivity|].
  destruct ((target_max <? count_words body) && (count_words body <=? hard_max));
    reflexivity.
Qed.

Lemma percentage_is_ratio (body : string) :
  percentage (score_word_count body)
  = ((score (score_word_count body) / inject_Z weight) * 100)%Q.
Proof.
  unfold score_word_count.
  destruct ((target_min <=? count_words body) && (count_words body <=? target_max));
    [reflexivity|].
  destruct ((hard_min <=? count_words body) && (count_words body <? target_min));
    [reflexivity|].
  destruct ((target_max <? count_words body) && (count_words body <=? hard_max));
    reflexivity.
Qed.

Ltac decide_band :=
  unfold credit, target_min, target_max, hard_min, hard_max, weight in *;
  repeat match goal with
         | |- context [(?a <=? ?b)] => destruct (Z.leb_spec a b); try lia
         | |- context [(?a <? ?b)] => destruct (Z.ltb_spec a b); try lia
         end;
  cbn [andb].

Lemma credit_target (wc : Z) :
  target_min <= wc <= target_max -> credit wc = inject_Z weight.
Proof. intros H. decide_band; reflexivity. Qed.

Lemma credit_below (wc : Z) :
  hard_min <= wc < target_min ->
  credit wc
  = (inject_Z weight
     * (0.5 + 0.5 * (inject_Z (wc - hard_min) / inject_Z (target_min - hard_min))))%Q.
Proof. intros H. decide_band; reflexivity. Qed.

Lemma credit_above (wc : Z) :
  target_max < wc <= hard_max ->
  credit wc
  = (inject_Z weight
     * (0.5 + 0.5 * (inject_Z (hard_max - wc) / inject_Z (hard_max - target_max))))%Q.
Proof. intros H. decide_band; reflexivity. Qed.

Lemma credit_outside (wc : Z) :
  wc < hard_min \/ hard_max < wc -> credit wc = (inject_Z weight * 0.2)%Q.
Proof. intros H. decide_band; reflexivity. Qed.

(** The partial credit as a linear function of the distance [k] from
    the hard bound, over a band of width [w]. *)
Lemma partial_bounds (k w : Z) :
  0 <= k < w ->
  (0.5 * inject_Z 10 <= inject_Z 10 * (0.5 + 0.5 * (inject_Z k / inject_Z w))
   /\ inject_Z 10 * (0.5 + 0.5 * (inject_Z k / inject_Z w)) < inject_Z 10)%Q.
Proof.
  intros [Hk Hw].
  assert (Hw0 : (0 < inject_Z w)%Q)
    by (change 0%Q with (inject_Z 0); rewrite <- Zlt_Qlt; lia).
  assert (Hk0 : (0 <= inject_Z k)%Q)
    by (change 0%Q with (inject_Z 0); rewrite <- Zle_Qle; lia).
  assert (Hkw : (inject_Z k < inject_Z w)%Q) by (rewrite <- Zlt_Qlt; lia).
  assert (Hr0 : (0 <= inject_Z k / inject_Z w)%Q).
  { apply Qle_shift_div_l; [assumption|]. lra. }
  assert (Hr1 : (inject_Z k / inject_Z w < 1)%Q).
  { apply Qlt_shift_div_r; [assumption|]. lra. }
  set (r := (inject_Z k / inject_Z w)%Q) in *.
  change (inject_Z 10) with 10%Q. split; lra.
Qed.

Lemma partial_monotone (k1 k2 w : Z) :
  0 < w -> k1 <= k2 ->
  (inject_Z 10 * (0.5 + 0.5 * (inject_Z k1 / inject_Z w))
   <= inject_Z 10 * (0.5 + 0.5 * (inject_Z k2 / inject_Z w)))%Q.
Proof.
  intros Hw Hk.
  assert (Hw0 : (0 < inject_Z w)%Q)
    by (change 0%Q with (inject_Z 0); rewrite <- Zlt_Qlt; lia).
  assert (Hk12 : (inject_Z k1 <= inject_Z k2)%Q) by (rewrite <- Zle_Qle; lia).
  assert (Hr : (inject_Z k1 / inject_Z w <= inject_Z k2 / inject_Z w)%Q).
  { unfold Qdiv. apply Qmult_le_compat_r; [assumption|].
    apply Qlt_le_weak, Qinv_lt_0_compat. assumption. }
  set (r1 := (inject_Z k1 / inject_Z w)%Q) in *.
  set (r2 := (inject_Z k2 / inject_Z w)%Q) in *.
  change (inject_Z 10) with 10%Q. lra.
Qed.

End WordCount.

Module Samples.
(** A body of [n] words. *)
Fixpoint words (n : nat) : string :=
  match n with
  | O => EmptyString
  | S n' => ("word " ++ words n')%string
  end.
End Samples.

Section WordCountBands.
Import SCORING.word_count.
Local Open Scope Z_scope.

Let weightQ : Q := inject_Z weight.

(** C3: the word count earns the full weight inside the target range;
    between a hard bound and the target bound it earns
    weight * (0.5 + 0.5 * ratio), ratio being the fraction of the way
    from the hard bound to the target bound, which lies in
    [0.5 * weight, weight); outside the hard range it earns exactly
    weight * 0.2. *)
Theorem score_word_count_bands (body : string) :
  let wc := count_words body in
  let d := score_word_count body in
  (target_min <= wc <= target_max -> (score d == weightQ)%Q)
  /\ (hard_min <= wc < target_min ->
      let ratio := (inject_Z (wc - hard_min) / inject_Z (target_min - hard_min))%Q in
      (score d == weightQ * (0.5 + 0.5 * ratio)
       /\ 0.5 * weightQ <= score d /\ score d < weightQ)%Q)
  /\ (target_max < wc <= hard_max ->
      let ratio := (inject_Z (hard_max - wc) / inject_Z (hard_max - target_max))%Q in
      (score d == weightQ * (0.5 + 0.5 * ratio)
       /\ 0.5 * weightQ <= score d /\ score d < weightQ)%Q)
  /\ (wc < hard_min \/ hard_max < wc -> (score d == weightQ * 0.2)%Q).
Proof.
  intros wc d. unfold d. rewrite WordCount.score_is_credit. fold wc.
  unfold weightQ. repeat split.
  - intros H. rewrite (WordCount.credit_target H). reflexivity.
  - rewrite (WordCount.credit_below H). reflexivity.
  - rewrite (WordCount.credit_below H).
    apply (WordCount.partial_bounds (k := wc - hard_min) (w := target_min - hard_min)).
    unfold target_min, hard_min in *. lia.
  - rewrite (WordCount.credit_below H).
    apply (WordCount.partial_bounds (k := wc - hard_min) (w := target_min - hard_min)).
    unfold target_min, hard_min in *. lia.
  - rewrite (WordCount.credit_above H). reflexivity.
  - rewrite (WordCount.credit_above H).
    apply (WordCount.partial_bounds (k := hard_max - wc) (w := hard_max - target_max)).
    unfold target_max, hard_max in *. lia.
  - rewrite (WordCount.credit_above H).
    apply (WordCount.partial_bounds (k := hard_max - wc) (w := hard_max - target_max)).
    unfold target_max, hard_max in *. lia.
  - intros H. rewrite (WordCount.credit_outside H). reflexivity.
Qed.

(** C7: of two word counts on the same side of the target range and
    outside it, the one closer to the range never scores lower. *)
Theorem score_word_count_monotone (body1 body2 : string) :
  let v1 := count_words body1 in
  let v2 := count_words body2 in
  (v1 < v2 < target_min ->
   (score (score_word_count body1) <= score (score_word_count body2))%Q)
  /\ (target_max < v2 < v1 ->
      (score (score_word_count body1) <= score (score_word_count body2))%Q).
Proof.
  intros v1 v2. rewrite !WordCount.score_is_credit. fold v1 v2.
  unfold target_min, target_max. split; intros H.
  - destruct (Z_lt_le_dec v2 hard_min) as [H2|H2].
    + rewrite !WordCount.credit_outside by (left; lia). apply Qle_refl.
    + assert (B2 : hard_min <= v2 < target_min) by (unfold target_min; lia).
      rewrite (WordCount.credit_below B2).
      destruct (Z_lt_le_dec v1 hard_min) as [H1|H1].
      * rewrite WordCount.credit_outside by (left; lia).
        eapply Qle_trans;
          [|apply (WordCount.partial_bounds (k := v2 - hard_min)
                     (w := target_min - hard_min));
            unfold target_min, hard_min in *; lia].
        unfold weight. apply Qle_bool_imp_le. reflexivity.
      * assert (B1 : hard_min <= v1 < target_min) by (unfold target_min; lia).
        rewrite (WordCount.credit_below B1).
        apply WordCount.partial_monotone; unfold target_min, hard_min; lia.
  - destruct (Z_lt_le_dec hard_max v2) as [H2|H2].
    + rewrite !WordCount.credit_outside by (right; lia). apply Qle_refl.
    + assert (B2 : target_max < v2 <= hard_max) by (unfold target_max; lia).
      rewrite (WordCount.credit_above B2).
      destruct (Z_lt_le_dec hard_max v1) as [H1|H1].
      * rewrite WordCount.credit_outside by (right; lia).
        eapply Qle_trans;
          [|apply (WordCount.partial_bounds (k := hard_max - v2)
                     (w := hard_max - target_max));
            unfold target_max, hard_max in *; lia].
        unfold weight. apply Qle_bool_imp_le. reflexivity.
      * assert (B1 : target_max < v1 <= hard_max) by (unfold target_max; lia).
        rewrite (WordCount.credit_above B1).
        apply WordCount.partial_monotone; unfold target_max, hard_max; lia.
Qed.

End WordCountBands.

Lemma score_word_count_bands_witness :
  let weightQ := inject_Z SCORING.word_count.weight in
  let d1 := score_word_count (Samples.words 2000) in
  let d2 := score_word_count (Samples.words 1150) in
  let d3 := score_word_count (Samples.words 3000) in
  let d4 := score_word_count (Samples.words 100) in
  (score d1 == weightQ
   /\ (0.5 * weightQ <= score d2 /\ score d2 < weightQ)
   /\ (0.5 * weightQ <= score d3 /\ score d3 < weightQ)
   /\ score d4 == weightQ * 0.2)%Q.
Proof.
  intros weightQ d1 d2 d3 d4.
  pose proof (score_word_count_bands (Samples.words 2000)) as (B1 & _).
  pose proof (score_word_count_bands (Samples.words 1150)) as (_ & B2 & _).
  pose proof (score_word_count_bands (Samples.words 3000)) as (_ & _ & B3 & _).
  pose proof (score_word_count_bands (Samples.words 100)) as (_ & _ & _ & B4).
  split; [|split; [|split]].
  - apply B1. vm_compute. split; discriminate.
  - apply B2. vm_compute. split; [discriminate | reflexivity].
  - apply B3. vm_compute. split; [reflexivity | discriminate].
  - apply B4. left. vm_compute. reflexivity.
Defined.

Lemma score_word_count_monotone_witness :
  (score (score_word_count (Samples.words 900))
   <= score (score_word_count (Samples.words 1200))
   /\ score (score_word_count (Samples.words 3400))
      <= score (score_word_count (Samples.words 2600)))%Q.
Proof.
  pose proof (score_word_count_monotone (Samples.words 900) (Samples.words 1200))
    as (Below & _).
  pose proof (score_word_count_monotone (Samples.words 3400) (Samples.words 2600))
    as (_ & Above).
  split.
  - apply Below. vm_compute. split; reflexivity.
  - apply Above. vm_compute. split; reflexivity.
Defined.

(** ** Category results: bounds and percentage *)

(** The invariant of a category result. *)
Definition well_formed (d : ScoreDetail) : Prop :=
  (0 <= score d /\ score d <= max_score d
   /\ percentage d == (score d / max_score d) * 100
   /\ 0 < max_score d)%Q.

(** A category rule that can raise keeps the invariant when it returns. *)
Definition well_formed_r (r : result ScoreDetail) : Prop :=
  match r with
  | Ok d => well_formed d
  | Raise _ => True
  end.

Ltac reduce_rule :=
  cbv beta iota zeta delta [bind well_formed well_formed_r
                            score max_score percentage findings suggestions].

Ltac hide_strings :=
  repeat match goal with
         | |- context [String ?a ?s] =>
             let txt := fresh "txt" in generalize (String a s); intro txt
         end.

Ltac split_rule :=
  hide_strings;
  repeat (first
    [ match goal with
      | |- context [bind ?r _] => destruct r; cbn [bind]
      end
    | match goal with
      | |- context [if ?c then _ else _] => destruct c; cbv beta iota zeta
      | |- context [match ?l with [] => _ | _ :: _ => _ end] =>
          destruct l; cbv beta iota zeta
      end ]);
  reduce_rule.

Ltac closed_Q :=
  vm_compute;
  repeat match goal with
         | |- _ /\ _ => split
         | |- True => exact I
         | |- _ = _ => reflexivity
         | |- _ -> False => let H := fresh in intro H; discriminate H
         end.

Lemma credit_range (wc : Z) :
  (0 <= WordCount.credit wc /\ WordCount.credit wc <= inject_Z SCORING.word_count.weight)%Q.
Proof.
  destruct (Z_lt_le_dec wc SCORING.word_count.hard_min) as [L|L].
  { rewrite WordCount.credit_outside by (left; exact L). closed_Q. }
  destruct (Z_lt_le_dec wc SCORING.word_count.target_min) as [T|T].
  { rewrite WordCount.credit_below by (split; assumption).
    pose proof (WordCount.partial_bounds
                  (k := wc - SCORING.word_count.hard_min)
                  (w := SCORING.word_count.target_min - SCORING.word_count.hard_min))
      as P.
    destruct P as [P1 P2];
      [unfold SCORING.word_count.target_min, SCORING.word_count.hard_min in *; lia|].
    split; [eapply Qle_trans; [|exact P1]; closed_Q | apply Qlt_le_weak; exact P2]. }
  destruct (Z_lt_le_dec SCORING.word_count.target_max wc) as [U|U].
  2:{ rewrite WordCount.credit_target by (split; assumption). closed_Q. }
  destruct (Z_lt_le_dec SCORING.word_count.hard_max wc) as [V|V].
  { rewrite WordCount.credit_outside by (right; exact V). closed_Q. }
  rewrite WordCount.credit_above by (split; assumption).
  pose proof (WordCount.partial_bounds
                (k := SCORING.word_count.hard_max - wc)
                (w := SCORING.word_count.hard_max - SCORING.word_count.target_max))
    as P.
  destruct P as [P1 P2];
    [unfold SCORING.word_count.target_max, SCORING.word_count.hard_max in *; lia|].
  split; [eapply Qle_trans; [|exact P1]; closed_Q | apply Qlt_le_weak; exact P2].
Qed.

Lemma score_word_count_well_formed (body : string) :
  well_formed (score_word_count body).
Proof.
  unfold well_formed.
  rewrite WordCount.percentage_is_ratio, WordCount.max_score_is_weight,
    WordCount.score_is_credit.
  destruct (credit_range (count_words body)) as [C0 C1].
  repeat split; try assumption; reflexivity.
Qed.

Lemma score_heading_structure_well_formed (body : string) :
  well_formed (score_heading_structure body).
Proof.
  unfold score_heading_structure.
  destruct (fold_left hierarchy_step _ _) as [hierarchy_ok last_level].
  split_rule; closed_Q.
Qed.

Section RuleInvariants.

Variable re_search : string -> string -> bool.
Variable format_f : nat -> Q -> string.
Variable pow_half : Q -> Q.
Variable set_order : list string -> list string.

Lemma score_keyword_optimization_well_formed
      (body : string) (frontmatter : pyval) (primary_keyword : string) :
  well_formed_r (score_keyword_optimization format_f body frontmatter primary_keyword).
Proof. unfold score_keyword_optimization. split_rule; closed_Q. Qed.

Lemma score_readability_well_formed (body : string) :
  well_formed (score_readability format_f pow_half body).
Proof. unfold score_readability. split_rule; closed_Q. Qed.

Lemma score_local_seo_well_formed (body community : string) :
  well_formed (score_local_seo re_search body community).
Proof. unfold score_local_seo. split_rule; closed_Q. Qed.

Lemma score_meta_description_well_formed (frontmatter : pyval) (primary_keyword : string) :
  well_formed_r (score_meta_description re_search frontmatter primary_keyword).
Proof. unfold score_meta_description. split_rule; closed_Q. Qed.

Lemma score_internal_linking_well_formed (body community : string) :
  well_formed (score_internal_linking set_order body community).
Proof. unfold score_internal_linking. split_rule; closed_Q. Qed.

Lemma score_content_depth_well_formed (body : string) :
  well_formed (score_content_depth re_search body).
Proof. unfold score_content_depth. split_rule; closed_Q. Qed.

Lemma score_cta_well_formed (body : string) :
  well_formed (score_cta re_search body).
Proof. unfold score_cta. split_rule; closed_Q. Qed.

End RuleInvariants.

Lemma filter_r_length {A} (f : A -> result bool) (l l' : list A) :
  filter_r f l = Ok l' -> (List.length l' <= List.length l)%nat.
Proof.
  revert l'. induction l as [|a l IH]; intros l' H; cbn [filter_r bind] in H.
  - injection H as <-. apply Nat.le_refl.
  - destruct (f a) as [b|e]; cbn [bind] in H; [|discriminate H].
    destruct (filter_r f l) as [rest|e]; cbn [bind] in H; [|discriminate H].
    injection H as <-. specialize (IH rest eq_refl).
    destruct b; cbn [List.length]; lia.
Qed.

Lemma score_frontmatter_well_formed (frontmatter : pyval) :
  well_formed_r (score_frontmatter frontmatter).
Proof.
  unfold score_frontmatter.
  destruct (filter_r (field_present frontmatter) SCORING.frontmatter.required_fields)
    as [present|e] eqn:P; cbn [bind]; [|exact I].
  destruct (filter_r (field_missing frontmatter) SCORING.frontmatter.required_fields)
    as [missing|e]; cbn [bind]; [|exact I].
  apply filter_r_length in P.
  change (List.length SCORING.frontmatter.required_fields) with 7%nat in P.
  destruct missing;
    cbv beta iota zeta delta [well_formed_r well_formed score max_score percentage];
    change SCORING.frontmatter.required_fields
      with ("title" :: tl SCORING.frontmatter.required_fields);
    cbv beta iota;
    change (len ("title" :: tl SCORING.frontmatter.required_fields)) with 7%Z;
    change (inject_Z SCORING.frontmatter.weight) with 5%Q;
    assert (H0 : (0 <= inject_Z (len present))%Q)
      by (change 0%Q with (inject_Z 0); rewrite <- Zle_Qle; unfold len; lia);
    assert (H7 : (inject_Z (len present) <= 7)%Q)
      by (change 7%Q with (inject_Z 7); rewrite <- Zle_Qle; unfold len; lia);
    set (n := inject_Z (len present)) in *;
    change (inject_Z 7) with 7%Q;
    unfold Qdiv; change (/ 7)%Q with (1 # 7)%Q; change (/ 5)%Q with (1 # 5)%Q;
    (split; [|split; [|split]]; lra).
Qed.

(** ** Findings *)




Section RuleFindings.

Variable re_search : string -> string -> bool.
Variable format_f : nat -> Q -> string.
Variable pow_half : Q -> Q.
Variable set_order : list string -> list string.











End RuleFindings.

Lemma Ok_inj {A} (a b : A) : Ok a = Ok b -> a = b.
Proof. intros H. injection H as ->. reflexivity. Qed.

(** ** The report of [score_post] *)

(** Collaborators that answer nothing: used to run the engine on
    sample documents. *)
Module Plain.
Definition re_search (pattern text : string) : bool := false.
Definition yaml_safe_load (text : string) : result pyval := Ok PNone.
Definition format_f (decimals : nat) (x : Q) : string := EmptyString.
Definition pow_half (x : Q) : Q := x.
Definition set_order (l : list string) : list string := l.
End Plain.

Section ScorePost.

Variable re_search : string -> string -> bool.
Variable yaml_safe_load : string -> result pyval.
Variable format_f : nat -> Q -> string.
Variable pow_half : Q -> Q.
Variable set_order : list string -> list string.

Let score_post' := score_post re_search yaml_safe_load format_f pow_half set_order.

(** The ten category results of a report, in the order of the rules. *)
Lemma score_post_details (content primary_keyword community : string)
      (iteration : Z) (r : ScoreReport) :
  score_post' content primary_keyword community iteration = Ok r ->
  exists frontmatter body d2 d6 d10,
    parse_frontmatter yaml_safe_load content = Ok (frontmatter, body)
    /\ score_keyword_optimization format_f body frontmatter primary_keyword = Ok d2
    /\ score_meta_description re_search frontmatter primary_keyword = Ok d6
    /\ score_frontmatter frontmatter = Ok d10
    /\ details r =
       [score_word_count body; d2; score_heading_structure body;
        score_readability format_f pow_half body;
        score_local_seo re_search body community; d6;
        score_internal_linking set_order body community;
        score_content_depth re_search body; score_cta re_search body; d10].
Proof.
  unfold score_post', score_post. intros H.
  destruct (parse_frontmatter yaml_safe_load content) as [[frontmatter body]|e] eqn:P;
    cbn [bind] in H; [|discriminate H].
  destruct (score_keyword_optimization format_f body frontmatter primary_keyword)
    as [d2|e] eqn:K; cbn [bind] in H; [|discriminate H].
  destruct (score_meta_description re_search frontmatter primary_keyword)
    as [d6|e] eqn:Md; cbn [bind] in H; [|discriminate H].
  destruct (score_frontmatter frontmatter) as [d10|e] eqn:F; cbn [bind] in H;
    [|discriminate H].
  apply Ok_inj in H. subst r. exists frontmatter, body, d2, d6, d10.
  split; [reflexivity|]. split; [exact K|]. split; [exact Md|].
  split; [exact F|reflexivity].
Qed.

(** C2: every category result of a report, whatever the document (an
    empty one included), has a score between 0 and its maximum and a
    percentage equal to score / max_score * 100; the maximum, which is
    the divisor, is a positive configured weight, so the percentage of
    a zero divisor never arises. *)
Theorem score_post_details_well_formed
        (content primary_keyword community : string) (iteration : Z)
        (r : ScoreReport) :
  score_post' content primary_keyword community iteration = Ok r ->
  Forall (fun d => (0 <= score d /\ score d <= max_score d
                    /\ percentage d == (score d / max_score d) * 100
                    /\ 0 < max_score d)%Q)
         (details r).
Proof.
  intros H.
  destruct (score_post_details _ _ _ _ H)
    as (frontmatter & body & d2 & d6 & d10 & _ & K & Md & F & ->).
  pose proof (score_keyword_optimization_well_formed
                format_f body frontmatter primary_keyword) as W2.
  pose proof (score_meta_description_well_formed
                re_search frontmatter primary_keyword) as W6.
  pose proof (score_frontmatter_well_formed frontmatter) as W10.
  rewrite K in W2. rewrite Md in W6. rewrite F in W10.
  repeat apply Forall_cons; try apply Forall_nil.
  - apply score_word_count_well_formed.
  - exact W2.
  - apply score_heading_structure_well_formed.
  - apply score_readability_well_formed.
  - apply score_local_seo_well_formed.
  - exact W6.
  - apply score_internal_linking_well_formed.
  - apply score_content_depth_well_formed.
  - apply score_cta_well_formed.
  - exact W10.
Qed.


End ScorePost.

(** An empty document scored with collaborators that answer nothing. *)
Definition empty_document_report : result ScoreReport :=
  score_post Plain.re_search Plain.yaml_safe_load Plain.format_f Plain.pow_half
             Plain.set_order "" "living in Powell Ohio" "Powell" 0.

Lemma score_post_details_well_formed_witness :
  exists r,
    empty_document_report = Ok r
    /\ Forall (fun d => (0 <= score d /\ score d <= max_score d
                         /\ percentage d == (score d / max_score d) * 100
                         /\ 0 < max_score d)%Q)
              (details r).
Proof.
  destruct empty_document_report as [r|e] eqn:E; [|vm_compute in E; discriminate E].
  exists r. split; [reflexivity|].
  exact (score_post_details_well_formed
           Plain.re_search Plain.yaml_safe_load Plain.format_f Plain.pow_half
           Plain.set_order "" "living in Powell Ohio" "Powell" 0 E).
Defined.



(** ** Malformed preamble values *)

(** A document whose preamble gives the title as a number. *)
Definition numeric_title_document : string :=
  fstr ["---"; nl; "title: 123"; nl; "---"; nl; "Body text of the post."; nl].

(** C5, failing input: a preamble whose title is not a string makes
    [score_post] raise [AttributeError] (from [title.lower()] in
    [score_keyword_optimization]) instead of returning a report. *)
Theorem score_post_raises_on_numeric_title
        (re_search : string -> string -> bool)
        (yaml_safe_load : string -> result pyval)
        (format_f : nat -> Q -> string) (pow_half : Q -> Q)
        (set_order : list string -> list string)
        (primary_keyword community : string) (iteration : Z) :
  yaml_safe_load "title: 123" = Ok (PDict [("title", PInt 123)]) ->
  score_post re_search yaml_safe_load format_f pow_half set_order
             numeric_title_document primary_keyword community iteration
  = Raise AttributeError.
Proof.
  intros Y. unfold score_post, parse_frontmatter.
  assert (E : Re.match_frontmatter numeric_title_document
              = Some ("title: 123", fstr ["Body text of the post."; nl]))
    by (vm_compute; reflexivity).
  rewrite E, Y. cbn [truthy bind].
  unfold score_keyword_optimization.
  change (py_get (PDict [("title", PInt 123)]) "title" (PStr ""))
    with (@Ok pyval (PInt 123)).
  cbn [bind py_lower]. reflexivity.
Qed.

Lemma score_post_raises_on_numeric_title_witness :
  score_post Plain.re_search (fun _ => Ok (PDict [("title", PInt 123)]))
             Plain.format_f Plain.pow_half Plain.set_order
             numeric_title_document "living in Powell Ohio" "Powell" 0
  = Raise AttributeError.
Proof.
  apply (score_post_raises_on_numeric_title
           Plain.re_search (fun _ => Ok (PDict [("title", PInt 123)]))
           Plain.format_f Plain.pow_half Plain.set_order
           "living in Powell Ohio" "Powell" 0).
  reflexivity.
Defined.

(** ** Optimization loop *)

(** Best score, its iteration index and the plateau counter after a
    sequence of scores, read off the rule of the loop: a score strictly
    above the best becomes the best and resets the counter, any other
    score increments it.  [next] is the index of the first score. *)
Fixpoint track (best : Q) (best_at plateau next : Z) (scores : list Q) : Q * Z * Z :=
  match scores with
  | [] => (best, best_at, plateau)
  | s :: rest =>
      if Qltb best s then track s next 0 (next + 1) rest
      else track best best_at (plateau + 1) (next + 1) rest
  end.

(** The plateau counter after the scores of a run, the first one being
    the score of the initial document. *)
Definition plateau_counter (scores : list Q) : Z :=
  match scores with
  | [] => 0
  | s0 :: rest => snd (track s0 0 0 1 rest)
  end.

(** The iteration count a request stands for, before clamping. *)
Definition requested (iterations : option Z) : Z :=
  match iterations with
  | None => ITERATIONS.default_count
  | Some n => n
  end.

Lemma track_app (best : Q) (best_at plateau next : Z) (l : list Q) (s : Q) :
  track best best_at plateau next (l ++ [s])
  = (let '(b, a, p) := track best best_at plateau next l in
     if Qltb b s then (s, (next + Z.of_nat (List.length l))%Z, 0%Z)
     else (b, a, (p + 1)%Z)).
Proof.
  revert best best_at plateau next.
  induction l as [|x l IH]; intros best best_at plateau next; cbn [track app List.length].
  - rewrite Z.add_0_r. destruct (Qltb best s); reflexivity.
  - destruct (Qltb best x); rewrite IH;
      replace (next + 1 + Z.of_nat (List.length l))%Z
        with (next + Z.of_nat (S (List.length l)))%Z by lia; reflexivity.
Qed.

Lemma range_length (start stop : Z) :
  List.length (range start stop) = Z.to_nat (stop - start).
Proof. unfold range. rewrite length_map, length_seq. reflexivity. Qed.

Lemma Qltb_lt (x y : Q) : Qltb x y = true -> (x < y)%Q.
Proof.
  unfold Qltb. intros H. apply negb_true_iff in H.
  apply Qnot_le_lt. intros L. apply Qle_bool_iff in L. congruence.
Qed.

Lemma Qltb_ge (x y : Q) : Qltb x y = false -> (y <= x)%Q.
Proof.
  unfold Qltb. intros H. apply negb_false_iff in H.
  apply Qle_bool_iff. exact H.
Qed.

Section OptimizerLemmas.

Local Open Scope Z_scope.

Variable call_claude : nat -> string -> result string.
Variable score_post : string -> string -> string -> Z -> result ScoreReport.
Variable get_generation_prompt : string -> string -> string -> string -> Z -> string.
Variable get_improvement_prompt : string -> ScoreReport -> string -> string -> Z -> string.
Variable year : Z.

Let iterate' := iterate call_claude score_post get_improvement_prompt.
Let improvement_loop' := improvement_loop call_claude score_post get_improvement_prompt.
Let run_optimization' :=
  run_optimization call_claude score_post get_generation_prompt
                   get_improvement_prompt year.

Definition scores_of (st : RunState) : list Q := map rec_score (history st).

(** Every iteration sends exactly one request, whether it succeeds or
    raises. *)
Lemma iterate_calls (kw community : string) (st : RunState) (i : Z) (n : nat) :
  snd (iterate' kw community st i n) = S n.
Proof.
  unfold iterate', iterate, bindM, ask, lift, ret.
  destruct (call_claude n _) as [response|e]; [|reflexivity].
  destruct (extract_markdown response) as [new_content|e]; [|reflexivity].
  destruct (score_post new_content kw community i) as [new_report|e]; [|reflexivity].
  destruct (Qltb _ _); reflexivity.
Qed.

(** What a successful iteration does to the variables of the loop. *)
Lemma iterate_Ok (kw community : string) (st st' : RunState) (i : Z) (n n' : nat) :
  iterate' kw community st i n = (Ok st', n') ->
  exists new_content new_report,
    score_post new_content kw community i = Ok new_report
    /\ n' = S n
    /\ content st' = new_content
    /\ report st' = new_report
    /\ history st'
       = history st
           ++ [mkIterationRecord i (total_score new_report)
                 (report_percentage new_report)
                 (Some (total_score new_report - total_score (report st))%Q)
                 (map (fun d => (category d, score d)) (details new_report))]
    /\ written st' = written st ++ [(version_md i, new_content)]
    /\ (if Qltb (best_score st) (total_score new_report)
        then best_content st' = new_content
             /\ best_score st' = total_score new_report
             /\ best_iteration st' = i
             /\ plateau_count st' = 0
        else best_content st' = best_content st
             /\ best_score st' = best_score st
             /\ best_iteration st' = best_iteration st
             /\ plateau_count st' = plateau_count st + 1).
Proof.
  unfold iterate', iterate, bindM, ask, lift, ret. intros H.
  destruct (call_claude n _) as [response|e]; [|discriminate H].
  destruct (extract_markdown response) as [new_content|e]; [|discriminate H].
  destruct (score_post new_content kw community i) as [new_report|e] eqn:S;
    [|discriminate H].
  exists new_content, new_report.
  destruct (Qltb (best_score st) (total_score new_report)) eqn:B;
    injection H as <- <-; cbn [content report history written best_content
                                 best_score best_iteration plateau_count];
    repeat split; try reflexivity; exact S.
Qed.

End OptimizerLemmas.

(** A scripted run: the collaborator answers the [n]-th request with
    the text "draft n", and the scorer gives iteration [i] the [i]-th
    total of a fixed list. *)
Module Scripted.
Definition call_claude (n : nat) (prompt : string) : result string :=
  Ok (fstr ["draft "; PyStr.of_nat n]).
Definition score_post (totals : list Q) (content keyword community : string)
           (iteration : Z) : result ScoreReport :=
  let total := nth (Z.to_nat iteration) totals 0%Q in
  Ok (mkScoreReport total 100 total [] iteration).
Definition get_generation_prompt (keyword community content_type description : string)
           (year : Z) : string := EmptyString.
Definition get_improvement_prompt (content : string) (report : ScoreReport)
           (keyword community : string) (iteration : Z) : string := EmptyString.
Definition run (totals : list Q) (iterations : option Z) : result RunResult * nat :=
  run_optimization call_claude (score_post totals) get_generation_prompt
                   get_improvement_prompt 2026 "Powell" "community_guide" None
                   iterations 0.
Definition plateau_totals : list Q := [70; 68; 65; 90; 80; 79]%Q.
End Scripted.

Lemma range_cons (a : Z) (m : nat) :
  range a (a + Z.of_nat (S m)) = a :: range (a + 1) (a + 1 + Z.of_nat m).
Proof.
  unfold range.
  replace (a + Z.of_nat (S m) - a)%Z with (Z.of_nat (S m)) by lia.
  replace (a + 1 + Z.of_nat m - (a + 1))%Z with (Z.of_nat m) by lia.
  rewrite !Nat2Z.id. cbn [seq map]. rewrite Z.add_0_r. f_equal.
  rewrite <- seq_shift, map_map. apply map_ext. intros k. lia.
Qed.

Lemma range_nil (a : Z) : range a (a + Z.of_nat 0) = [].
Proof. unfold range. replace (a + Z.of_nat 0 - a)%Z with 0%Z by lia. reflexivity. Qed.

Section OptimizerInvariants.

Local Open Scope Z_scope.

Variable call_claude : nat -> string -> result string.
Variable score_post : string -> string -> string -> Z -> result ScoreReport.
Variable get_generation_prompt : string -> string -> string -> string -> Z -> string.
Variable get_improvement_prompt : string -> ScoreReport -> string -> string -> Z -> string.
Variable year : Z.

Let iterate' := iterate call_claude score_post get_improvement_prompt.
Let improvement_loop' := improvement_loop call_claude score_post get_improvement_prompt.

(** The best and the plateau counter of the state are those of its
    score history. *)
Definition tracked (st : RunState) : Prop :=
  exists s0 rest,
    scores_of st = s0 :: rest
    /\ track s0 0 0 1 rest = (best_score st, best_iteration st, plateau_count st).

Lemma tracked_plateau (st : RunState) :
  tracked st -> plateau_counter (scores_of st) = plateau_count st.
Proof.
  intros (s0 & rest & E & T). rewrite E. unfold plateau_counter. rewrite T. reflexivity.
Qed.

Lemma iterate_tracked (kw community : string) (st st' : RunState) (n n' : nat) :
  iterate' kw community st (len (history st)) n = (Ok st', n') ->
  tracked st ->
  exists s,
    scores_of st' = scores_of st ++ [s]
    /\ tracked st'
    /\ plateau_count st' <= plateau_count st + 1
    /\ 0 <= plateau_count st'.
Proof.
  intros H (s0 & rest & E & T).
  destruct (@iterate_Ok call_claude score_post get_improvement_prompt _ _ _ _ _ _ _ H)
    as (new_content & new_report & _ & _ & _ & R & Hh & _ & B).
  exists (total_score new_report).
  assert (Es : scores_of st' = scores_of st ++ [total_score new_report]).
  { unfold scores_of. rewrite Hh, map_app. reflexivity. }
  assert (P0 : 0 <= plateau_count st).
  { clear - T. revert T. generalize (best_iteration st) (plateau_count st) (best_score st).
    assert (G : forall l b a p i bb aa pp,
               track b a p i l = (bb, aa, pp) -> 0 <= p -> 0 <= pp).
    { induction l as [|x l IH]; intros b a p i bb aa pp Ht Hp; cbn [track] in Ht.
      - injection Ht as _ _ <-. exact Hp.
      - destruct (Qltb b x); eapply IH; try exact Ht; lia. }
    intros a p b Ht. eapply G; [exact Ht|lia]. }
  split; [exact Es|].
  assert (L : len (history st) = 1 + Z.of_nat (List.length rest)).
  { unfold len. unfold scores_of in E.
    rewrite <- (length_map rec_score), E. cbn [List.length]. lia. }
  destruct (Qltb (best_score st) (total_score new_report)) eqn:Q;
    destruct B as (_ & Bs & Bi & Bp).
  - split; [|lia]. exists s0, (rest ++ [total_score new_report]).
    split; [rewrite Es, E; reflexivity|].
    rewrite track_app, T, Q, Bs, Bi, Bp, L. reflexivity.
  - split; [|lia]. exists s0, (rest ++ [total_score new_report]).
    split; [rewrite Es, E; reflexivity|].
    rewrite track_app, T, Q, Bs, Bi, Bp. reflexivity.
Qed.

Lemma history_grows (kw community : string) (st st' : RunState) (i : Z) (n n' : nat) :
  iterate' kw community st i n = (Ok st', n') ->
  len (history st') = len (history st) + 1.
Proof.
  intros H.
  destruct (@iterate_Ok call_claude score_post get_improvement_prompt _ _ _ _ _ _ _ H)
    as (new_content & new_report & _ & _ & _ & _ & Hh & _).
  unfold len. rewrite Hh, length_app. cbn [List.length]. lia.
Qed.

(** The loop over [m] consecutive indices stops after the last of
    them, or as soon as the plateau counter reaches the patience. *)
Lemma improvement_loop_spec (kw community : string) (m : nat) :
  forall (st st' : RunState) (n n' : nat),
    improvement_loop' kw community
                      (range (len (history st)) (len (history st) + Z.of_nat m)) st n
    = (Ok st', n') ->
    tracked st ->
    plateau_count st < ITERATIONS.plateau_patience ->
    exists news,
      scores_of st' = scores_of st ++ news
      /\ (List.length news <= m)%nat
      /\ tracked st'
      /\ (List.length news = m \/ plateau_count st' = ITERATIONS.plateau_patience)
      /\ (forall k, (k < List.length news)%nat ->
                    plateau_counter (scores_of st ++ firstn k news)
                    < ITERATIONS.plateau_patience).
Proof.
  induction m as [|m IH]; intros st st' n n' H T P.
  - rewrite range_nil in H. cbn [improvement_loop'] in H. unfold improvement_loop' in H.
    cbn [improvement_loop] in H. unfold ret in H. injection H as <- <-.
    exists []. rewrite app_nil_r. repeat split; auto.
    cbn [List.length]. intros k Hk. lia.
  - rewrite range_cons in H. unfold improvement_loop' in H.
    cbn [improvement_loop] in H. unfold bindM at 1 in H.
    fold iterate' in H.
    destruct (iterate' kw community st (len (history st)) n) as [[st1|e] n1] eqn:I1;
      [|discriminate H].
    destruct (@iterate_tracked _ _ _ _ _ _ I1 T) as (s & Es & T1 & Pu & Pl).
    pose proof (@history_grows _ _ _ _ _ _ _ I1) as Hg.
    destruct (ITERATIONS.plateau_patience <=? plateau_count st1) eqn:Stop.
    + unfold ret in H. injection H as <- <-.
      apply Z.leb_le in Stop.
      exists [s]. split; [exact Es|]. split; [cbn; lia|]. split; [exact T1|].
      split; [right; lia|].
      intros k Hk. cbn [List.length] in Hk.
      assert (k = 0%nat) by lia. subst k. cbn [firstn]. rewrite app_nil_r.
      rewrite (tracked_plateau T). exact P.
    + apply Z.leb_gt in Stop. rewrite <- Hg in H.
      fold improvement_loop' in H.
      destruct (IH _ _ _ _ H T1 Stop) as (news & En & Ln & Tn & Dn & Pn).
      exists (s :: news).
      split; [rewrite En, Es, <- app_assoc; reflexivity|].
      split; [cbn; lia|]. split; [exact Tn|].
      split; [destruct Dn as [Dn|Dn]; [left; cbn; lia | right; exact Dn]|].
      intros k Hk. destruct k as [|k].
      * cbn [firstn]. rewrite app_nil_r, (tracked_plateau T). exact P.
      * cbn [firstn]. cbn [List.length] in Hk.
        replace (scores_of st ++ s :: firstn k news)
          with (scores_of st1 ++ firstn k news)
          by (rewrite Es, <- app_assoc; reflexivity).
        apply Pn. lia.
Qed.

End OptimizerInvariants.

Lemma range_to_nat (a b : Z) : range a b = range a (a + Z.of_nat (Z.to_nat (b - a))).
Proof.
  unfold range. f_equal. f_equal.
  replace (a + Z.of_nat (Z.to_nat (b - a)) - a)%Z with (Z.of_nat (Z.to_nat (b - a))) by lia.
  rewrite Nat2Z.id. reflexivity.
Qed.

Section OptimizerBest.

Local Open Scope Z_scope.

Variable call_claude : nat -> string -> result string.
Variable score_post : string -> string -> string -> Z -> result ScoreReport.
Variable get_generation_prompt : string -> string -> string -> string -> Z -> string.
Variable get_improvement_prompt : string -> ScoreReport -> string -> string -> Z -> string.
Variable year : Z.

Let iterate' := iterate call_claude score_post get_improvement_prompt.
Let improvement_loop' := improvement_loop call_claude score_post get_improvement_prompt.
Let run_optimization' :=
  run_optimization call_claude score_post get_generation_prompt
                   get_improvement_prompt year.

(** The best document is on file under its iteration index, its score
    is on record for that iteration, and no recorded score exceeds it. *)
Definition best_kept (st : RunState) : Prop :=
  In (version_md (best_iteration st), best_content st) (written st)
  /\ (exists rec, In rec (history st)
                  /\ rec_iteration rec = best_iteration st
                  /\ rec_score rec = best_score st)
  /\ Forall (fun rec => (rec_score rec <= best_score st)%Q) (history st).

Lemma iterate_best_kept (kw community : string) (st st' : RunState) (i : Z)
      (n n' : nat) :
  iterate' kw community st i n = (Ok st', n') -> best_kept st -> best_kept st'.
Proof.
  intros H (W & (rec & Rin & Ri & Rs) & F).
  destruct (@iterate_Ok call_claude score_post get_improvement_prompt _ _ _ _ _ _ _ H)
    as (new_content & new_report & _ & _ & _ & _ & Hh & Hw & B).
  unfold best_kept. rewrite Hh, Hw.
  destruct (Qltb (best_score st) (total_score new_report)) eqn:Q;
    destruct B as (Bc & Bs & Bi & _); rewrite Bc, Bs, Bi.
  - apply Qltb_lt in Q. split; [apply in_or_app; right; left; reflexivity|].
    split.
    + eexists. split; [apply in_or_app; right; left; reflexivity|].
      split; reflexivity.
    + apply Forall_app. split.
      * eapply Forall_impl; [|exact F]. intros r0 Hr. cbv beta in Hr.
        apply Qlt_le_weak. eapply Qle_lt_trans; [exact Hr|exact Q].
      * apply Forall_cons; [apply Qle_refl|apply Forall_nil].
  - apply Qltb_ge in Q. split; [apply in_or_app; left; exact W|].
    split.
    + exists rec. split; [apply in_or_app; left; exact Rin|]. split; assumption.
    + apply Forall_app. split; [exact F|].
      apply Forall_cons; [exact Q|apply Forall_nil].
Qed.

Lemma improvement_loop_best_kept (kw community : string) (indices : list Z) :
  forall (st st' : RunState) (n n' : nat),
    improvement_loop' kw community indices st n = (Ok st', n') ->
    best_kept st -> best_kept st'.
Proof.
  induction indices as [|i rest IH]; intros st st' n n' H K;
    unfold improvement_loop' in H; cbn [improvement_loop] in H.
  - unfold ret in H. injection H as <- _. exact K.
  - unfold bindM at 1 in H. fold iterate' in H.
    destruct (iterate' kw community st i n) as [[st1|e] n1] eqn:I1; [|discriminate H].
    pose proof (@iterate_best_kept _ _ _ _ _ _ _ I1 K) as K1.
    destruct (ITERATIONS.plateau_patience <=? plateau_count st1).
    + unfold ret in H. injection H as <- _. exact K1.
    + fold improvement_loop' in H. exact (IH _ _ _ _ H K1).
Qed.

(** The loop sends at most one request per index. *)
Lemma improvement_loop_calls (kw community : string) (indices : list Z) :
  forall (st : RunState) (n : nat),
    (snd (improvement_loop' kw community indices st n) <= n + List.length indices)%nat.
Proof.
  induction indices as [|i rest IH]; intros st n;
    unfold improvement_loop'; cbn [improvement_loop List.length].
  - unfold ret. cbn [snd]. lia.
  - unfold bindM at 1. fold iterate'.
    pose proof (@iterate_calls call_claude score_post get_improvement_prompt
                               kw community st i n) as C.
    cbv zeta in C. fold iterate' in C.
    destruct (iterate' kw community st i n) as [[st1|e] n1]; cbn [snd] in C; subst n1.
    + destruct (ITERATIONS.plateau_patience <=? plateau_count st1).
      * unfold ret. cbn [snd]. lia.
      * fold improvement_loop'. specialize (IH st1 (S n)). lia.
    + cbn [snd]. lia.
Qed.

(** What a successful run is made of: the initial state and the loop
    over the clamped range. *)
Lemma run_optimization_Ok (community content_type : string)
      (primary_keyword : option string) (iterations : option Z)
      (n0 n1 : nat) (r : RunResult) :
  run_optimization' community content_type primary_keyword iterations n0 = (Ok r, n1) ->
  exists kw content0 report0 st,
    let st0 :=
      mkRunState content0 report0
                 [mkIterationRecord 0 (total_score report0) (report_percentage report0)
                                    None
                                    (map (fun d => (category d, score d))
                                         (details report0))]
                 content0 (total_score report0) 0 0 [(version_md 0, content0)] in
    improvement_loop' kw community
                      (range 1 (Z.min (requested iterations) ITERATIONS.max_count + 1))
                      st0 (S n0)
    = (Ok st, n1)
    /\ r = mkRunResult (best_content st) (best_score st) (best_iteration st)
                       (map rec_score (history st)) (len (history st) - 1)
                       (history st) (written st ++ [(FINAL_md, best_content st)]).
Proof.
  unfold run_optimization', run_optimization. intros H.
  destruct (CONTENT_TYPES.find content_type CONTENT_TYPES.table)
    as [[description pattern]|]; [|discriminate H].
  unfold bindM at 1 in H. unfold ask at 1 in H.
  destruct (call_claude n0 _) as [response|e]; [|discriminate H].
  unfold bindM at 1 in H. unfold lift at 1 in H.
  destruct (extract_markdown response) as [content0|e]; [|discriminate H].
  unfold bindM at 1 in H. unfold lift at 1 in H.
  match type of H with
  | context [score_post content0 ?k community 0] => set (kw := k) in *
  end.
  destruct (score_post content0 kw community 0) as [report0|e]; [|discriminate H].
  unfold bindM at 1 in H. fold improvement_loop' in H.
  unfold category_scores in H.
  match type of H with
  | context [improvement_loop' kw community ?idx ?s0 (S n0)] =>
      destruct (improvement_loop' kw community idx s0 (S n0)) as [[st|e] n2] eqn:L;
      [|discriminate H]
  end.
  unfold ret in H. injection H as <- <-.
  exists kw, content0, report0, st. cbv zeta. split; [|reflexivity].
  unfold requested. destruct iterations; exact L.
Qed.

End OptimizerBest.

(** *** Termination, best tracking and the iteration cap *)

(** The iteration cap of a request: the requested count clamped to the
    configured maximum; a negative count allows no iteration. *)
Definition iteration_cap (iterations : option Z) : Z :=
  Z.max 0 (Z.min (requested iterations) ITERATIONS.max_count).

(** How a finished run [r] stopped: not beyond the cap; at the cap or
    with the plateau counter at the patience; never with the counter at
    the patience before the last iteration; with the best score and
    its iteration index those of the rule of the loop. *)
Definition stopped_at_cap_or_plateau (iterations : option Z) (r : RunResult) : Prop :=
  (len (all_scores r) = iterations_run r + 1
   /\ 0 <= iterations_run r <= iteration_cap iterations
   /\ (iterations_run r = iteration_cap iterations
       \/ plateau_counter (all_scores r) = ITERATIONS.plateau_patience)
   /\ (forall k : nat,
          (0 < k)%nat -> Z.of_nat k <= iterations_run r ->
          plateau_counter (firstn k (all_scores r)) < ITERATIONS.plateau_patience)
   /\ exists s0 rest,
       all_scores r = s0 :: rest
       /\ track s0 0 0 1 rest
          = (res_best_score r, res_best_iteration r, plateau_counter (all_scores r)))%Z.

(** The scores 70, 68, 65 end a run: the plateau counter is then at the
    patience of 2, with the initial document still the best. *)
Definition stops_after_two_regressions (r : RunResult) : Prop :=
  forall tail,
    all_scores r = (70 :: 68 :: 65 :: tail)%Q ->
    tail = [] /\ iterations_run r = 2%Z
    /\ res_best_iteration r = 0%Z /\ res_best_score r = 70%Q.

(** The update of the best and of the plateau counter by one iteration
    going from [st] to [st'] at index [i]. *)
Definition best_update_rule (st : RunState) (i : Z) (st' : RunState) : Prop :=
  let new_score := total_score (report st') in
  ((best_score st < new_score)%Q ->
   best_content st' = content st' /\ best_score st' = new_score
   /\ best_iteration st' = i /\ plateau_count st' = 0%Z)
  /\ (~ (best_score st < new_score)%Q ->
      best_content st' = best_content st /\ best_score st' = best_score st
      /\ best_iteration st' = best_iteration st
      /\ plateau_count st' = (plateau_count st + 1)%Z).

(** The finalized artifact of a run is its best-scoring document. *)
Definition finalized_best (r : RunResult) : Prop :=
  In (FINAL_md, res_best_content r) (res_written r)
  /\ In (version_md (res_best_iteration r), res_best_content r) (res_written r)
  /\ (exists rec, In rec (improvement_history r)
                  /\ rec_iteration rec = res_best_iteration r
                  /\ rec_score rec = res_best_score r)
  /\ Forall (fun s => (s <= res_best_score r)%Q) (all_scores r).

Section RunProperties.

Local Open Scope Z_scope.

Variable call_claude : nat -> string -> result string.
Variable score_post : string -> string -> string -> Z -> result ScoreReport.
Variable get_generation_prompt : string -> string -> string -> string -> Z -> string.
Variable get_improvement_prompt : string -> ScoreReport -> string -> string -> Z -> string.
Variable year : Z.

Let iterate' := iterate call_claude score_post get_improvement_prompt.
Let run_optimization' :=
  run_optimization call_claude score_post get_generation_prompt
                   get_improvement_prompt year.

Lemma run_stopped (community content_type : string)
      (primary_keyword : option string) (iterations : option Z)
      (n0 n1 : nat) (r : RunResult) :
  run_optimization' community content_type primary_keyword iterations n0 = (Ok r, n1) ->
  stopped_at_cap_or_plateau iterations r.
Proof.
  intros H.
  destruct (@run_optimization_Ok call_claude score_post get_generation_prompt
              get_improvement_prompt year _ _ _ _ _ _ _ H)
    as (kw & content0 & report0 & st & L & ->).
  cbv zeta in L.
  set (st0 := mkRunState content0 report0 _ content0 _ 0 0 _) in L.
  set (m := Z.to_nat (Z.min (requested iterations) ITERATIONS.max_count)).
  rewrite range_to_nat in L.
  replace (Z.to_nat (Z.min (requested iterations) ITERATIONS.max_count + 1 - 1))
    with m in L by (unfold m; f_equal; lia).
  change 1 with (len (history st0)) in L at 1 2.
  destruct (@improvement_loop_spec call_claude score_post get_improvement_prompt
              kw community m st0 st (S n0) n1 L)
    as (news & En & Ln & Tn & Dn & Pn).
  { exists (total_score report0), []. split; reflexivity. }
  { reflexivity. }
  change (scores_of st0) with [total_score report0] in En, Pn.
  assert (Cap : iteration_cap iterations = Z.of_nat m)
    by (unfold iteration_cap, m; lia).
  assert (Len : len (history st) = Z.of_nat (List.length news) + 1).
  { unfold len. rewrite <- (length_map rec_score). fold (scores_of st).
    rewrite En. cbn [app List.length]. lia. }
  unfold stopped_at_cap_or_plateau.
  cbn [all_scores iterations_run res_best_score res_best_iteration].
  fold (scores_of st). rewrite Cap.
  split; [unfold len at 1; unfold scores_of; rewrite length_map; fold (len (history st)); lia|].
  split; [lia|].
  split.
  { destruct Dn as [Dn|Dn]; [left; lia|right].
    rewrite (tracked_plateau Tn). exact Dn. }
  split.
  { intros k Hk Hle. destruct k as [|k]; [lia|].
    rewrite En. cbn [app firstn].
    apply (Pn k). lia. }
  destruct Tn as (s0 & rest & E & T). exists s0, rest. split; [exact E|].
  rewrite E. unfold plateau_counter. rewrite T. reflexivity.
Qed.

(** C1, as amended: the loop stops once the iteration cap is reached,
    or as soon as the plateau counter reaches the patience, whichever
    comes first; for the scores 70, 68, 65, 90, 80, 79 with a
    patience of 2 it stops after the 65, with the best recorded as the
    70 of iteration 0, so that no later score is ever produced. *)
Theorem run_optimization_stops
        (community content_type : string)
        (primary_keyword : option string) (iterations : option Z)
        (n0 n1 : nat) (r : RunResult) :
  run_optimization' community content_type primary_keyword iterations n0 = (Ok r, n1) ->
  stopped_at_cap_or_plateau iterations r /\ stops_after_two_regressions r.
Proof.
  intros H. pose proof (run_stopped _ _ _ _ _ H) as S.
  split; [exact S|].
  destruct S as (Hlen & Hcap & _ & Hpre & (s0 & rest & E & T)).
  intros tail Et. rewrite Et in *.
  destruct tail as [|s tail].
  - injection E as <- <-.
    change (plateau_counter [70; 68; 65]%Q) with 2 in T.
    change (track 70 0 0 1 [68; 65]%Q) with (70%Q, 0, 2) in T.
    injection T as <- <-.
    repeat split; try reflexivity.
    unfold len in Hlen. cbn [List.length] in Hlen. lia.
  - exfalso.
    assert (K : plateau_counter (firstn 3 (70 :: 68 :: 65 :: s :: tail)%Q)
                < ITERATIONS.plateau_patience).
    { apply Hpre; [lia|]. unfold len in Hlen. cbn [List.length] in Hlen. lia. }
    vm_compute in K. discriminate K.
Qed.

(** C4: an iteration replaces the tracked best (document, score,
    iteration index) only when its total score is strictly greater
    than the best score, and then resets the plateau counter to 0;
    otherwise the best is kept and the counter grows by 1.  On
    termination the artifact written as final is the best document:
    the one on file for the best iteration, whose recorded score is
    the best score, which no score of the run exceeds. *)
Theorem best_tracking
        (community content_type kw : string)
        (primary_keyword : option string) (iterations : option Z)
        (st st' : RunState) (i : Z) (n n' n0 n1 : nat) (r : RunResult) :
  (iterate' kw community st i n = (Ok st', n') -> best_update_rule st i st')
  /\ (run_optimization' community content_type primary_keyword iterations n0
      = (Ok r, n1) ->
      finalized_best r).
Proof.
  split.
  - intros H.
    destruct (@iterate_Ok call_claude score_post get_improvement_prompt _ _ _ _ _ _ _ H)
      as (new_content & new_report & _ & _ & C & R & _ & _ & B).
    unfold best_update_rule. cbv zeta. rewrite R, C.
    destruct (Qltb (best_score st) (total_score new_report)) eqn:Q.
    + split; [intros _; exact B|].
      intros N. exfalso. apply N. apply Qltb_lt. exact Q.
    + split; [|intros _; exact B].
      intros N. exfalso. apply Qltb_ge in Q.
      exact (Qlt_not_le _ _ N Q).
  - intros H.
    destruct (@run_optimization_Ok call_claude score_post get_generation_prompt
                get_improvement_prompt year _ _ _ _ _ _ _ H)
      as (kw' & content0 & report0 & st1 & L & ->).
    cbv zeta in L.
    apply (@improvement_loop_best_kept call_claude score_post get_improvement_prompt)
      in L.
    + destruct L as (W & (rec & Rin & Ri & Rs) & F).
      unfold finalized_best.
      cbn [res_written res_best_content res_best_iteration res_best_score
           improvement_history all_scores].
      split; [apply in_or_app; right; left; reflexivity|].
      split; [apply in_or_app; left; exact W|].
      split; [exists rec; repeat split; assumption|].
      apply Forall_map. exact F.
    + unfold best_kept.
      cbn [written history best_iteration best_content best_score].
      split; [left; reflexivity|].
      split.
      * eexists. split; [left; reflexivity|]. split; reflexivity.
      * apply Forall_cons; [apply Qle_refl|apply Forall_nil].
Qed.

(** Whatever count is requested, the number of revision requests sent
    (all requests but the first, which asks for the initial document)
    never exceeds the requested count clamped to the configured
    maximum of 15, and is 0 for a negative request. *)
Lemma revision_attempts_clamped
      (community content_type : string)
      (primary_keyword : option string) (iterations : option Z) :
  Z.of_nat (snd (run_optimization' community content_type primary_keyword
                                   iterations 0%nat) - 1)
  <= Z.max 0 (Z.min (requested iterations) ITERATIONS.max_count).
Proof.
  unfold run_optimization', run_optimization.
  destruct (CONTENT_TYPES.find content_type CONTENT_TYPES.table)
    as [[description pattern]|]; [|cbn; lia].
  unfold bindM at 1. unfold ask at 1.
  destruct (call_claude 0%nat _) as [response|e]; [|cbn; lia].
  unfold bindM at 1. unfold lift at 1.
  destruct (extract_markdown response) as [content0|e]; [|cbn; lia].
  unfold bindM at 1. unfold lift at 1.
  destruct (score_post content0 _ community 0) as [report0|e]; [|cbn; lia].
  unfold bindM at 1.
  match goal with
  | |- context [improvement_loop call_claude score_post get_improvement_prompt
                                 ?k community ?idx ?s0 1%nat] =>
      pose proof (@improvement_loop_calls call_claude score_post
                    get_improvement_prompt k community idx s0 1%nat) as C;
      cbv zeta in C;
      destruct (improvement_loop call_claude score_post get_improvement_prompt
                                 k community idx s0 1%nat) as [[st|e] n2]
  end.
  - unfold ret. cbn [snd] in *. rewrite range_length in C.
    unfold requested in *. destruct iterations; lia.
  - cbn [snd] in *. rewrite range_length in C.
    unfold requested in *. destruct iterations; lia.
Qed.

(** C10: for every requested iteration count (a count is not negative;
    no request stands for the default count), the number of revision
    iterations attempted, that is the number of requests sent after the
    first one, never exceeds the minimum of the request and the
    configured maximum of 15; a request of 15 or more is clamped: the
    run is the run of a request of exactly 15, neither honored nor
    rejected. *)
Theorem revision_attempts_bounded
        (community content_type : string)
        (primary_keyword : option string) (iterations : option Z) :
  0 <= requested iterations ->
  let requests :=
    snd (run_optimization' community content_type primary_keyword iterations 0%nat) in
  Z.of_nat (requests - 1) <= Z.min (requested iterations) ITERATIONS.max_count
  /\ Z.of_nat (requests - 1) <= ITERATIONS.max_count
  /\ (ITERATIONS.max_count <= requested iterations ->
      run_optimization' community content_type primary_keyword iterations 0%nat
      = run_optimization' community content_type primary_keyword
                          (Some ITERATIONS.max_count) 0%nat).
Proof.
  intros Count. cbv zeta.
  pose proof (revision_attempts_clamped community content_type primary_keyword
                                        iterations) as G.
  split; [|split].
  - unfold ITERATIONS.max_count in *. lia.
  - unfold ITERATIONS.max_count in *. lia.
  - intros Above. unfold run_optimization', run_optimization.
    destruct (CONTENT_TYPES.find content_type CONTENT_TYPES.table)
      as [[description pattern]|]; [|reflexivity].
    fold (requested iterations).
    replace (Z.min (requested iterations) ITERATIONS.max_count)
      with (Z.min ITERATIONS.max_count ITERATIONS.max_count)
      by (rewrite Z.min_id; symmetry; apply Z.min_r; exact Above).
    reflexivity.
Qed.

End RunProperties.

(** *** The scripted run with totals 70, 68, 65, 90, 80, 79 *)

(** The state of the scripted run after its initial document. *)
Definition scripted_initial_state : RunState :=
  mkRunState "draft 0" (mkScoreReport 70 100 70 [] 0)
             [mkIterationRecord 0 70 70 None []]
             "draft 0" 70 0 0 [(version_md 0, "draft 0")].

Definition scripted_iteration : result RunState * nat :=
  iterate Scripted.call_claude (Scripted.score_post Scripted.plateau_totals)
          Scripted.get_improvement_prompt "living in Powell Ohio" "Powell"
          scripted_initial_state 1 1.

(** C1, as stated, fails: on these totals with a patience of 2 the loop
    stops after the 65 and records iteration 0 as the best; the 90, the
    80 and the 79 are never produced. *)
Lemma plateau_example_stops_after_65 :
  exists r requests,
    Scripted.run Scripted.plateau_totals (Some 5%Z) = (Ok r, requests)
    /\ all_scores r = [70; 68; 65]%Q
    /\ iterations_run r = 2%Z
    /\ res_best_iteration r = 0%Z
    /\ res_best_iteration r <> 3%Z
    /\ ~ In 79%Q (all_scores r).
Proof.
  destruct (Scripted.run Scripted.plateau_totals (Some 5%Z)) as [[r|e] requests] eqn:E;
    vm_compute in E; [|discriminate E].
  injection E as <- <-. exists (mkRunResult "draft 0" 70 0 [70; 68; 65]%Q 2
                                  [mkIterationRecord 0 70 70 None [];
                                   mkIterationRecord 1 68 68 (Some (-2 # 1)%Q) [];
                                   mkIterationRecord 2 65 65 (Some (-3 # 1)%Q) []]
                                  [(version_md 0, "draft 0"); (version_md 1, "draft 1");
                                   (version_md 2, "draft 2"); (FINAL_md, "draft 0")]), 3.
  split; [reflexivity|]. cbn [all_scores iterations_run res_best_iteration].
  repeat split; try reflexivity; try discriminate.
  intros [H|[H|[H|[]]]]; discriminate H.
Qed.

Lemma run_optimization_stops_witness :
  exists r requests,
    Scripted.run Scripted.plateau_totals (Some 5%Z) = (Ok r, requests)
    /\ stopped_at_cap_or_plateau (Some 5%Z) r
    /\ stops_after_two_regressions r.
Proof.
  destruct (Scripted.run Scripted.plateau_totals (Some 5%Z)) as [[r|e] requests] eqn:E;
    [|vm_compute in E; discriminate E].
  exists r, requests. split; [reflexivity|].
  exact (run_optimization_stops
           Scripted.call_claude (Scripted.score_post Scripted.plateau_totals)
           Scripted.get_generation_prompt Scripted.get_improvement_prompt 2026
           "Powell" "community_guide" None (Some 5%Z) 0 E).
Defined.

Lemma best_tracking_witness :
  exists st' n' r requests,
    scripted_iteration = (Ok st', n')
    /\ best_update_rule scripted_initial_state 1 st'
    /\ Scripted.run Scripted.plateau_totals (Some 5%Z) = (Ok r, requests)
    /\ finalized_best r.
Proof.
  destruct scripted_iteration as [[st'|e] n'] eqn:I; [|vm_compute in I; discriminate I].
  destruct (Scripted.run Scripted.plateau_totals (Some 5%Z)) as [[r|e] requests] eqn:E;
    [|vm_compute in E; discriminate E].
  exists st', n', r, requests.
  pose proof (@best_tracking
                Scripted.call_claude (Scripted.score_post Scripted.plateau_totals)
                Scripted.get_generation_prompt Scripted.get_improvement_prompt 2026
                "Powell" "community_guide" "living in Powell Ohio" None (Some 5%Z)
                scripted_initial_state st' 1 1 n' 0 requests r) as [Step Final].
  split; [reflexivity|]. split; [exact (Step I)|]. split; [reflexivity|exact (Final E)].
Defined.

Lemma revision_attempts_bounded_witness :
  let requests := snd (Scripted.run Scripted.plateau_totals (Some 20%Z)) in
  (Z.of_nat (requests - 1) <= Z.min 20 ITERATIONS.max_count
   /\ Z.of_nat (requests - 1) <= ITERATIONS.max_count
   /\ (ITERATIONS.max_count <= 20 ->
       Scripted.run Scripted.plateau_totals (Some 20%Z)
       = Scripted.run Scripted.plateau_totals (Some ITERATIONS.max_count)))%Z.
Proof.
  apply (@revision_attempts_bounded
           Scripted.call_claude (Scripted.score_post Scripted.plateau_totals)
           Scripted.get_generation_prompt Scripted.get_improvement_prompt 2026
           "Powell" "community_guide" None (Some 20%Z)).
  cbn [requested]. lia.
Defined.

(** The bound on the revision iterations needs the request to be a
    count: a request of -1 runs no revision iteration, and 0 is more
    than the minimum of -1 and 15. *)
Lemma negative_request_exceeds_minimum :
  let requests := snd (Scripted.run Scripted.plateau_totals (Some (-1)%Z)) in
  Z.of_nat (requests - 1) = 0%Z
  /\ ~ (Z.of_nat (requests - 1) <= Z.min (-1) ITERATIONS.max_count)%Z.
Proof.
  vm_compute. split; [reflexivity|]. intros H. apply H. reflexivity.
Qed.

(** * Further properties of the scoring engine *)

(** ** The report as a whole *)

Lemma Qsum_acc (l : list Q) (a : Q) : (fold_left Qplus l a == a + Qsum l)%Q.
Proof.
  unfold Qsum. revert a. induction l as [|x l IH]; intros a; cbn [fold_left].
  - ring.
  - rewrite (IH (a + x)%Q), (IH (0 + x)%Q). ring.
Qed.

Lemma Qsum_cons (x : Q) (l : list Q) : (Qsum (x :: l) == x + Qsum l)%Q.
Proof. unfold Qsum at 1. cbn [fold_left]. rewrite Qsum_acc. ring. Qed.

Lemma Qsum_bounds (l : list ScoreDetail) :
  Forall well_formed l ->
  (0 <= Qsum (map score l) /\ Qsum (map score l) <= Qsum (map max_score l))%Q.
Proof.
  induction 1 as [|d l (S0 & S1 & _) _ (I0 & I1)]; cbn [map].
  - split; apply Qle_refl.
  - rewrite !Qsum_cons. split; lra.
Qed.

Definition max_score_is (w : Z) (r : result ScoreDetail) : Prop :=
  match r with
  | Ok d => max_score d = inject_Z w
  | Raise _ => True
  end.

Ltac show_max_score :=
  cbv beta iota zeta delta [max_score_is max_score]; first [exact I | reflexivity].

Section RuleWeights.

Variable re_search : string -> string -> bool.
Variable format_f : nat -> Q -> string.
Variable pow_half : Q -> Q.
Variable set_order : list string -> list string.

Lemma score_keyword_optimization_weight
      (body : string) (frontmatter : pyval) (primary_keyword : string) :
  max_score_is SCORING.keyword_optimization.weight
               (score_keyword_optimization format_f body frontmatter primary_keyword).
Proof. unfold score_keyword_optimization. split_rule; show_max_score. Qed.

Lemma score_heading_structure_weight (body : string) :
  max_score (score_heading_structure body) = inject_Z SCORING.heading_structure.weight.
Proof.
  unfold score_heading_structure.
  destruct (fold_left hierarchy_step _ _) as [hierarchy_ok last_level].
  split_rule; reflexivity.
Qed.

Lemma score_readability_weight (body : string) :
  max_score (score_readability format_f pow_half body)
  = inject_Z SCORING.readability.weight.
Proof. unfold score_readability. split_rule; reflexivity. Qed.

Lemma score_local_seo_weight (body community : string) :
  max_score (score_local_seo re_search body community) = inject_Z SCORING.local_seo.weight.
Proof. unfold score_local_seo. split_rule; reflexivity. Qed.

Lemma score_meta_description_weight (frontmatter : pyval) (primary_keyword : string) :
  max_score_is SCORING.meta_description.weight
               (score_meta_description re_search frontmatter primary_keyword).
Proof. unfold score_meta_description. split_rule; show_max_score. Qed.

Lemma score_internal_linking_weight (body community : string) :
  max_score (score_internal_linking set_order body community)
  = inject_Z SCORING.internal_linking.weight.
Proof. unfold score_internal_linking. split_rule; reflexivity. Qed.

Lemma score_content_depth_weight (body : string) :
  max_score (score_content_depth re_search body) = inject_Z SCORING.content_depth.weight.
Proof. unfold score_content_depth. split_rule; reflexivity. Qed.

Lemma score_cta_weight (body : string) :
  max_score (score_cta re_search body) = inject_Z SCORING.call_to_action.weight.
Proof. unfold score_cta. split_rule; reflexivity. Qed.

Lemma score_frontmatter_weight (frontmatter : pyval) :
  max_score_is SCORING.frontmatter.weight (score_frontmatter frontmatter).
Proof. unfold score_frontmatter. split_rule; show_max_score. Qed.

End RuleWeights.

Lemma score_post_each_well_formed
      (re_search : string -> string -> bool) (yaml_safe_load : string -> result pyval)
      (format_f : nat -> Q -> string) (pow_half : Q -> Q)
      (set_order : list string -> list string)
      (content primary_keyword community : string) (index : Z) (r : ScoreReport) :
  score_post re_search yaml_safe_load format_f pow_half set_order
             content primary_keyword community index = Ok r ->
  Forall well_formed (details r).
Proof.
  intros H.
  destruct (score_post_details _ _ _ _ _ _ _ _ _ H)
    as (frontmatter & body & d2 & d6 & d10 & _ & K & Md & F & ->).
  pose proof (score_keyword_optimization_well_formed
                format_f body frontmatter primary_keyword) as W2.
  pose proof (score_meta_description_well_formed
                re_search frontmatter primary_keyword) as W6.
  pose proof (score_frontmatter_well_formed frontmatter) as W10.
  rewrite K in W2. rewrite Md in W6. rewrite F in W10.
  repeat apply Forall_cons; try apply Forall_nil;
    first [ exact W2 | exact W6 | exact W10
          | apply score_word_count_well_formed
          | apply score_heading_structure_well_formed
          | apply score_readability_well_formed
          | apply score_local_seo_well_formed
          | apply score_internal_linking_well_formed
          | apply score_content_depth_well_formed
          | apply score_cta_well_formed ].
Qed.

Section ReportTotals.

Variable re_search : string -> string -> bool.
Variable yaml_safe_load : string -> result pyval.
Variable format_f : nat -> Q -> string.
Variable pow_half : Q -> Q.
Variable set_order : list string -> list string.

(** Every report is out of 100: the maximum is the sum of the ten
    configured weights, the total is the sum of the category scores and
    lies between 0 and 100, and the percentage is the total divided by
    the maximum, times 100 (the branch for a maximum of 0 is never
    taken), between 0 and 100 as well.  The percentage is stated as
    the code computes it: over binary floating point numbers the
    quotient is rounded, and the percentage need not equal the total. *)
Theorem score_post_totals
        (content primary_keyword community : string) (index : Z) (r : ScoreReport) :
  score_post re_search yaml_safe_load format_f pow_half set_order
             content primary_keyword community index = Ok r ->
  max_possible r = 100%Q
  /\ total_score r = Qsum (map score (details r))
  /\ (0 <= total_score r /\ total_score r <= 100)%Q
  /\ report_percentage r = (total_score r / max_possible r * 100)%Q
  /\ (0 <= report_percentage r /\ report_percentage r <= 100)%Q
  /\ iteration r = index.
Proof.
  intros H.
  pose proof (score_post_each_well_formed _ _ _ _ _ _ _ _ _ H) as W.
  destruct (score_post_details _ _ _ _ _ _ _ _ _ H)
    as (frontmatter & body & d2 & d6 & d10 & P & K & Md & F & E).
  pose proof (score_keyword_optimization_weight format_f body frontmatter primary_keyword)
    as W2.
  pose proof (score_meta_description_weight re_search frontmatter primary_keyword) as W6.
  pose proof (score_frontmatter_weight frontmatter) as W10.
  rewrite K in W2. rewrite Md in W6. rewrite F in W10.
  cbv beta iota delta [max_score_is] in W2, W6, W10.
  unfold score_post in H. rewrite P in H. cbn [bind] in H.
  rewrite K in H. cbn [bind] in H. rewrite Md in H. cbn [bind] in H.
  rewrite F in H. cbn [bind] in H. apply Ok_inj in H.
  assert (M : max_possible r = 100%Q).
  { subst r. cbn [max_possible map].
    rewrite WordCount.max_score_is_weight, W2, score_heading_structure_weight,
      score_readability_weight, score_local_seo_weight, W6,
      score_internal_linking_weight, score_content_depth_weight, score_cta_weight, W10.
    reflexivity. }
  assert (T : total_score r = Qsum (map score (details r))).
  { subst r. reflexivity. }
  assert (B : (0 <= total_score r /\ total_score r <= 100)%Q).
  { rewrite T. destruct (Qsum_bounds W) as [B0 B1]. split; [exact B0|].
    eapply Qle_trans; [exact B1|].
    assert (M' : Qsum (map max_score (details r)) = 100%Q)
      by (rewrite <- M; subst r; reflexivity).
    rewrite M'. apply Qle_refl. }
  assert (Pc : report_percentage r = (total_score r / max_possible r * 100)%Q).
  { assert (Pc : report_percentage r
                 = (if Qltb 0 (max_possible r)
                    then (total_score r / max_possible r) * 100 else 0)%Q)
      by (subst r; reflexivity).
    rewrite Pc, M. change (Qltb 0 100) with true. reflexivity. }
  split; [exact M|]. split; [exact T|]. split; [exact B|]. split; [exact Pc|]. split.
  - rewrite Pc, M. destruct B as [B0 B1].
    assert (Same : (total_score r / 100 * 100 == total_score r)%Q) by field.
    rewrite Same. split; [exact B0|exact B1].
  - subst r. reflexivity.
Qed.

End ReportTotals.

Lemma score_post_totals_witness :
  exists r,
    empty_document_report = Ok r
    /\ max_possible r = 100%Q
    /\ total_score r = Qsum (map score (details r))
    /\ (0 <= total_score r /\ total_score r <= 100)%Q
    /\ report_percentage r = (total_score r / max_possible r * 100)%Q
    /\ (0 <= report_percentage r /\ report_percentage r <= 100)%Q
    /\ iteration r = 0%Z.
Proof.
  destruct empty_document_report as [r|e] eqn:E; [|vm_compute in E; discriminate E].
  exists r. split; [reflexivity|].
  exact (score_post_totals
           Plain.re_search Plain.yaml_safe_load Plain.format_f Plain.pow_half
           Plain.set_order "" "living in Powell Ohio" "Powell" 0 E).
Defined.

(** ** Preambles the engine scores without raising *)

(** The value of [key] in the preamble [d], when present, is a string. *)
Definition string_or_absent (key : string) (d : list (string * pyval)) : Prop :=
  match lookup key d with
  | None | Some (PStr _) => True
  | Some _ => False
  end.

(** The names of the ten categories, in the order of the report. *)
Definition category_names : list string :=
  ["Word Count"; "Keyword Optimization"; "Heading Structure"; "Readability";
   "Local SEO"; "Meta Description"; "Internal Linking"; "Content Depth";
   "Call to Action"; "Frontmatter"].

Definition returns_category (name : string) (r : result ScoreDetail) : Prop :=
  match r with
  | Ok d => category d = name
  | Raise _ => False
  end.

Ltac show_category :=
  cbv beta iota zeta delta [returns_category category]; reflexivity.

Lemma field_present_mapping (d : list (string * pyval)) (f : string) :
  exists b, field_present (PDict d) f = Ok b.
Proof.
  unfold field_present, py_in, py_getitem. cbn [bind].
  destruct (lookup f d) as [v|]; cbn [bind]; eexists; reflexivity.
Qed.

Lemma field_missing_mapping (d : list (string * pyval)) (f : string) :
  exists b, field_missing (PDict d) f = Ok b.
Proof.
  unfold field_missing, py_in, py_getitem. cbn [bind].
  destruct (lookup f d) as [v|]; cbn [bind negb]; eexists; reflexivity.
Qed.

Lemma filter_r_total {A} (f : A -> result bool) (l : list A) :
  (forall a, exists b, f a = Ok b) -> exists l', filter_r f l = Ok l'.
Proof.
  intros T. induction l as [|a l (l' & IH)]; cbn [filter_r].
  - eexists. reflexivity.
  - destruct (T a) as (b & ->). cbn [bind]. rewrite IH. cbn [bind].
    eexists. reflexivity.
Qed.

Section WellTypedPreamble.

Variable re_search : string -> string -> bool.
Variable yaml_safe_load : string -> result pyval.
Variable format_f : nat -> Q -> string.
Variable pow_half : Q -> Q.
Variable set_order : list string -> list string.

Lemma score_word_count_category (body : string) :
  category (score_word_count body) = "Word Count".
Proof. unfold score_word_count. split_rule; reflexivity. Qed.

Lemma score_heading_structure_category (body : string) :
  category (score_heading_structure body) = "Heading Structure".
Proof.
  unfold score_heading_structure.
  destruct (fold_left hierarchy_step _ _) as [hierarchy_ok last_level].
  split_rule; reflexivity.
Qed.

Lemma score_readability_category (body : string) :
  category (score_readability format_f pow_half body) = "Readability".
Proof. unfold score_readability. split_rule; reflexivity. Qed.

Lemma score_local_seo_category (body community : string) :
  category (score_local_seo re_search body community) = "Local SEO".
Proof. unfold score_local_seo. split_rule; reflexivity. Qed.

Lemma score_internal_linking_category (body community : string) :
  category (score_internal_linking set_order body community) = "Internal Linking".
Proof. unfold score_internal_linking. split_rule; reflexivity. Qed.

Lemma score_content_depth_category (body : string) :
  category (score_content_depth re_search body) = "Content Depth".
Proof. unfold score_content_depth. split_rule; reflexivity. Qed.

Lemma score_cta_category (body : string) :
  category (score_cta re_search body) = "Call to Action".
Proof. unfold score_cta. split_rule; reflexivity. Qed.

Lemma score_keyword_optimization_returns
      (body primary_keyword : string) (d : list (string * pyval)) :
  string_or_absent "title" d -> string_or_absent "description" d ->
  returns_category "Keyword Optimization"
                   (score_keyword_optimization format_f body (PDict d) primary_keyword).
Proof.
  unfold string_or_absent, score_keyword_optimization, py_get. intros T D.
  destruct (lookup "title" d) as [[| | | |title| | |]|]; try contradiction;
    destruct (lookup "description" d) as [[| | | |desc| | |]|]; try contradiction;
    cbn [bind py_lower]; split_rule; show_category.
Qed.

Lemma score_meta_description_returns (primary_keyword : string)
      (d : list (string * pyval)) :
  string_or_absent "description" d ->
  returns_category "Meta Description"
                   (score_meta_description re_search (PDict d) primary_keyword).
Proof.
  unfold string_or_absent, score_meta_description, py_get. intros D.
  destruct (lookup "description" d) as [[| | | |desc| | |]|]; try contradiction;
    cbn [bind]; destruct (negb (truthy _)); try show_category;
    cbn [bind py_len py_lower]; split_rule; show_category.
Qed.

Lemma score_frontmatter_returns (d : list (string * pyval)) :
  returns_category "Frontmatter" (score_frontmatter (PDict d)).
Proof.
  unfold score_frontmatter.
  destruct (filter_r_total (field_present (PDict d)) SCORING.frontmatter.required_fields
                           (field_present_mapping d)) as (present & ->).
  destruct (filter_r_total (field_missing (PDict d)) SCORING.frontmatter.required_fields
                           (field_missing_mapping d)) as (missing & ->).
  cbn [bind]. split_rule; show_category.
Qed.

Lemma score_post_on_mapping
      (content primary_keyword community body : string) (index : Z)
      (d : list (string * pyval)) :
  parse_frontmatter yaml_safe_load content = Ok (PDict d, body) ->
  string_or_absent "title" d ->
  string_or_absent "description" d ->
  exists r,
    score_post re_search yaml_safe_load format_f pow_half set_order
               content primary_keyword community index = Ok r
    /\ map category (details r) = category_names.
Proof.
  intros P T D. unfold score_post. rewrite P. cbn [bind].
  pose proof (score_keyword_optimization_returns body primary_keyword d T D) as K.
  pose proof (score_meta_description_returns primary_keyword d D) as Md.
  pose proof (score_frontmatter_returns d) as F.
  destruct (score_keyword_optimization format_f body (PDict d) primary_keyword)
    as [d2|e]; [|contradiction].
  destruct (score_meta_description re_search (PDict d) primary_keyword)
    as [d6|e]; [|contradiction].
  destruct (score_frontmatter (PDict d)) as [d10|e]; [|contradiction].
  cbn [bind returns_category] in *. eexists. split; [reflexivity|].
  cbn [details map].
  rewrite score_word_count_category, K, score_heading_structure_category,
    score_readability_category, score_local_seo_category, Md,
    score_internal_linking_category, score_content_depth_category,
    score_cta_category, F.
  reflexivity.
Qed.

(** Whenever the preamble is a mapping whose title and description are
    strings or absent (an absent or unparseable preamble counts, being
    read as the empty mapping), [score_post] returns a report, with the
    ten categories in their fixed order. *)
Theorem score_post_returns_on_string_fields
        (content primary_keyword community body : string) (index : Z)
        (d : list (string * pyval)) :
  parse_frontmatter yaml_safe_load content = Ok (PDict d, body) ->
  string_or_absent "title" d ->
  string_or_absent "description" d ->
  exists r,
    score_post re_search yaml_safe_load format_f pow_half set_order
               content primary_keyword community index = Ok r
    /\ map category (details r) = category_names.
Proof.
  intros P T D.
  exact (@score_post_on_mapping content primary_keyword community body index d P T D).
Qed.

(** A text that does not open with three dashes has no preamble: it is
    scored whole, as the body, whatever the YAML loader would do. *)
Theorem score_post_returns_without_preamble
        (content primary_keyword community : string) (index : Z) :
  PyStr.startswith content "---" = false ->
  parse_frontmatter yaml_safe_load content = Ok (PDict [], content)
  /\ exists r,
      score_post re_search yaml_safe_load format_f pow_half set_order
                 content primary_keyword community index = Ok r
      /\ map category (details r) = category_names.
Proof.
  intros S.
  assert (P : parse_frontmatter yaml_safe_load content = Ok (PDict [], content)).
  { unfold parse_frontmatter, Re.match_frontmatter. rewrite S. reflexivity. }
  split; [exact P|].
  apply (@score_post_on_mapping content primary_keyword community
           content index [] P); exact I.
Qed.

End WellTypedPreamble.

(** A document with a preamble, and a loader that reads it as a mapping
    with a title and a description. *)
Definition sample_preamble : list (string * pyval) :=
  [("title", PStr "Living in Powell Ohio");
   ("description", PStr "Discover what living in Powell Ohio is like.")].

Definition sample_document : string :=
  fstr ["---"; nl; "title: Living in Powell Ohio"; nl;
        "description: Discover what living in Powell Ohio is like."; nl;
        "---"; nl; "# Powell"; nl; nl; "Powell is a city in Delaware County."; nl].

Definition sample_yaml (text : string) : result pyval := Ok (PDict sample_preamble).

Lemma score_post_returns_on_string_fields_witness :
  exists r,
    score_post Plain.re_search sample_yaml Plain.format_f Plain.pow_half Plain.set_order
               sample_document "living in Powell Ohio" "Powell" 0 = Ok r
    /\ map category (details r) = category_names.
Proof.
  apply (@score_post_returns_on_string_fields
           Plain.re_search sample_yaml Plain.format_f Plain.pow_half Plain.set_order
           sample_document "living in Powell Ohio" "Powell"
           (fstr ["# Powell"; nl; nl; "Powell is a city in Delaware County."; nl])
           0 sample_preamble).
  - vm_compute. reflexivity.
  - exact I.
  - exact I.
Defined.

Lemma score_post_returns_without_preamble_witness :
  parse_frontmatter sample_yaml "Powell is a city." = Ok (PDict [], "Powell is a city.")
  /\ exists r,
      score_post Plain.re_search sample_yaml Plain.format_f Plain.pow_half
                 Plain.set_order "Powell is a city." "living in Powell Ohio" "Powell" 1
      = Ok r
      /\ map category (details r) = category_names.
Proof.
  apply (score_post_returns_without_preamble
           Plain.re_search sample_yaml Plain.format_f Plain.pow_half Plain.set_order
           "Powell is a city." "living in Powell Ohio" "Powell" 1).
  reflexivity.
Defined.

(** ** Preamble completeness *)

(** The required fields that [d] holds with a true value. *)
Definition fields_present (d : list (string * pyval)) : list string :=
  filter (fun f => match lookup f d with Some v => truthy v | None => false end)
         SCORING.frontmatter.required_fields.

Lemma filter_r_pure {A} (f : A -> result bool) (g : A -> bool) (l : list A) :
  (forall a, f a = Ok (g a)) -> filter_r f l = Ok (filter g l).
Proof.
  intros E. induction l as [|a l IH]; cbn [filter_r filter]; [reflexivity|].
  rewrite E, IH. cbn [bind]. destruct (g a); reflexivity.
Qed.

Lemma filter_negb_nil {A} (g : A -> bool) (l : list A) :
  forallb g l = true -> filter (fun a => negb (g a)) l = [].
Proof.
  induction l as [|a l IH]; cbn [forallb filter]; [reflexivity|].
  intros H. apply andb_true_iff in H. destruct H as [Ha Hl].
  rewrite Ha. cbn [negb]. apply IH. exact Hl.
Qed.

Lemma five_sevenths (k : nat) :
  (k <= 7)%nat -> ((5 * (inject_Z (Z.of_nat k) / 7) == 5)%Q <-> k = 7%nat).
Proof.
  intros Hk. unfold Qdiv. change (/ 7)%Q with (1 # 7)%Q. split.
  - intros H. assert (Hq : (inject_Z (Z.of_nat k) == inject_Z 7)%Q)
      by (change (inject_Z 7) with 7%Q; lra).
    apply (proj1 (inject_Z_injective _ _)) in Hq. lia.
  - intros ->. reflexivity.
Qed.

(** On a mapping, the Frontmatter rule never raises: its score is the
    weight times the fraction of the seven required fields that are
    present with a true value; it is the full weight exactly when all
    seven are, and then nothing is suggested. *)
Theorem score_frontmatter_fraction (d : list (string * pyval)) :
  exists detail,
    score_frontmatter (PDict d) = Ok detail
    /\ (score detail
        == inject_Z SCORING.frontmatter.weight
           * (inject_Z (len (fields_present d)) / 7))%Q
    /\ ((score detail == inject_Z SCORING.frontmatter.weight)%Q
        <-> fields_present d = SCORING.frontmatter.required_fields)
    /\ (fields_present d = SCORING.frontmatter.required_fields ->
        suggestions detail = []).
Proof.
  unfold score_frontmatter.
  rewrite (@filter_r_pure _ (field_present (PDict d))
             (fun f => match lookup f d with Some v => truthy v | None => false end)).
  2:{ intros f. unfold field_present, py_in, py_getitem. cbn [bind].
      destruct (lookup f d); reflexivity. }
  rewrite (@filter_r_pure _ (field_missing (PDict d))
             (fun f => negb match lookup f d with Some v => truthy v | None => false end)).
  2:{ intros f. unfold field_missing, py_in, py_getitem. cbn [bind].
      destruct (lookup f d); reflexivity. }
  cbn [bind]. fold (fields_present d).
  assert (Pl : (List.length (fields_present d) <= 7)%nat)
    by (unfold fields_present; apply (filter_length_le _ SCORING.frontmatter.required_fields)).
  assert (Full : fields_present d = SCORING.frontmatter.required_fields
                 <-> List.length (fields_present d) = 7%nat).
  { split; [intros ->; reflexivity|]. intros L7. unfold fields_present in *.
    apply filter_length_forallb in L7. apply forallb_filter_id. exact L7. }
  assert (Miss : fields_present d = SCORING.frontmatter.required_fields ->
                 filter (fun f => negb match lookup f d with
                                       | Some v => truthy v | None => false end)
                        SCORING.frontmatter.required_fields = []).
  { intros E. apply filter_negb_nil. apply filter_length_forallb.
    fold (fields_present d). rewrite E. reflexivity. }
  pose proof (five_sevenths Pl) as Arith.
  destruct (filter _ SCORING.frontmatter.required_fields) as [|m0 missing'] eqn:Em;
    (eexists; split; [reflexivity|]); cbn [score suggestions];
    change (inject_Z SCORING.frontmatter.weight) with 5%Q;
    change (inject_Z (len SCORING.frontmatter.required_fields)) with 7%Q;
    (split; [reflexivity|]);
    (split; [rewrite Full; exact Arith|]).
  - intros _. reflexivity.
  - intros E. specialize (Miss E). discriminate Miss.
Qed.

Definition complete_preamble : list (string * pyval) :=
  [("title", PStr "Living in Powell Ohio"); ("description", PStr "A guide to Powell.");
   ("date", PDate "2026-01-15"); ("keywords", PList [PStr "Powell"; PStr "Ohio"]);
   ("author", PStr "TD Realty Ohio"); ("community", PStr "Powell");
   ("category", PStr "Community Guide")].

Lemma score_frontmatter_fraction_witness :
  exists detail,
    score_frontmatter (PDict complete_preamble) = Ok detail
    /\ (score detail == inject_Z SCORING.frontmatter.weight)%Q
    /\ suggestions detail = [].
Proof.
  destruct (score_frontmatter_fraction complete_preamble) as (detail & E & _ & F & S).
  exists detail. split; [exact E|]. split.
  - apply F. reflexivity.
  - apply S. reflexivity.
Defined.

(** ** Heading hierarchy *)

(** The levels of the heading lines of a body, top to bottom. *)
Definition heading_levels (lines : list string) : list Z :=
  flat_map (fun line => match heading_level line with Some l => [l] | None => [] end)
           lines.

(** No heading is more than one level below the heading before it. *)
Fixpoint no_skip (levels : list Z) : bool :=
  match levels with
  | a :: (b :: _) as rest => (b <=? a + 1)%Z && no_skip rest
  | _ => true
  end.

Lemma heading_level_range (line : string) (l : Z) :
  heading_level line = Some l -> (1 <= l <= 4)%Z.
Proof.
  unfold heading_level.
  repeat match goal with
         | |- context [if ?c then _ else _] => destruct c
         end; intros H; try discriminate H; injection H as <-; lia.
Qed.

Lemma hierarchy_walk (lines : list string) (ok : bool) (last : Z) :
  (1 <= last)%Z ->
  fst (fold_left hierarchy_step lines (ok, last))
  = ok && no_skip (last :: heading_levels lines).
Proof.
  revert ok last. induction lines as [|line lines IH]; intros ok last Hl;
    cbn [fold_left heading_levels flat_map].
  - cbn. rewrite andb_true_r. reflexivity.
  - unfold hierarchy_step at 2. destruct (heading_level line) as [l|] eqn:E.
    + pose proof (heading_level_range _ E) as R.
      cbn [app]. rewrite IH by lia. fold (heading_levels lines).
      cbn [no_skip].
      destruct (Z.ltb_spec (last + 1) l), (Z.ltb_spec 0 last), (Z.leb_spec l (last + 1));
        try lia; cbn [andb]; destruct ok; reflexivity.
    + cbn [app]. apply IH. exact Hl.
Qed.

(** The hierarchy walk of [score_heading_structure] accepts a body
    exactly when no heading is more than one level deeper than the
    heading before it; the first heading is accepted at any level. *)
Theorem hierarchy_walk_no_skip (body : string) :
  fst (fold_left hierarchy_step (PyStr.split_on PyStr.newline body) (true, 0%Z))
  = no_skip (heading_levels (PyStr.split_on PyStr.newline body)).
Proof.
  generalize (PyStr.split_on PyStr.newline body). intros lines.
  induction lines as [|line lines IH]; cbn [fold_left heading_levels flat_map].
  - reflexivity.
  - unfold hierarchy_step at 2. destruct (heading_level line) as [l|] eqn:E.
    + pose proof (heading_level_range _ E) as R.
      rewrite andb_false_r. cbn [app]. rewrite hierarchy_walk by lia.
      reflexivity.
    + cbn [app]. exact IH.
Qed.

(** ** Call to action *)

(** The Call to Action score is 0 exactly when no pattern matches the
    body, and is at least half the weight otherwise. *)
Theorem score_cta_zero (re_search : string -> string -> bool) (body : string) :
  let matched := filter (fun p => re_search p (PyStr.lower body)) cta_patterns in
  ((score (score_cta re_search body) == 0)%Q <-> matched = [])
  /\ (matched <> [] ->
      (inject_Z SCORING.call_to_action.weight * 0.5 <= score (score_cta re_search body))%Q).
Proof.
  intros matched. unfold score_cta. fold matched.
  assert (N : (len matched = 0)%Z <-> matched = []).
  { unfold len. destruct matched; cbn [List.length]; split; intros H;
      try reflexivity; try discriminate H; lia. }
  assert (P : (0 <= len matched)%Z) by (unfold len; lia).
  unfold SCORING.call_to_action.target_cta_count_min,
    SCORING.call_to_action.target_cta_count_max.
  destruct (Z.leb_spec 2 (len matched)) as [A|A],
      (Z.leb_spec (len matched) 4) as [B|B],
      (Z.ltb_spec 4 (len matched)) as [C|C],
      (Z.eqb_spec (len matched) 1) as [D|D];
    try lia; cbn [andb score]; rewrite <- N.
  all: first
         [ (* a positive score *)
           split;
           [ split;
             [ intros Hq; exfalso; revert Hq; vm_compute; discriminate
             | intros Hm; lia ]
           | intros _; vm_compute; discriminate ]
         | (* no match *)
           split;
           [ split; [ intros _; lia | intros _; reflexivity ]
           | intros Hne; exfalso; apply Hne; apply N; lia ] ].
Qed.

Lemma score_cta_zero_witness :
  (inject_Z SCORING.call_to_action.weight * 0.5
   <= score (score_cta (fun _ _ => true) "Call us today or reach out."))%Q.
Proof.
  apply (score_cta_zero (fun _ _ => true) "Call us today or reach out.").
  discriminate.
Defined.

(** ** Partial credit *)

Ltac split_score :=
  hide_strings;
  repeat (first
    [ match goal with
      | |- context [bind ?r _] => destruct r; cbn [bind]
      end
    | match goal with
      | |- context [if ?c then _ else _] => destruct c; cbv beta iota zeta
      | |- context [match ?l with [] => _ | _ :: _ => _ end] =>
          destruct l; cbv beta iota zeta
      end ]);
  cbv beta iota zeta delta [score].

Lemma heading_structure_floor (body : string) :
  (3 # 4 <= score (score_heading_structure body))%Q.
Proof.
  unfold score_heading_structure.
  destruct (fold_left hierarchy_step _ _) as [hierarchy_ok last_level].
  split_score; vm_compute; discriminate.
Qed.

Lemma content_depth_floor (re_search : string -> string -> bool) (body : string) :
  (3 # 4 <= score (score_content_depth re_search body))%Q.
Proof. unfold score_content_depth. split_score; vm_compute; discriminate. Qed.

(** Heading Structure and Content Depth give partial credit even when
    their last check fails (0.3 of a quarter of the weight), so neither
    ever scores less than 0.75. *)
Theorem partial_credit_floor (re_search : string -> string -> bool) (body : string) :
  (inject_Z SCORING.heading_structure.weight / 4 * 0.3
   <= score (score_heading_structure body)
   /\ inject_Z SCORING.content_depth.weight / 4 * 0.3
      <= score (score_content_depth re_search body))%Q.
Proof.
  split.
  - eapply Qle_trans; [|exact (heading_structure_floor body)]. vm_compute. discriminate.
  - eapply Qle_trans; [|exact (content_depth_floor re_search body)].
    vm_compute. discriminate.
Qed.

Lemma Qsum_ten (a b c d e f g h i j : Q) :
  (Qsum [a; b; c; d; e; f; g; h; i; j] == a + b + c + d + e + f + g + h + i + j)%Q.
Proof. rewrite !Qsum_cons. unfold Qsum at 1. cbn [fold_left]. ring. Qed.

(** No report totals less than 1.5 points: the two rules that give
    partial credit for a failed check never score 0. *)
Theorem score_post_total_floor
        (re_search : string -> string -> bool) (yaml_safe_load : string -> result pyval)
        (format_f : nat -> Q -> string) (pow_half : Q -> Q)
        (set_order : list string -> list string)
        (content primary_keyword community : string) (index : Z) (r : ScoreReport) :
  score_post re_search yaml_safe_load format_f pow_half set_order
             content primary_keyword community index = Ok r ->
  (1.5 <= total_score r)%Q.
Proof.
  intros H.
  pose proof (score_post_each_well_formed _ _ _ _ _ _ _ _ _ H) as W.
  destruct (score_post_details _ _ _ _ _ _ _ _ _ H)
    as (frontmatter & body & d2 & d6 & d10 & P & K & Md & F & E).
  assert (T : total_score r = Qsum (map score (details r))).
  { unfold score_post in H. rewrite P in H. cbn [bind] in H.
    rewrite K in H. cbn [bind] in H. rewrite Md in H. cbn [bind] in H.
    rewrite F in H. cbn [bind] in H. apply Ok_inj in H. subst r. reflexivity. }
  rewrite T. rewrite E in W |- *. cbn [map]. rewrite Qsum_ten.
  pose proof (heading_structure_floor body) as Fh.
  pose proof (content_depth_floor re_search body) as Fc.
  repeat match goal with
         | W : Forall _ (_ :: _) |- _ =>
             let D := fresh "D" in
             let W' := fresh "W" in
             pose proof (Forall_inv W) as (D & _);
             pose proof (Forall_inv_tail W) as W'; clear W
         end.
  repeat match goal with
         | |- context [score ?d] =>
             let x := fresh "x" in
             generalize dependent (score d); intros x
         end.
  intros. lra.
Qed.

Lemma score_post_total_floor_witness :
  exists r, empty_document_report = Ok r /\ (1.5 <= total_score r)%Q.
Proof.
  destruct empty_document_report as [r|e] eqn:E; [|vm_compute in E; discriminate E].
  exists r. split; [reflexivity|].
  exact (score_post_total_floor
           Plain.re_search Plain.yaml_safe_load Plain.format_f Plain.pow_half
           Plain.set_order "" "living in Powell Ohio" "Powell" 0 E).
Defined.

(** ** A description that is present *)

(** A description that is a non-empty string is always scored, its
    length being the first finding, and never at less than 0.75: the
    last check gives partial credit when it fails.  Only an absent or
    empty description scores 0. *)
Theorem score_meta_description_present
        (re_search : string -> string -> bool)
        (d : list (string * pyval)) (desc primary_keyword : string) :
  lookup "description" d = Some (PStr desc) ->
  desc <> "" ->
  exists r,
    score_meta_description re_search (PDict d) primary_keyword = Ok r
    /\ (inject_Z SCORING.meta_description.weight / 4 * 0.3 <= score r)%Q
    /\ hd_error (findings r)
       = Some (fstr ["Meta description length: ";
                     str (Z.of_nat (String.length desc)); " chars"]).
Proof.
  intros L Ne. unfold score_meta_description, py_get. rewrite L. cbn [bind truthy].
  assert (E : (desc =? "")%string = false) by (apply String.eqb_neq; exact Ne).
  rewrite E. cbn [negb bind py_len py_lower].
  set (first_finding := fstr _).
  repeat match goal with
         | |- context [if ?c then _ else _] => destruct c; cbv beta iota zeta
         end.
  all: eexists; split; [reflexivity|]; cbn [score findings app hd_error];
    split; [vm_compute; discriminate|reflexivity].
Qed.

Lemma score_meta_description_present_witness :
  exists r,
    score_meta_description Plain.re_search (PDict complete_preamble)
                           "living in Powell Ohio" = Ok r
    /\ (inject_Z SCORING.meta_description.weight / 4 * 0.3 <= score r)%Q
    /\ hd_error (findings r) = Some "Meta description length: 18 chars".
Proof.
  apply (@score_meta_description_present
           Plain.re_search complete_preamble "A guide to Powell."
           "living in Powell Ohio").
  - reflexivity.
  - discriminate.
Defined.

(** ** Internal links *)

(** The internal links of a body: those whose target holds the site's
    domain or starts with a slash. *)
Definition internal_links_of (body : string) : list (string * string) :=
  filter (fun l => PyStr.contains "tdrealtyohio.com" (snd l)
                   || PyStr.startswith (snd l) "/")
         (Re.findall_links body).

(** Internal Linking scores 0 exactly when the body has no internal
    link: the service and the cross-community checks look at internal
    links only, so external links earn nothing; with an internal link
    the score is at least half a third of the weight. *)
Theorem score_internal_linking_zero
        (set_order : list string -> list string) (body community : string) :
  ((score (score_internal_linking set_order body community) == 0)%Q
   <-> internal_links_of body = [])
  /\ (internal_links_of body <> [] ->
      (inject_Z SCORING.internal_linking.weight / 3 * 0.5
       <= score (score_internal_linking set_order body community))%Q).
Proof.
  unfold score_internal_linking. fold (internal_links_of body).
  generalize (internal_links_of body). intros internal.
  unfold SCORING.internal_linking.target_min_links,
    SCORING.internal_linking.target_max_links.
  assert (N : (len internal = 0)%Z <-> internal = []).
  { unfold len. destruct internal; cbn [List.length]; split; intros H;
      try reflexivity; try discriminate H; lia. }
  assert (P : (0 <= len internal)%Z) by (unfold len; lia).
  assert (S0 : internal = [] ->
               existsb (fun l : string * string =>
                          existsb (fun kw => PyStr.contains kw (PyStr.lower (fst l))
                                             || PyStr.contains kw (PyStr.lower (snd l)))
                                  service_keywords) internal = false)
    by (intros ->; reflexivity).
  assert (C0 : internal = [] ->
               flat_map (fun l : string * string =>
                           filter (fun c =>
                                     PyStr.contains (PyStr.lower c) (PyStr.lower (fst l))
                                     || PyStr.contains (PyStr.lower c)
                                                       (PyStr.lower (snd l)))
                                  (other_communities_of community)) internal = [])
    by (intros ->; reflexivity).
  rewrite <- N in *.
  destruct (Z.leb_spec 3 (len internal)) as [A|A],
      (Z.leb_spec (len internal) 8) as [B|B],
      (Z.ltb_spec 0 (len internal)) as [C|C];
    try lia; cbn [andb].
  all: try (rewrite S0, C0 by lia).
  all: hide_strings.
  all: repeat match goal with
         | |- context [if ?c then _ else _] => destruct c; cbv beta iota zeta
         | |- context [match ?l with [] => _ | _ :: _ => _ end] =>
             destruct l; cbv beta iota zeta
         end.
  all: cbn [score].
  all: first
         [ split;
           [ split;
             [ intros Hq; exfalso; revert Hq; vm_compute; discriminate
             | intros Hm; lia ]
           | intros _; vm_compute; discriminate ]
         | split;
           [ split; [ intros _; lia | intros _; reflexivity ]
           | intros Hne; exfalso; apply Hne; lia ] ].
Qed.

Lemma score_internal_linking_zero_witness :
  (inject_Z SCORING.internal_linking.weight / 3 * 0.5
   <= score (score_internal_linking Plain.set_order
                                    "See [Dublin homes](/communities/dublin) today."
                                    "Powell"))%Q.
Proof.
  apply (score_internal_linking_zero
           Plain.set_order "See [Dublin homes](/communities/dublin) today." "Powell").
  vm_compute. discriminate.
Defined.

(** ** Lines that are not headings *)

Lemma marked_filters_length (lines : list string) :
  (List.length (filter (marked 1) lines) + List.length (filter (marked 2) lines)
   + List.length (filter (marked 3) lines) + List.length (filter (marked 4) lines)
   <= List.length lines)%nat.
Proof.
  induction lines as [|s lines IH]; cbn [filter List.length]; [lia|].
  destruct (marked 1 s) eqn:M1.
  { rewrite (marked_exclusive (j:=2) _ M1), (marked_exclusive (j:=3) _ M1),
      (marked_exclusive (j:=4) _ M1) by lia. cbn [List.length]. lia. }
  destruct (marked 2 s) eqn:M2.
  { rewrite (marked_exclusive (j:=3) _ M2), (marked_exclusive (j:=4) _ M2) by lia.
    cbn [List.length]. lia. }
  destruct (marked 3 s) eqn:M3.
  { rewrite (marked_exclusive (j:=4) _ M3) by lia. cbn [List.length]. lia. }
  destruct (marked 4 s); cbn [List.length]; lia.
Qed.

(** A line yields at most one heading, so the inventory never holds
    more headings than the body has lines; and a line that, once
    stripped, opens with no marker or with five or more leaves the
    inventory as it is. *)
Theorem extract_headings_at_most_one_per_line (body : string) :
  let hs := extract_headings body in
  (List.length (h1 hs) + List.length (h2 hs) + List.length (h3 hs) + List.length (h4 hs)
   <= List.length (PyStr.split_on PyStr.newline body))%nat
  /\ forall (inventory : Headings) (line : string),
      (marker_count (PyStr.strip line) = 0 \/ 5 <= marker_count (PyStr.strip line))%nat ->
      extract_headings_step inventory line = inventory.
Proof.
  intros hs. split.
  - destruct (extract_headings_fold (PyStr.split_on PyStr.newline body)
                                    (mkHeadings [] [] [] [])) as (E1 & E2 & E3 & E4).
    cbv zeta in *. unfold hs, extract_headings. rewrite E1, E2, E3, E4.
    cbn [h1 h2 h3 h4 app].
    unfold headings_at. rewrite !length_map.
    pose proof (marked_filters_length
                  (map PyStr.strip (PyStr.split_on PyStr.newline body))) as L.
    rewrite length_map in L. exact L.
  - intros inventory line M. unfold extract_headings_step.
    destruct (startswith_marked (PyStr.strip line)) as (E1 & E2 & E3 & E4).
    rewrite E1, E2, E3, E4. unfold marked.
    assert (N : forall k, (1 <= k <= 4)%nat ->
                          (marker_count (PyStr.strip line) =? k) = false)
      by (intros k Hk; apply Nat.eqb_neq; lia).
    rewrite !N by lia. reflexivity.
Qed.

Lemma extract_headings_at_most_one_per_line_witness :
  extract_headings_step (mkHeadings ["Powell"] [] [] []) "##### Too deep"
  = mkHeadings ["Powell"] [] [] [].
Proof.
  apply (extract_headings_at_most_one_per_line "").
  right. vm_compute. apply le_n.
Defined.

(** ** How [parse_frontmatter] splits a document *)


Lemma append_assoc' (a b c : string) : ((a ++ b) ++ c = a ++ (b ++ c))%string.
Proof. induction a as [|x a IH]; cbn; [reflexivity|]. rewrite IH. reflexivity. Qed.









(** * Further properties of the optimization loop *)

(** ** Extraction of the document from a reply *)

Lemma rstrip_newline (s : string) : PyStr.rstrip (s ++ nl) = PyStr.rstrip s.
Proof.
  induction s as [|c s IH]; [reflexivity|].
  cbn [append PyStr.rstrip]. rewrite IH. reflexivity.
Qed.

Lemma strip_between_newlines (s : string) :
  PyStr.strip (nl ++ s ++ nl) = PyStr.strip s.
Proof.
  unfold PyStr.strip. change (PyStr.lstrip (nl ++ s ++ nl)) with (PyStr.lstrip (s ++ nl)).
  induction s as [|c s IH]; [reflexivity|].
  cbn [append PyStr.lstrip]. destruct (PyStr.is_space c); [exact IH|].
  apply (rstrip_newline (String c s)).
Qed.

Lemma rindex_of_suffix (s : string) :
  rindex_of fence (s ++ fence) = Some (String.length s).
Proof.
  induction s as [|c s IH]; [reflexivity|].
  cbn [append rindex_of String.length]. rewrite IH. reflexivity.
Qed.

Lemma substring_prefix (a b : string) : String.substring 0 (String.length a) (a ++ b) = a.
Proof.
  induction a as [|c a IH]; cbn [append String.length String.substring].
  - destruct b; reflexivity.
  - rewrite IH. reflexivity.
Qed.

Lemma length_append (a b : string) :
  String.length (a ++ b) = String.length a + String.length b.
Proof. induction a as [|c a IH]; cbn [append String.length]; [reflexivity|]. rewrite IH. reflexivity. Qed.

(** A reply that wraps a document in a markdown code fence gives back
    the document, stripped, whatever the document contains (further
    fences included). *)
Theorem extract_markdown_fenced_document (doc : string) :
  extract_markdown ("```markdown" ++ nl ++ doc ++ nl ++ fence) = Ok (PyStr.strip doc).
Proof.
  unfold extract_markdown.
  set (response := ("```markdown" ++ nl ++ doc ++ nl ++ fence)%string).
  assert (C : PyStr.contains "```markdown" response = true).
  { unfold response. destruct doc; reflexivity. }
  assert (I : index_of "```markdown" response = Some 0).
  { unfold response. destruct doc; reflexivity. }
  assert (R : rindex_of fence response
              = Some (String.length ("```markdown" ++ nl ++ doc ++ nl)%string)).
  { unfold response.
    rewrite <- (rindex_of_suffix ("```markdown" ++ nl ++ doc ++ nl)).
    f_equal. rewrite !append_assoc'. reflexivity. }
  rewrite C, I, R. cbn [bind]. f_equal.
  rewrite <- (strip_between_newlines doc). f_equal.
  unfold slice, response.
  change (String.length "```markdown") with 11.
  change (PyStr.drop (0 + 11) ("```markdown" ++ nl ++ doc ++ nl ++ fence))
    with (nl ++ doc ++ nl ++ fence)%string.
  replace (String.length ("```markdown" ++ nl ++ doc ++ nl) - (0 + 11))
    with (String.length (nl ++ doc ++ nl)%string)
    by (rewrite !length_append; cbn [String.length]; lia).
  rewrite <- (substring_prefix (nl ++ doc ++ nl) fence) at 2.
  rewrite !append_assoc'. reflexivity.
Qed.

Lemma prefix_app (a b s : string) :
  String.prefix (a ++ b) s = true -> String.prefix a s = true.
Proof.
  revert s. induction a as [|c a IH]; intros s H; cbn [append] in *.
  - destruct s; reflexivity.
  - destruct s as [|x s]; cbn [String.prefix] in *; [discriminate H|].
    destruct (ascii_dec c x); [|discriminate H]. apply IH. exact H.
Qed.

Lemma contains_app (a b s : string) :
  PyStr.contains (a ++ b) s = true -> PyStr.contains a s = true.
Proof.
  induction s as [|x s IH]; cbn [PyStr.contains]; intros H.
  - rewrite orb_false_r in *. apply (prefix_app a b). exact H.
  - apply orb_true_iff in H. apply orb_true_iff. destruct H as [H|H].
    + left. apply (prefix_app a b). exact H.
    + right. apply IH. exact H.
Qed.

Lemma index_of_contains (sub s : string) :
  index_of sub s = None <-> PyStr.contains sub s = false.
Proof.
  induction s as [|x s IH]; cbn [index_of PyStr.contains].
  - destruct (String.prefix sub EmptyString); split; intros H;
      try discriminate H; reflexivity.
  - destruct (String.prefix sub (String x s)); cbn [orb].
    + split; intros H; discriminate H.
    + rewrite <- IH. destruct (index_of sub s); cbn [option_map]; split; intros H;
        try discriminate H; reflexivity.
Qed.

(** A reply without any code fence is taken whole, stripped; a reply
    that opens with a plain fence but holds no line feed cannot be cut
    after its first line, and the extraction raises [ValueError]. *)
Theorem extract_markdown_unfenced (response : string) :
  (PyStr.contains fence response = false ->
   extract_markdown response = Ok (PyStr.strip response))
  /\ (PyStr.contains "```markdown" response = false ->
      PyStr.startswith (PyStr.strip response) fence = true ->
      PyStr.contains fence response = true ->
      PyStr.contains nl response = false ->
      extract_markdown response = Raise (OtherError "ValueError")).
Proof.
  unfold extract_markdown. split.
  - intros F.
    assert (Mk : PyStr.contains "```markdown" response = false).
    { destruct (PyStr.contains "```markdown" response) eqn:E; [|reflexivity].
      rewrite <- F. symmetry. apply (contains_app fence "markdown"). exact E. }
    rewrite Mk, F. cbn [andb].
    destruct (PyStr.startswith (PyStr.strip response) "---"); reflexivity.
  - intros Mk S F N. rewrite Mk, F, S. cbn [andb].
    apply index_of_contains in N. rewrite N. reflexivity.
Qed.

Lemma extract_markdown_unfenced_witness :
  extract_markdown "  Powell is a city.  " = Ok "Powell is a city."
  /\ extract_markdown "```Powell is a city.```" = Raise (OtherError "ValueError").
Proof.
  split.
  - apply (extract_markdown_unfenced "  Powell is a city.  "). reflexivity.
  - apply (extract_markdown_unfenced "```Powell is a city.```"); reflexivity.
Defined.

(** ** Requests, failures and the run history *)

(** The history records each iteration under its index; the initial
    record carries no improvement, and every later record carries its
    score minus the score of the record just before it. *)
Definition well_recorded (h : list IterationRecord) : Prop :=
  (forall k r, nth_error h k = Some r -> rec_iteration r = Z.of_nat k)
  /\ (forall r0, nth_error h 0 = Some r0 -> rec_improvement r0 = None)
  /\ (forall k p r,
         nth_error h k = Some p -> nth_error h (S k) = Some r ->
         rec_improvement r = Some (rec_score r - rec_score p)%Q).

Lemma nth_error_Some_lt {A} (l : list A) (k : nat) (a : A) :
  nth_error l k = Some a -> (k < List.length l)%nat.
Proof. intros H. apply nth_error_Some. rewrite H. discriminate. Qed.

Section RunAccounting.

Local Open Scope Z_scope.

Variable call_claude : nat -> string -> result string.
Variable score_post : string -> string -> string -> Z -> result ScoreReport.
Variable get_generation_prompt : string -> string -> string -> string -> Z -> string.
Variable get_improvement_prompt : string -> ScoreReport -> string -> string -> Z -> string.
Variable year : Z.

Let iterate' := iterate call_claude score_post get_improvement_prompt.
Let improvement_loop' := improvement_loop call_claude score_post get_improvement_prompt.
Let run_optimization' :=
  run_optimization call_claude score_post get_generation_prompt
                   get_improvement_prompt year.

(** A property of the state kept by every iteration run at the index
    that follows the history is kept by the loop over the indices that
    follow the history. *)
Lemma improvement_loop_invariant (Inv : RunState -> Prop) (kw community : string) :
  (forall st st' n n',
      iterate' kw community st (len (history st)) n = (Ok st', n') -> Inv st -> Inv st') ->
  forall (m : nat) (st st' : RunState) (n n' : nat),
    improvement_loop' kw community
                      (range (len (history st)) (len (history st) + Z.of_nat m)) st n
    = (Ok st', n') ->
    Inv st -> Inv st'.
Proof.
  intros Step. induction m as [|m IH]; intros st st' n n' H I.
  - rewrite range_nil in H. unfold improvement_loop' in H. cbn [improvement_loop] in H.
    unfold ret in H. injection H as <- _. exact I.
  - rewrite range_cons in H. unfold improvement_loop' in H.
    cbn [improvement_loop] in H. unfold bindM at 1 in H. fold iterate' in H.
    destruct (iterate' kw community st (len (history st)) n) as [[st1|e] n1] eqn:I1;
      [|discriminate H].
    pose proof (Step _ _ _ _ I1 I) as I'.
    pose proof (@history_grows call_claude score_post get_improvement_prompt
                               _ _ _ _ _ _ _ I1) as Hg.
    destruct (ITERATIONS.plateau_patience <=? plateau_count st1).
    + unfold ret in H. injection H as <- _. exact I'.
    + rewrite <- Hg in H. fold improvement_loop' in H. exact (IH _ _ _ _ H I').
Qed.

Lemma improvement_loop_requests (kw community : string) (indices : list Z) :
  forall (st st' : RunState) (n n' : nat),
    improvement_loop' kw community indices st n = (Ok st', n') ->
    (n' + List.length (history st) = n + List.length (history st'))%nat.
Proof.
  induction indices as [|i rest IH]; intros st st' n n' H;
    unfold improvement_loop' in H; cbn [improvement_loop] in H.
  - unfold ret in H. injection H as <- <-. reflexivity.
  - unfold bindM at 1 in H. fold iterate' in H.
    destruct (iterate' kw community st i n) as [[st1|e] n1] eqn:I1; [|discriminate H].
    destruct (@iterate_Ok call_claude score_post get_improvement_prompt _ _ _ _ _ _ _ I1)
      as (new_content & new_report & _ & -> & _ & _ & Hh & _).
    assert (L : List.length (history st1) = S (List.length (history st)))
      by (rewrite Hh, length_app; cbn [List.length]; lia).
    destruct (ITERATIONS.plateau_patience <=? plateau_count st1).
    + unfold ret in H. injection H as <- <-. lia.
    + fold improvement_loop' in H. specialize (IH _ _ _ _ H). lia.
Qed.

(** The history state of the loop: the records are well formed and the
    current report is the one of the last record. *)
Definition history_kept (st : RunState) : Prop :=
  well_recorded (history st)
  /\ exists p, nth_error (history st) (List.length (history st) - 1) = Some p
               /\ total_score (report st) = rec_score p.

Lemma iterate_history_kept (kw community : string) (st st' : RunState) (n n' : nat) :
  iterate' kw community st (len (history st)) n = (Ok st', n') ->
  history_kept st -> history_kept st'.
Proof.
  intros H ((Wi & W0 & Wd) & (p & Np & Tp)).
  destruct (@iterate_Ok call_claude score_post get_improvement_prompt _ _ _ _ _ _ _ H)
    as (new_content & new_report & _ & _ & _ & R & Hh & _).
  set (new := mkIterationRecord _ _ _ _ _) in Hh.
  assert (Lpos : (0 < List.length (history st))%nat).
  { destruct (history st); [cbn in Np; discriminate Np|cbn; lia]. }
  assert (Last : nth_error (history st') (List.length (history st)) = Some new).
  { rewrite Hh, nth_error_app2 by lia. rewrite Nat.sub_diag. reflexivity. }
  assert (Old : forall k, (k < List.length (history st))%nat ->
                          nth_error (history st') k = nth_error (history st) k).
  { intros k Hk. rewrite Hh. apply nth_error_app1. exact Hk. }
  assert (Len : List.length (history st') = S (List.length (history st)))
    by (rewrite Hh, length_app; cbn [List.length]; lia).
  assert (Bound : forall k r, nth_error (history st') k = Some r ->
                              (k <= List.length (history st))%nat).
  { intros k r Hk. apply nth_error_Some_lt in Hk. lia. }
  split; [split; [|split]|].
  - intros k r Hk. pose proof (Bound _ _ Hk) as Bk.
    destruct (Nat.eq_dec k (List.length (history st))) as [->|Ne].
    + rewrite Last in Hk. injection Hk as <-. reflexivity.
    + rewrite Old in Hk by lia. apply Wi. exact Hk.
  - intros r0 H0. rewrite Old in H0 by lia. apply W0. exact H0.
  - intros k q r Hq Hr. pose proof (Bound _ _ Hr) as Bk.
    destruct (Nat.eq_dec (S k) (List.length (history st))) as [E|Ne].
    + rewrite E, Last in Hr. injection Hr as <-.
      rewrite Old in Hq by lia.
      replace k with (List.length (history st) - 1)%nat in Hq by lia.
      rewrite Np in Hq. injection Hq as <-.
      unfold new. cbn [rec_improvement rec_score]. rewrite Tp. reflexivity.
    + rewrite Old in Hq, Hr by lia. exact (Wd _ _ _ Hq Hr).
  - exists new. rewrite Len. replace (S (List.length (history st)) - 1)%nat
      with (List.length (history st)) by lia.
    split; [exact Last|]. rewrite R. reflexivity.
Qed.

(** The history of a finished run: one record per scored document,
    under consecutive indices from 0; the improvement of a record is
    its score minus the score of the iteration just before it (not the
    best so far); the scores returned are those of the records. *)
Theorem run_history_well_recorded
        (community content_type : string)
        (primary_keyword : option string) (iterations : option Z)
        (n0 n1 : nat) (r : RunResult) :
  run_optimization' community content_type primary_keyword iterations n0 = (Ok r, n1) ->
  well_recorded (improvement_history r)
  /\ all_scores r = map rec_score (improvement_history r)
  /\ iterations_run r = len (improvement_history r) - 1
  /\ 0 <= iterations_run r.
Proof.
  intros H.
  destruct (@run_optimization_Ok call_claude score_post get_generation_prompt
              get_improvement_prompt year _ _ _ _ _ _ _ H)
    as (kw & content0 & report0 & st & L & ->).
  cbv zeta in L.
  set (st0 := mkRunState content0 report0 _ content0 _ 0 0 _) in L.
  rewrite range_to_nat in L. change 1 with (len (history st0)) in L at 1 2.
  assert (K : history_kept st).
  { apply (@improvement_loop_invariant history_kept kw community
             (@iterate_history_kept kw community) _ _ _ _ _ L).
    split; [split; [|split]|].
    - intros [|[|k]] r Hk; cbn in Hk; try discriminate Hk.
      injection Hk as <-. reflexivity.
    - intros r0 H0. cbn in H0. injection H0 as <-. reflexivity.
    - intros k p r Hp Hr. cbn in Hr. destruct k; discriminate Hr.
    - eexists. split; reflexivity. }
  cbn [improvement_history all_scores iterations_run].
  split; [exact (proj1 K)|]. split; [reflexivity|]. split; [reflexivity|].
  destruct K as (_ & p & Np & _). apply nth_error_Some_lt in Np. unfold len. lia.
Qed.

(** A successful run has sent exactly one request per document it
    scored: the initial one and one per revision iteration. *)
Theorem run_requests_per_document
        (community content_type : string)
        (primary_keyword : option string) (iterations : option Z)
        (n0 n1 : nat) (r : RunResult) :
  run_optimization' community content_type primary_keyword iterations n0 = (Ok r, n1) ->
  Z.of_nat n1 = Z.of_nat n0 + 1 + iterations_run r
  /\ len (all_scores r) = iterations_run r + 1.
Proof.
  intros H.
  destruct (@run_optimization_Ok call_claude score_post get_generation_prompt
              get_improvement_prompt year _ _ _ _ _ _ _ H)
    as (kw & content0 & report0 & st & L & ->).
  cbv zeta in L. apply improvement_loop_requests in L.
  cbn [history List.length] in L.
  cbn [iterations_run all_scores]. unfold len. rewrite length_map. lia.
Qed.

(** An unknown content type ends the run with [SystemExit] before any
    request is sent; a failure of the first request, or of the scoring
    of the initial document, ends the run with that exception after
    that single request: nothing is retried. *)
Theorem run_fails_without_retry
        (community content_type : string)
        (primary_keyword : option string) (iterations : option Z) (n0 : nat) :
  (CONTENT_TYPES.find content_type CONTENT_TYPES.table = None ->
   run_optimization' community content_type primary_keyword iterations n0
   = (Raise (OtherError "SystemExit"), n0))
  /\ (forall e,
         CONTENT_TYPES.find content_type CONTENT_TYPES.table <> None ->
         (forall prompt, call_claude n0 prompt = Raise e) ->
         run_optimization' community content_type primary_keyword iterations n0
         = (Raise e, S n0))
  /\ (forall e,
         CONTENT_TYPES.find content_type CONTENT_TYPES.table <> None ->
         (forall prompt, exists reply content,
               call_claude n0 prompt = Ok reply /\ extract_markdown reply = Ok content) ->
         (forall content kw, score_post content kw community 0 = Raise e) ->
         run_optimization' community content_type primary_keyword iterations n0
         = (Raise e, S n0)).
Proof.
  unfold run_optimization', run_optimization.
  destruct (CONTENT_TYPES.find content_type CONTENT_TYPES.table)
    as [[description pattern]|].
  - split; [intros H; discriminate H|]. split.
    + intros e _ C. unfold bindM at 1. unfold ask at 1. rewrite C. reflexivity.
    + intros e _ C S. unfold bindM at 1. unfold ask at 1.
      match goal with
      | |- context [call_claude n0 ?p] => destruct (C p) as (reply & content0 & -> & E)
      end.
      unfold bindM at 1. unfold lift at 1. rewrite E.
      unfold bindM at 1. unfold lift at 1. rewrite S. reflexivity.
  - split; [intros _; reflexivity|].
    split; intros e N; exfalso; apply N; reflexivity.
Qed.

End RunAccounting.

Lemma run_history_well_recorded_witness :
  exists r requests,
    Scripted.run Scripted.plateau_totals (Some 5%Z) = (Ok r, requests)
    /\ well_recorded (improvement_history r)
    /\ all_scores r = map rec_score (improvement_history r)
    /\ iterations_run r = (len (improvement_history r) - 1)%Z
    /\ (0 <= iterations_run r)%Z.
Proof.
  destruct (Scripted.run Scripted.plateau_totals (Some 5%Z)) as [[r|e] requests] eqn:E;
    [|vm_compute in E; discriminate E].
  exists r, requests. split; [reflexivity|].
  exact (run_history_well_recorded
           Scripted.call_claude (Scripted.score_post Scripted.plateau_totals)
           Scripted.get_generation_prompt Scripted.get_improvement_prompt 2026
           "Powell" "community_guide" None (Some 5%Z) 0 E).
Defined.

Lemma run_requests_per_document_witness :
  exists r requests,
    Scripted.run Scripted.plateau_totals (Some 5%Z) = (Ok r, requests)
    /\ Z.of_nat requests = (Z.of_nat 0 + 1 + iterations_run r)%Z
    /\ len (all_scores r) = (iterations_run r + 1)%Z.
Proof.
  destruct (Scripted.run Scripted.plateau_totals (Some 5%Z)) as [[r|e] requests] eqn:E;
    [|vm_compute in E; discriminate E].
  exists r, requests. split; [reflexivity|].
  exact (run_requests_per_document
           Scripted.call_claude (Scripted.score_post Scripted.plateau_totals)
           Scripted.get_generation_prompt Scripted.get_improvement_prompt 2026
           "Powell" "community_guide" None (Some 5%Z) 0 E).
Defined.

Lemma run_fails_without_retry_witness :
  run_optimization Scripted.call_claude (Scripted.score_post Scripted.plateau_totals)
                   Scripted.get_generation_prompt Scripted.get_improvement_prompt 2026
                   "Powell" "recipe" None (Some 5%Z) 0
  = (Raise (OtherError "SystemExit"), 0)
  /\ run_optimization (fun _ _ => Raise (OtherError "APIConnectionError"))
                      (Scripted.score_post Scripted.plateau_totals)
                      Scripted.get_generation_prompt Scripted.get_improvement_prompt 2026
                      "Powell" "community_guide" None (Some 5%Z) 0
     = (Raise (OtherError "APIConnectionError"), 1).
Proof.
  split.
  - apply (run_fails_without_retry
             Scripted.call_claude (Scripted.score_post Scripted.plateau_totals)
             Scripted.get_generation_prompt Scripted.get_improvement_prompt 2026
             "Powell" "recipe" None (Some 5%Z) 0).
    reflexivity.
  - destruct (run_fails_without_retry
                (fun _ _ => Raise (OtherError "APIConnectionError"))
                (Scripted.score_post Scripted.plateau_totals)
                Scripted.get_generation_prompt Scripted.get_improvement_prompt 2026
                "Powell" "community_guide" None (Some 5%Z) 0) as (_ & Failed & _).
    apply Failed.
    + discriminate.
    + intros prompt. reflexivity.
Defined.

(** * The batch runner ([batch.py]) *)

(** One entry of the batch report. *)
Inductive BatchEntry : Type :=
| BatchSuccess (community : string) (best_score : Q) (iterations : Z) (improvement : Q)
| BatchError (community : string) (error : exn).


(** [isinstance(e, Exception)]: what [except Exception] catches.  The
    exits and interrupts derive from [BaseException] only. *)
Definition is_exception (e : exn) : bool :=
  match e with
  | OtherError name =>
      negb (existsb (String.eqb name) ["SystemExit"; "KeyboardInterrupt"; "GeneratorExit"])
  | _ => true
  end.

(** [all_scores[-1] - all_scores[0] if len(all_scores) > 1 else 0] *)
Definition batch_improvement (scores : list Q) : Q :=
  if (1 <? len scores)%Z then (last scores 0 - nth 0 scores 0)%Q else 0%Q.

(** The communities of the batch: all the configured ones, or the ones
    given; with neither, the runner exits. *)
Definition batch_communities (all : bool) (communities : option (list string))
  : result (list string) :=
  if all then Ok BUSINESS.communities
  else match communities with
       | Some (c :: cs) => Ok (c :: cs)
       | _ => Raise (OtherError "SystemExit")
       end.

Section Batch.

(** The collaborator of the run for a community: every run has a
    client, and a request count, of its own. *)
Variable call_claude : string -> nat -> string -> result string.
Variable score_post : string -> string -> string -> Z -> result ScoreReport.
Variable get_generation_prompt : string -> string -> string -> string -> Z -> string.
Variable get_improvement_prompt : string -> ScoreReport -> string -> string -> Z -> string.
Variable year : Z.

Definition batch_run (content_type : string) (iterations : Z) (community : string)
  : result RunResult :=
  fst (run_optimization (call_claude community) score_post get_generation_prompt
                        get_improvement_prompt year community content_type None
                        (Some iterations) 0).

(** The loop of [main]: a run that raises an exception yields an error
    entry; anything else that is raised leaves the loop. *)
Fixpoint batch_loop (content_type : string) (iterations : Z) (communities : list string)
         (results : list BatchEntry) : result (list BatchEntry) :=
  match communities with
  | [] => Ok results
  | community :: rest =>
      match batch_run content_type iterations community with
      | Ok r =>
          batch_loop content_type iterations rest
                     (results ++ [BatchSuccess community (res_best_score r)
                                               (iterations_run r)
                                               (batch_improvement (all_scores r))])
      | Raise e =>
          if is_exception e
          then batch_loop content_type iterations rest (results ++ [BatchError community e])
          else Raise e
      end
  end.

Definition batch_main (content_type : string) (communities : option (list string))
           (all : bool) (iterations : Z) : result (list BatchEntry) :=
  selected <- batch_communities all communities ;;
  batch_loop content_type iterations selected [].

End Batch.


Section BatchProperties.

Local Open Scope Z_scope.

Variable call_claude : string -> nat -> string -> result string.
Variable score_post : string -> string -> string -> Z -> result ScoreReport.
Variable get_generation_prompt : string -> string -> string -> string -> Z -> string.
Variable get_improvement_prompt : string -> ScoreReport -> string -> string -> Z -> string.
Variable year : Z.

(** The collaborators raise exceptions only (no exit, no interrupt). *)
Hypothesis call_claude_exceptions :
  forall community n prompt e,
    call_claude community n prompt = Raise e -> is_exception e = true.
Hypothesis score_post_exceptions :
  forall content kw community i e,
    score_post content kw community i = Raise e -> is_exception e = true.






End BatchProperties.

Section BatchAbort.

Variable call_claude : string -> nat -> string -> result string.
Variable score_post : string -> string -> string -> Z -> result ScoreReport.
Variable get_generation_prompt : string -> string -> string -> string -> Z -> string.
Variable get_improvement_prompt : string -> ScoreReport -> string -> string -> Z -> string.
Variable year : Z.

(** The exit of [run_optimization] on an unknown content type is not an
    exception: the batch does not catch it.  With an unknown content
    type the batch ends on that exit at its first community, whatever
    the selection, and writes no report. *)
Theorem batch_exits_on_unknown_content_type
        (content_type : string) (communities : option (list string)) (all : bool)
        (iterations : Z) :
  CONTENT_TYPES.find content_type CONTENT_TYPES.table = None ->
  batch_main call_claude score_post get_generation_prompt get_improvement_prompt year
             content_type communities all iterations
  = Raise (OtherError "SystemExit").
Proof.
  intros Unknown. unfold batch_main, batch_communities.
  assert (First : forall c cs,
             batch_loop call_claude score_post get_generation_prompt
                        get_improvement_prompt year content_type iterations
                        (c :: cs) []
             = Raise (OtherError "SystemExit")).
  { intros c cs. cbn [batch_loop]. unfold batch_run, run_optimization.
    rewrite Unknown. reflexivity. }
  destruct all.
  - cbn [bind]. apply First.
  - destruct communities as [[|c cs]|]; cbn [bind]; [reflexivity|apply First|reflexivity].
Qed.

(** The improvement a batch entry reports is the last score minus the
    initial score; it never exceeds the gain of the best document over
    the initial one, which is never negative. *)
Theorem batch_improvement_at_most_best_gain
        (community content_type : string)
        (primary_keyword : option string) (iterations : option Z)
        (n0 n1 : nat) (r : RunResult) :
  run_optimization (call_claude community) score_post get_generation_prompt
                   get_improvement_prompt year community content_type
                   primary_keyword iterations n0
  = (Ok r, n1) ->
  (batch_improvement (all_scores r) <= res_best_score r - nth 0 (all_scores r) 0
   /\ 0 <= res_best_score r - nth 0 (all_scores r) 0)%Q.
Proof.
  intros H.
  destruct (@run_optimization_Ok (call_claude community) score_post
              get_generation_prompt get_improvement_prompt year _ _ _ _ _ _ _ H)
    as (kw & content0 & report0 & st & L & ->).
  cbv zeta in L.
  assert (K : best_kept st).
  { apply (@improvement_loop_best_kept (call_claude community) score_post
             get_improvement_prompt _ _ _ _ _ _ _ L).
    unfold best_kept. cbn [written history best_iteration best_content best_score].
    split; [left; reflexivity|]. split.
    - eexists. split; [left; reflexivity|]. split; reflexivity.
    - apply Forall_cons; [apply Qle_refl|apply Forall_nil]. }
  destruct K as (_ & (rec & Recorded & _) & F).
  cbn [all_scores res_best_score].
  assert (Fs : Forall (fun s => (s <= best_score st)%Q) (map rec_score (history st)))
    by (apply Forall_map; exact F).
  set (scores := map rec_score (history st)) in *.
  assert (Any : forall s, In s scores -> (s <= best_score st)%Q)
    by (apply Forall_forall; exact Fs).
  assert (First : scores <> [] -> (nth 0 scores 0 <= best_score st)%Q).
  { intros Ne. apply Any. destruct scores; [contradiction|left; reflexivity]. }
  assert (Last : scores <> [] -> (last scores 0 <= best_score st)%Q).
  { intros Ne. apply Any. destruct (exists_last Ne) as (l & a & ->).
    rewrite last_last. apply in_or_app. right. left. reflexivity. }
  assert (Ne : scores <> []).
  { intros E. apply (in_map rec_score) in Recorded. fold scores in Recorded.
    rewrite E in Recorded. exact Recorded. }
  specialize (First Ne). specialize (Last Ne).
  unfold batch_improvement. destruct (1 <? len scores)%Z; split; lra.
Qed.

End BatchAbort.

(** Collaborators for a batch in which the requests for one community
    fail. *)
Module BatchScript.
Definition call_claude (failing community : string) (n : nat) (prompt : string)
  : result string :=
  if String.eqb community failing
  then Raise (OtherError "APIConnectionError")
  else Scripted.call_claude n prompt.
End BatchScript.


Lemma batch_exits_on_unknown_content_type_witness :
  batch_main (BatchScript.call_claude "Dublin")
             (Scripted.score_post Scripted.plateau_totals)
             Scripted.get_generation_prompt Scripted.get_improvement_prompt 2026
             "recipe" (Some ["Powell"; "Dublin"]) false 5
  = Raise (OtherError "SystemExit").
Proof.
  apply (@batch_exits_on_unknown_content_type
           (BatchScript.call_claude "Dublin")
           (Scripted.score_post Scripted.plateau_totals)
           Scripted.get_generation_prompt Scripted.get_improvement_prompt 2026).
  reflexivity.
Defined.

Lemma batch_improvement_at_most_best_gain_witness :
  exists r requests,
    Scripted.run Scripted.plateau_totals (Some 5%Z) = (Ok r, requests)
    /\ (batch_improvement (all_scores r) <= res_best_score r - nth 0 (all_scores r) 0
        /\ 0 <= res_best_score r - nth 0 (all_scores r) 0)%Q.
Proof.
  destruct (Scripted.run Scripted.plateau_totals (Some 5%Z)) as [[r|e] requests] eqn:E;
    [|vm_compute in E; discriminate E].
  exists r, requests. split; [reflexivity|].
  exact (@batch_improvement_at_most_best_gain
           (fun _ => Scripted.call_claude) (Scripted.score_post Scripted.plateau_totals)
           Scripted.get_generation_prompt Scripted.get_improvement_prompt 2026
           "Powell" "community_guide" None (Some 5%Z) 0 requests r E).
Defined.
